(** * dataio.download: the dataset reconciliation pass [download_dataset_v2]

    A shallow embedding of [src/dataio/download/__init__.py], lines 212-443.
    Python sets are [gset string], the dictionary of folder names is a
    [gmap string string], lists are lists, and the effects of the pass (the
    local file tree, the calls made to the S3 client, warnings and prints)
    are threaded through a small state, exception and output monad.

    What lies outside the source is modelled as follows.
    - A Python [str] is the string of its UTF-8 bytes; where the source
      counts characters of an identifier ([dsid[0:2]]) the model counts
      code points.
    - Paths are strings and [os.path] is [posixpath]; the local tree is
      keyed by the spelling of a path, so two spellings of one file are
      two entries, and a walk yields a file under the spelling it has in
      the tree.  [os.walk] itself spells a file as its top followed by
      the names of the directory entries; a statement about a file the
      program wrote under a spelling of its own carries the hypothesis
      that the two spellings agree ([walk_spelled]).
    - Timestamps are integers; a file or directory written during the pass
      gets the reading of one clock for both of its timestamps.
    - The S3 client answers from a fixed bucket content; a download may
      raise, and then the pass stops where it is.
    - A Python set is iterated in the order of [elements]; no statement
      below depends on that order.
    - [warnings.warn] and [print] are recorded as calls, one per
      execution of the statement; what the interpreter's warning filters
      later display is not modelled. *)

From Stdlib Require Import Ascii String ZArith Bool.
From stdpp Require Import gmap strings list fin_maps.

Open Scope string_scope.
Set Warnings "-clear-no-such-hyp".

(** ** Python [str] operations used by the source *)

Module PyStr.

(** [file.startswith(p)] *)
Definition startswith (file p : string) : bool := String.prefix p file.

(** [item in file]: [item] occurs in [file] at some offset. *)
Fixpoint contains (file item : string) : bool :=
  String.prefix item file ||
  match file with
  | EmptyString => false
  | String _ rest => contains rest item
  end.

(** [file.endswith(suffix)]: [suffix] is [file] from some offset on. *)
Fixpoint endswith (file suffix : string) : bool :=
  String.eqb file suffix ||
  match file with
  | EmptyString => false
  | String _ rest => endswith rest suffix
  end.

(** [s.split(sep)] for a one-character separator. *)
Fixpoint split (sep : ascii) (s : string) : list string :=
  match s with
  | EmptyString => [EmptyString]
  | String c rest =>
      if Ascii.eqb c sep then EmptyString :: split sep rest
      else match split sep rest with
           | piece :: pieces => String c piece :: pieces
           | [] => [String c EmptyString]
           end
  end.

(** [s[n:]] *)
Fixpoint slice_from (n : nat) (s : string) : string :=
  match n, s with
  | O, _ => s
  | S _, EmptyString => EmptyString
  | S n', String _ rest => slice_from n' rest
  end.

(** [x in l] for a list of strings. *)
Definition in_list (x : string) (l : list string) : bool :=
  existsb (String.eqb x) l.

End PyStr.

(** ** [os.path] (the POSIX flavour, [posixpath]) *)

Module OsPath.

Definition sep : string := "/".

(** [os.path.join(a, b)]: an absolute [b] replaces [a]; a separator is
    added unless [a] is empty or already ends with one. *)
Definition join (a b : string) : string :=
  if PyStr.startswith b sep then b
  else if String.eqb a "" || PyStr.endswith a sep then a ++ b
  else a ++ sep ++ b.

Definition join3 (a b c : string) : string := join (join a b) c.

(** [p.rfind("/") + 1]: the length of [p] up to and including its last
    separator, [0] when there is none. *)
Fixpoint rfind_sep_succ (p : string) : nat :=
  match p with
  | EmptyString => 0
  | String c rest =>
      match rfind_sep_succ rest with
      | O => if Ascii.eqb c "/" then 1 else 0
      | S k => S (S k)
      end
  end.

Fixpoint take (n : nat) (s : string) : string :=
  match n, s with
  | O, _ => EmptyString
  | S _, EmptyString => EmptyString
  | S n', String c rest => String c (take n' rest)
  end.

Fixpoint all_sep (s : string) : bool :=
  match s with
  | EmptyString => true
  | String c rest => Ascii.eqb c "/" && all_sep rest
  end.

(** [s.rstrip("/")] *)
Fixpoint rstrip_sep (s : string) : string :=
  match s with
  | EmptyString => EmptyString
  | String c rest => if all_sep s then EmptyString else String c (rstrip_sep rest)
  end.

(** [os.path.dirname(p)] *)
Definition dirname (p : string) : string :=
  let head := take (rfind_sep_succ p) p in
  if negb (String.eqb head "") && negb (all_sep head) then rstrip_sep head
  else head.

End OsPath.

(** ** Exceptions

    The source raises [ValueError] and [TypeError] with fixed messages; the
    constructors below name the raising sites. *)

Inductive exn : Type :=
| InvalidState (data_state : string)          (* ValueError, line 261 *)
| DatasetNotFound (dsid data_state : string)  (* ValueError, line 276 *)
| AttributeError                              (* [None.get], line 270 *)
| AmbiguousSelection (repeats : gset string)  (* ValueError, line 305 *)
| NoFilesMatched                              (* ValueError, line 354 *)
| TypeError (msg : string)                    (* lines 291, 314, 335 *)
| TransferError (key : string)                (* raised by the S3 client *)
| DocsNotFound (dsid : string).               (* raised by the documentation fetch *)

Inductive result (A : Type) : Type :=
| Ok (a : A)
| Raise (e : exn).
Arguments Ok {A} a.
Arguments Raise {A} e.

(** ** The criteria filter (lines 286-354) *)

(** A criteria group as the caller passes it: [None], a [str], a [list] of
    strings, or a value of any other type. *)
Inductive criterion : Type :=
| CNone
| CStr (s : string)
| CList (items : list string)
| COther.

Module Filter.

(** The loop of lines 296-305.  [firstLoop] is threaded as the source
    threads it: the first branch assigns the set and leaves the flag as it
    is. *)
Fixpoint any_loop (files_found : list string) (items : list string)
    (files_containing_any : gset string) (firstLoop : bool)
    : result (gset string) :=
  match items with
  | [] => Ok files_containing_any
  | item :: items' =>
      let files_containing_this_item :=
        List.filter (fun file => PyStr.contains file item) files_found in
      if firstLoop then
        any_loop files_found items' (list_to_set files_containing_this_item) firstLoop
      else if forallb (fun f => bool_decide (f ∉ files_containing_any))
                      files_containing_this_item then
        any_loop files_found items'
                 (files_containing_any ∪ list_to_set files_containing_this_item) firstLoop
      else
        Raise (AmbiguousSelection
                 (files_containing_any ∩ list_to_set files_containing_this_item))
  end.

(** Lines 287-307. *)
Definition files_containing_any (files_found : list string)
    (contains_any : criterion) : result (gset string) :=
  match contains_any with
  | CNone => Ok (list_to_set files_found)
  | CStr s => any_loop files_found [s] ∅ true
  | CList items => any_loop files_found items ∅ true
  | COther => Raise (TypeError "contains_any must be a string, list, or None.")
  end.

(** The loop shared, up to the test applied to each file, by lines 319-326
    ([item in file]) and lines 339-345 ([file.endswith(suffix)]): the first
    iteration assigns, the later ones intersect. *)
Fixpoint narrow_loop (test : string -> string -> bool)
    (files_found : list string) (items : list string)
    (acc : gset string) (firstLoop : bool) : gset string :=
  match items with
  | [] => acc
  | item :: items' =>
      let this : gset string :=
        list_to_set (List.filter (fun file => test file item) files_found) in
      if firstLoop then narrow_loop test files_found items' this false
      else narrow_loop test files_found items' (acc ∩ this) false
  end.

(** Lines 310-328. *)
Definition files_containing_all (files_found : list string)
    (contains_all : criterion) : result (gset string) :=
  match contains_all with
  | CNone => Ok (list_to_set files_found)
  | CStr s => Ok (narrow_loop PyStr.contains files_found [s] ∅ true)
  | CList items => Ok (narrow_loop PyStr.contains files_found items ∅ true)
  | COther => Raise (TypeError "contains_all must be a string, list, or None.")
  end.

(** Lines 331-347. *)
Definition files_with_suffixes (files_found : list string)
    (suffixes : criterion) : result (gset string) :=
  match suffixes with
  | CNone => Ok (list_to_set files_found)
  | CStr s => Ok (narrow_loop PyStr.endswith files_found [s] ∅ true)
  | CList items => Ok (narrow_loop PyStr.endswith files_found items ∅ true)
  | COther => Raise (TypeError "suffixes must be a string, list, or None.")
  end.

(** Lines 286-354: the three subsets in source order, their intersection,
    and the emptiness check. *)
Definition files_to_download (files_found : list string)
    (contains_all contains_any suffixes : criterion) : result (gset string) :=
  match files_containing_any files_found contains_any with
  | Raise e => Raise e
  | Ok any =>
      match files_containing_all files_found contains_all with
      | Raise e => Raise e
      | Ok all =>
          match files_with_suffixes files_found suffixes with
          | Raise e => Raise e
          | Ok suf =>
              let selected := any ∩ (all ∩ suf) in
              if decide (selected = ∅) then Raise NoFilesMatched else Ok selected
          end
      end
  end.

End Filter.

(** ** The world of one pass *)

(** An entry of the local tree: a file or a directory with the two
    timestamps the source reads ([os.path.getmtime], [os.path.getctime]). *)
Record inode : Type := Inode {
  is_dir : bool;
  st_mtime : Z;
  st_ctime : Z
}.

(** Calls that leave the process, in program order. *)
Inductive event : Type :=
| EvHeadObject (bucket key : string)               (* client.head_object *)
| EvDownloadFile (bucket key filename : string)    (* client.download_file *)
| EvMakedirs (directory : string)                  (* os.makedirs *)
| EvRemove (path : string)                         (* os.remove *)
| EvWriteFile (path content : string)              (* open(path, 'wb').write *)
| EvWarn (msg : string)                            (* warnings.warn *)
| EvPrint (msg : string)                           (* print of a string *)
| EvPrintList (items : list string).               (* print of a list *)

(** The local tree, keyed by path as the program spells it. *)
Abbreviation local_tree := (gmap string inode).

Record s3object : Type := S3Object {
  Key : string;
  LastModified : Z
}.

(** What a bucket answers to the two listings and to [head_object]. *)
Record bucket : Type := Bucket_ {
  CommonPrefixes : list (option string); (* what search('CommonPrefixes') yields over
                                            the pages of paginate(Delimiter='/'): the
                                            ['Prefix'] of each folder, and [None] for
                                            a page that has no folder *)
  Contents : list (list s3object)        (* the objects, tranche by tranche *)
}.

(** Everything the pass reads but does not change.  [data_state_buckets] is
    the table of [settings.yaml], a packaged resource; it is taken as given. *)
Record environment : Type := Environment {
  data_state_buckets : gmap string string;
  s3 : string -> bucket;
  platform_system : string;
  clock : Z;
  download_fails : string -> bool;
  fetch_data_documentation : string -> result (option string * option string)
}.

(** The keyword arguments of [download_dataset_v2] (lines 212-225). *)
Record arguments : Type := Arguments_ {
  dsid : string;
  data_state : string;
  contains_all : criterion;
  contains_any : criterion;
  suffixes : criterion;
  datadir : string;
  update : bool;
  clean : bool;
  fetch_docs : bool;
  check_for_expected_files : bool;
  expected_file_list : list (option string);
  verbose : bool
}.

(** ** The monad of a pass

    A computation reads and updates the local tree and appends to the
    sequence of calls; a raise keeps the tree and the calls as far as they
    got (the source has no handler and no rollback). *)

Definition pass (A : Type) : Type :=
  local_tree -> result A * local_tree * list event.

Definition res {A} (o : result A * local_tree * list event) : result A := fst (fst o).
Definition tree_of {A} (o : result A * local_tree * list event) : local_tree := snd (fst o).
Definition calls {A} (o : result A * local_tree * list event) : list event := snd o.

Definition pure {A} (a : A) : pass A := fun t => (Ok a, t, []).

Definition bind {A B} (m : pass A) (k : A -> pass B) : pass B :=
  fun t => match m t with
           | (Ok a, t1, evs1) =>
               match k a t1 with
               | (r, t2, evs2) => (r, t2, (evs1 ++ evs2)%list)
               end
           | (Raise e, t1, evs1) => (Raise e, t1, evs1)
           end.

Definition raise {A} (e : exn) : pass A := fun t => (Raise e, t, []).

Definition lift {A} (r : result A) : pass A := fun t => (r, t, []).

Notation "'let*' x ':=' m 'in' k" := (bind m (fun x => k))
  (at level 10, x name, m at level 100, k at level 200).
Notation "m '>>' k" := (bind m (fun _ => k))
  (at level 90, right associativity).

Definition emit (e : event) : pass unit := fun t => (Ok tt, t, [e]).

Definition when (b : bool) (m : pass unit) : pass unit :=
  if b then m else pure tt.

(** [for x in xs: body(x)] *)
Fixpoint for_each {A} (body : A -> pass unit) (xs : list A) : pass unit :=
  match xs with
  | [] => pure tt
  | x :: xs' => body x >> for_each body xs'
  end.

(** ** The operating system and the S3 client, as the pass uses them *)

Module Os.

(** [os.path.exists(p)] *)
Definition path_exists (p : string) : pass bool :=
  fun t => (Ok (bool_decide (is_Some (t !! p))), t, []).

Definition stat_field (f : inode -> Z) (p : string) : pass Z :=
  fun t => (Ok (from_option f 0%Z (t !! p)), t, []).

Definition getmtime : string -> pass Z := stat_field st_mtime.
Definition getctime : string -> pass Z := stat_field st_ctime.

(** The chain [d], [dirname d], ... of directories [os.makedirs] walks. *)
Fixpoint ancestors (fuel : nat) (d : string) : list string :=
  match fuel with
  | O => []
  | S fuel' =>
      if String.eqb d "" || OsPath.all_sep d then []
      else d :: ancestors fuel' (OsPath.dirname d)
  end.

Definition mkdir (now : Z) (t : local_tree) (d : string) : local_tree :=
  match t !! d with
  | Some _ => t
  | None => <[d := Inode true now now]> t
  end.

(** [os.makedirs(d)]: [d] and the missing directories above it (its
    failure on an empty path is not modelled). *)
Definition makedirs (now : Z) (d : string) : pass unit :=
  fun t => (Ok tt,
            foldl (mkdir now) t (ancestors (S (String.length d)) d),
            [EvMakedirs d]).

(** [os.remove(p)] *)
Definition remove (p : string) : pass unit :=
  fun t => (Ok tt, delete p t, [EvRemove p]).

(** [open(p, 'wb').write(content)] *)
Definition write_file (now : Z) (p content : string) : pass unit :=
  fun t => (Ok tt, <[p := Inode false now now]> t, [EvWriteFile p content]).

(** The directory a walk of [top] descends from, with its separator. *)
Definition walk_root (top : string) : string :=
  if PyStr.endswith top OsPath.sep then top else top ++ OsPath.sep.

(** [p] is spelled as a path strictly below [top]. *)
Definition below (top p : string) : bool :=
  negb (String.eqb top "")
  && PyStr.startswith p (walk_root top)
  && negb (String.eqb p (walk_root top)).

(** The [os.path.join(root, file)] of every [(root, dirs, files)] that
    [os.walk(top)] yields: the files of the tree below [top], each under
    the spelling it has in the tree.  [os.walk] spells a file as the root
    of the walk followed by entry names; the two agree on the paths that
    are [walk_spelled]. *)
Definition walk_files (top : string) : pass (list string) :=
  fun t =>
    (Ok (List.filter (below top)
           (map fst (List.filter (fun e => negb (is_dir (snd e))) (map_to_list t)))),
     t, []).

End Os.

Module S3.

(** [paginate(Bucket=b, Prefix=prefix)]: per tranche, the objects whose key
    begins with [prefix]. *)
Definition list_objects_v2 (b : bucket) (prefix : string) : list (list s3object) :=
  map (List.filter (fun o => PyStr.startswith (Key o) prefix)) (Contents b).

Definition lookup_object (b : bucket) (key : string) : option s3object :=
  List.find (fun o => String.eqb (Key o) key) (concat (Contents b)).

(** [client.head_object(Bucket, Key)['LastModified'].timestamp()] *)
Definition head_object (env : environment) (Bucket key : string) : pass Z :=
  emit (EvHeadObject Bucket key) >>
  match lookup_object (s3 env Bucket) key with
  | Some o => pure (LastModified o)
  | None => raise (TransferError key)
  end.

(** Whether [client.download_file] raises: the transport fails, the object
    is missing, or [filename] is a directory. *)
Definition download_raises (env : environment) (Bucket key filename : string)
    (t : local_tree) : bool :=
  download_fails env key
  || from_option is_dir false (t !! filename)
  || negb (bool_decide (is_Some (lookup_object (s3 env Bucket) key))).

(** [client.download_file(Bucket, Key, Filename)]: the call is recorded,
    then it either raises or leaves a fresh file at [filename]. *)
Definition download_file (env : environment) (Bucket key filename : string) : pass unit :=
  emit (EvDownloadFile Bucket key filename) >>
  fun t =>
    if download_raises env Bucket key filename t
    then (Raise (TransferError key), t, [])
    else (Ok tt, <[filename := Inode false (clock env) (clock env)]> t, []).

End S3.

(** ** [download_dataset_v2] *)

(** Lines 259-261. *)
Definition lookup_bucket (env : environment) (data_state : string) : result string :=
  match data_state_buckets env !! data_state with
  | Some b => Ok b
  | None => Raise (InvalidState data_state)
  end.

(** [folder.split("-")[0]] *)
Definition leading_segment (folder : string) : string :=
  hd "" (PyStr.split "-" folder).

(** The loop of lines 269-271 over what the search yields: a folder is
    entered under its leading segment, a later folder with the same
    segment replacing an earlier one; on a yielded [None] the call
    [prefix.get] raises. *)
Fixpoint dsid_names_loop (yielded : list (option string))
    (dsid_names : gmap string string) : result (gmap string string) :=
  match yielded with
  | [] => Ok dsid_names
  | None :: _ => Raise AttributeError
  | Some folder :: rest =>
      dsid_names_loop rest (<[leading_segment folder := folder]> dsid_names)
  end.

(** Lines 268-271. *)
Definition dsid_names (yielded : list (option string)) : result (gmap string string) :=
  dsid_names_loop yielded ∅.

(** Lines 268-276. *)
Definition resolve_prefix (yielded : list (option string)) (dsid data_state : string)
    : result string :=
  match dsid_names yielded with
  | Raise e => Raise e
  | Ok names =>
      match names !! dsid with
      | Some dsid_name => Ok dsid_name
      | None => Raise (DatasetNotFound dsid data_state)
      end
  end.

(** Lines 282-284. *)
Definition collect_files (tranches : list (list s3object)) : list string :=
  foldl (fun files_found tranch =>
           (files_found ++
            List.filter (fun key => negb (PyStr.endswith key "/")) (map Key tranch))%list)
        [] tranches.

(** The text of the warning of lines 366-368. *)
Definition unix_warning (datadir : string) : string :=
  "Due to limitations in UNIX systems, update will not check to ensure that you've not"
  ++ "changed files locally. Prune local dir '" ++ datadir ++ "'"
  ++ "if you have made changes, or set 'update' to False.".

(** The body of the loop of lines 361-404, for one selected key. *)
Definition sync_file (env : environment) (a : arguments) (Bucket file_path : string)
    : pass unit :=
  let destination_path := OsPath.join (datadir a) file_path in
  when (negb (String.eqb (platform_system env) "Windows") && update a)
       (emit (EvWarn (unix_warning (datadir a)))) >>
  let* present := Os.path_exists destination_path in
  if update a && present then
    let* local_last_modified_time := Os.getmtime destination_path in
    let* local_creation_time := Os.getctime destination_path in
    let* s3_last_modified_time := S3.head_object env Bucket file_path in
    if (local_creation_time <? local_last_modified_time)%Z then
      S3.download_file env Bucket file_path destination_path >>
      when (verbose a)
           (emit (EvPrint ("Local file '" ++ destination_path ++
                           "' has been modified since last download. Redownloading...")))
    else if (local_creation_time <? s3_last_modified_time)%Z then
      S3.download_file env Bucket file_path destination_path >>
      when (verbose a)
           (emit (EvPrint ("File '" ++ file_path ++
                           "' has been updated on S3. Redownloading...")))
    else
      when (verbose a)
           (emit (EvPrint ("File '" ++ file_path ++ "' is up to date with S3. Ignoring...")))
  else
    let directory := OsPath.dirname destination_path in
    let* dir_present := Os.path_exists directory in
    when (negb dir_present) (Os.makedirs (clock env) directory) >>
    S3.download_file env Bucket file_path destination_path >>
    when (verbose a)
         (emit (EvPrint ("File '" ++ file_path ++ "' has been downloaded from S3."))).

(** Lines 408-410. *)
Definition exception_fnames (dsid_name : string) : list string :=
  map (OsPath.join dsid_name) ["datadictionary.yaml"; "metadata.yaml"].

(** Line 412; [os.path.join(datadir)] is [datadir]. *)
Definition datadir_prefix_length (datadir : string) : nat :=
  String.length datadir + 1.

(** Line 416. *)
Definition file_path_relative (datadir file_path : string) : string :=
  PyStr.slice_from (datadir_prefix_length datadir) file_path.

(** Line 417. *)
Definition extraneous (datadir dsid_name : string) (files_found : list string)
    (file_path : string) : bool :=
  negb (PyStr.in_list (file_path_relative datadir file_path) files_found)
  && negb (PyStr.in_list (file_path_relative datadir file_path)
                         (exception_fnames dsid_name)).

(** Lines 415-420, the body of the inner loop for one walked file. *)
Definition prune_file (a : arguments) (dsid_name : string) (files_found : list string)
    (file_path : string) : pass unit :=
  when (extraneous (datadir a) dsid_name files_found file_path)
       (when (verbose a) (emit (EvWarn ("Deleting extraneous file: " ++ file_path))) >>
        Os.remove file_path).

(** Lines 408-420, the body of [if clean:]. *)
Definition prune (a : arguments) (dsid_name : string) (files_found : list string)
    : pass unit :=
  emit (EvPrintList (exception_fnames dsid_name)) >>
  let* walked := Os.walk_files (OsPath.join (datadir a) dsid_name) in
  for_each (prune_file a dsid_name files_found) walked.

(** Lines 426-434 and 435-443: one documentation artifact. *)
Definition write_doc (env : environment) (a : arguments) (dsid_name fname : string)
    (content : option string) : pass unit :=
  match content with
  | Some bytes =>
      let doc_file_path := OsPath.join3 (datadir a) dsid_name fname in
      Os.makedirs (clock env) (OsPath.dirname doc_file_path) >>
      Os.write_file (clock env) doc_file_path bytes
  | None => pure tt
  end.

(** Lines 424-443, the body of [if fetch_docs:]. *)
Definition write_docs (env : environment) (a : arguments) (dsid_name : string)
    : pass unit :=
  let* docs := lift (fetch_data_documentation env (dsid a)) in
  write_doc env a dsid_name "metadata.yaml" (fst docs) >>
  write_doc env a dsid_name "datadictionary.yaml" (snd docs).

(** Lines 264-284: the folder of the dataset and the keys under it. *)
Definition files_found_in (env : environment) (Bucket dsid_name : string) : list string :=
  collect_files (S3.list_objects_v2 (s3 env Bucket) dsid_name).

(** The whole function. *)
Definition download_dataset_v2 (env : environment) (a : arguments) : pass unit :=
  let* Bucket := lift (lookup_bucket env (data_state a)) in
  let* dsid_name :=
    lift (resolve_prefix (CommonPrefixes (s3 env Bucket)) (dsid a) (data_state a)) in
  let files_found := files_found_in env Bucket dsid_name in
  let* files_to_download :=
    lift (Filter.files_to_download files_found
            (contains_all a) (contains_any a) (suffixes a)) in
  for_each (sync_file env a Bucket) (elements files_to_download) >>
  when (clean a) (prune a dsid_name files_found) >>
  when (fetch_docs a) (write_docs env a dsid_name).

(** * The single-file helpers

    [download_file_from_URI] (download/__init__.py, lines 12-77) and
    [upload_file_to_URI] (upload/__init__.py, lines 4-15). *)

Module PyStrMore.

(** [s.removeprefix(p)] *)
Definition removeprefix (s p : string) : string :=
  if PyStr.startswith s p then PyStr.slice_from (String.length p) s else s.

Fixpoint find_at (c : ascii) (s : string) (i : Z) : Z :=
  match s with
  | EmptyString => (-1)%Z
  | String x rest => if Ascii.eqb x c then i else find_at c rest (i + 1)%Z
  end.

(** [s.find(c, start)] for a one-character [c]: the first index at or
    after [start], or [-1]. *)
Definition find (c : ascii) (start : nat) (s : string) : Z :=
  find_at c (PyStr.slice_from start s) (Z.of_nat start).

(** [sep.join(pieces)] *)
Fixpoint join_with (sep : string) (pieces : list string) : string :=
  match pieces with
  | [] => ""
  | [piece] => piece
  | piece :: rest => piece ++ sep ++ join_with sep rest
  end.

End PyStrMore.

(** The arguments of the one [client.upload_file] call. *)
Record upload_call : Type := UploadCall {
  up_Filename : string;
  up_Bucket : string;
  up_Key : string
}.

(** upload/__init__.py, lines 4-15; [file_name] is [file.name]. *)
Definition upload_file_to_URI (URI file_name : string) : upload_call :=
  let URI := PyStrMore.removeprefix URI "s3://" in
  let Bucket := hd "" (PyStr.split "/" URI) in
  let Key := PyStrMore.removeprefix URI (Bucket ++ "/") in
  UploadCall file_name Bucket Key.

(** How a call of [download_file_from_URI] ends: a [ValueError] of the
    function itself, an error of the temporary-file creation or of list
    indexing, which the function does not catch, or the returned triple. *)
Inductive uri_result : Type :=
| UriValueError (msg : string)
| UriOSError
| UriIndexError
| UriReturned (path : option string) (success : bool) (error : option exn).

Module FromURI.

(** Lines 28-41. *)
Definition check_URI (URI : string) : option string :=
  if negb (PyStr.startswith URI "s3://") then
    Some "Invalid URI. URI should start with 's3://'."
  else
    let first_slash_index := PyStrMore.find "/" 5 URI in
    if (first_slash_index =? -1)%Z || (first_slash_index =? 5)%Z then
      Some "Invalid URI. URI should contain characters between 's3://' and the subsequent '/'."
    else if (first_slash_index =? Z.of_nat (String.length URI) - 1)%Z then
      Some "Invalid URI. URI should contain characters after the subsequent '/'."
    else None.

(** Lines 53-57: the text after the last dot, when there is a dot and
    that text is not empty. *)
Definition extension (URI : string) : option string :=
  let parts := PyStr.split "." URI in
  if Nat.ltb (length parts) 2 || String.eqb (List.last parts "") "" then None
  else Some (List.last parts "").

(** Lines 70-71. *)
Definition bucket_of (URI : string) : option string :=
  nth_error (PyStr.split "/" URI) 2.

Definition key_of (URI : string) : string :=
  PyStrMore.join_with "/" (skipn 3 (PyStr.split "/" URI)).

(** Lines 69-77: the download, with every exception caught. *)
Definition fetch (env : environment) (URI destination : string) (t : local_tree)
    (before : list event) : uri_result * local_tree * list event :=
  match bucket_of URI with
  | None => (UriIndexError, t, before)
  | Some bucket =>
      match S3.download_file env bucket (key_of URI) destination t with
      | (Ok _, t', evs) => (UriReturned (Some destination) true None, t', (before ++ evs)%list)
      | (Raise e, t', evs) => (UriReturned None false (Some e), t', (before ++ evs)%list)
      end
  end.

(** Lines 12-77.  [named_temporary_file suffix] is the name of the file
    [NamedTemporaryFile(suffix=suffix, delete=False)] creates, or [None]
    when the creation raises. *)
Definition download_file_from_URI (env : environment)
    (named_temporary_file : string -> option string)
    (URI : string) (path : option string) (temp : bool) (t : local_tree)
    : uri_result * local_tree * list event :=
  match check_URI URI with
  | Some msg => (UriValueError msg, t, [])
  | None =>
      match path with
      | None =>
          if negb temp then
            (UriValueError "Either temp must be True or a path must be provided.", t, [])
          else
            match extension URI with
            | None => (UriValueError "No extension found in the URI.", t, [])
            | Some ext =>
                match named_temporary_file ("." ++ ext) with
                | None => (UriOSError, t, [])
                | Some name =>
                    fetch env URI name
                          (<[name := Inode false (clock env) (clock env)]> t) []
                end
            end
      | Some dir =>
          let warned :=
            if temp
            then [EvWarn "Since path is provided, a temporary directory will not be created."]
            else [] in
          if negb (bool_decide (is_Some (t !! dir))) then
            (UriValueError "The provided path does not exist.", t, warned)
          else
            match extension URI with
            | None => (UriValueError "No extension found in the URI.", t, warned)
            | Some _ =>
                let filename := List.last (PyStr.split "/" URI) "" in
                fetch env URI (OsPath.join dir filename) t warned
            end
      end
  end.

End FromURI.

(** * [fetch_data_documentation] (download/__init__.py, lines 80-209) *)

(** What [requests.get(url)] answers: the status code, the ['tree'] entry
    of the JSON body when there is one (the ['path'] of each file), and
    the raw content. *)
Record response : Type := Response {
  status_code : nat;
  json_tree : option (list string);
  content : string
}.

Inductive doc_warning : Type :=
| UnexpectedKeys (which : string) (keys : gset string)
| MissingKeys (which : string) (keys : gset string) (stacklevel : nat)
| NoCustomValues (which : string).

(** Calls that leave the process, in program order. *)
Inductive doc_event : Type :=
| DocWarn (w : doc_warning)
| DocGet (url : string).

(** How the function ends: a [ValueError], an error of the YAML loader,
    or the returned pair, raw or parsed. *)
Inductive doc_result (Y : Type) : Type :=
| DocValueError (msg : string)
| DocYAMLError
| DocBytes (metadata datadict : string)
| DocParsed (metadata datadict : Y).
Arguments DocValueError {Y} msg.
Arguments DocYAMLError {Y}.
Arguments DocBytes {Y} metadata datadict.
Arguments DocParsed {Y} metadata datadict.

Module Docs.

(** The number of bytes of the UTF-8 sequence that begins with [c]. *)
Definition utf8_width (c : ascii) : nat :=
  let n := nat_of_ascii c in
  if Nat.ltb n 192 then 1 else if Nat.ltb n 224 then 2
  else if Nat.ltb n 240 then 3 else 4.

(** Whether [c] continues a UTF-8 sequence (the bytes [10xxxxxx]). *)
Definition utf8_continues (c : ascii) : bool :=
  let n := nat_of_ascii c in Nat.leb 128 n && Nat.ltb n 192.

(** The first [n] code points of [s], after the [pending] bytes that
    finish the code point under way. *)
Fixpoint take_code_points (n pending : nat) (s : string) : string :=
  match s with
  | EmptyString => EmptyString
  | String c rest =>
      match pending with
      | S pending' => String c (take_code_points n pending' rest)
      | O =>
          match n with
          | O => EmptyString
          | S n' => String c (take_code_points n' (utf8_width c - 1) rest)
          end
      end
  end.

(** [new] before every code point of [s] and at its end. *)
Fixpoint interleave (new s : string) : string :=
  match s with
  | EmptyString => new
  | String c rest =>
      if utf8_continues c then String c (interleave new rest)
      else new ++ String c (interleave new rest)
  end.

Fixpoint replace_from (fuel : nat) (old new s : string) : string :=
  match fuel with
  | O => s
  | S fuel' =>
      if String.prefix old s then
        new ++ replace_from fuel' old new (PyStr.slice_from (String.length old) s)
      else
        match s with
        | EmptyString => EmptyString
        | String c rest => String c (replace_from fuel' old new rest)
        end
  end.

(** [s.replace(old, new)]: every occurrence, left to right, without
    overlap; an empty [old] matches before every character and at the
    end. *)
Definition replace (s old new : string) : string :=
  if String.eqb old "" then interleave new s
  else replace_from (S (String.length s)) old new s.

Definition repo_info_keys : gset string :=
  {[ "owner"; "repo"; "branch"; "catalogue_path"; "datadict_fname"; "metadata_fname" ]}.

Definition gh_urls_keys : gset string := {[ "api_base_url"; "raw_base_url" ]}.

(** Lines 104-118 and 121-136: the checks of one of the two dictionaries. *)
Definition validate (which : string) (allowed : gset string)
    (given : option (gmap string string)) (default : bool) : list doc_event :=
  match given with
  | Some d =>
      let unexpected_keys := dom d ∖ allowed in
      let missing_keys := allowed ∖ dom d in
      ((if bool_decide (unexpected_keys = ∅) then []
        else [DocWarn (UnexpectedKeys which unexpected_keys)])
       ++ (if bool_decide (missing_keys = ∅) then []
           else if negb default then [DocWarn (MissingKeys which missing_keys 1)]
           else [DocWarn (MissingKeys which missing_keys 2)]))%list
  | None => if negb default then [DocWarn (NoCustomValues which)] else []
  end.

(** [d.get(key, fallback)] after [d = d or {}]. *)
Definition setting (given : option (gmap string string)) (key fallback : string)
    : string :=
  default fallback (default ∅ given !! key).

(** Line 153. *)
Definition tree_url (gh_urls repo_info : option (gmap string string)) : string :=
  setting gh_urls "api_base_url" "https://api.github.com/repos/"
  ++ setting repo_info "owner" "dsih-artpark" ++ "/"
  ++ setting repo_info "repo" "data-documentation" ++ "/git/trees/"
  ++ setting repo_info "branch" "production" ++ "?recursive=1".

(** Line 169; [dsid[0:2]] is the first two code points of [dsid]. *)
Definition dsid_path_prefix (repo_info : option (gmap string string)) (dsid : string)
    : string :=
  setting repo_info "catalogue_path" "info" ++ "/" ++ take_code_points 2 0 dsid ++ "/"
  ++ dsid ++ "-".

(** Lines 172-176: the first path of the tree with the prefix of the
    dataset and the name of the data dictionary. *)
Definition find_datadict (tree : list string) (prefix datadict_fname : string)
    : option string :=
  List.find (fun path => PyStr.startswith path prefix
                         && PyStr.endswith path datadict_fname) tree.

(** Lines 186-187. *)
Definition raw_url (gh_urls repo_info : option (gmap string string)) (path : string)
    : string :=
  setting gh_urls "raw_base_url" "https://raw.githubusercontent.com/"
  ++ setting repo_info "owner" "dsih-artpark" ++ "/"
  ++ setting repo_info "repo" "data-documentation" ++ "/"
  ++ setting repo_info "branch" "production" ++ "/" ++ path.

Section WithCollaborators.

Variable Y : Type.
(** [yaml.safe_load(content.decode('utf-8'))], [None] when it raises. *)
Variable safe_load : string -> option Y.
(** [requests.get]. *)
Variable get : string -> response.

(** Lines 189-209, once the two paths are known. *)
Definition fetch_raw (gh_urls repo_info : option (gmap string string))
    (dsid gh_metadata_path gh_datadict_path : string) (binary : bool)
    (before : list doc_event) : doc_result Y * list doc_event :=
  let gh_raw_metadata_url := raw_url gh_urls repo_info gh_metadata_path in
  let gh_raw_datadict_url := raw_url gh_urls repo_info gh_datadict_path in
  let raw_metadata_response := get gh_raw_metadata_url in
  let evs1 := (before ++ [DocGet gh_raw_metadata_url])%list in
  if Nat.eqb (status_code raw_metadata_response) 404 then
    (DocValueError ("Metadata file not found for dataset ID '" ++ dsid ++ "'."), evs1)
  else if negb (Nat.eqb (status_code raw_metadata_response) 200) then
    (DocValueError ("Failed to retrieve metadata for dataset ID '" ++ dsid
                    ++ "'. Request failed."), evs1)
  else
    let raw_datadict_response := get gh_raw_datadict_url in
    let evs2 := (evs1 ++ [DocGet gh_raw_datadict_url])%list in
    if Nat.eqb (status_code raw_datadict_response) 404 then
      (DocValueError ("Data dictionary file not found for dataset ID '" ++ dsid ++ "'."),
       evs2)
    else if negb (Nat.eqb (status_code raw_datadict_response) 200) then
      (DocValueError ("Failed to retrieve data dictionary for dataset ID '" ++ dsid
                      ++ "'. Request failed."), evs2)
    else if binary then
      (DocBytes (content raw_metadata_response) (content raw_datadict_response), evs2)
    else
      match safe_load (content raw_metadata_response) with
      | None => (DocYAMLError, evs2)
      | Some metadata =>
          match safe_load (content raw_datadict_response) with
          | None => (DocYAMLError, evs2)
          | Some datadict => (DocParsed metadata datadict, evs2)
          end
      end.

(** Lines 80-209. *)
Definition fetch_data_documentation (dsid : string)
    (gh_urls repo_info : option (gmap string string)) (default binary : bool)
    : doc_result Y * list doc_event :=
  let warned :=
    (validate "repo_info" repo_info_keys repo_info default
     ++ validate "gh_urls" gh_urls_keys gh_urls default)%list in
  let datadict_fname := setting repo_info "datadict_fname" "datadictionary.yaml" in
  let metadata_fname := setting repo_info "metadata_fname" "metadata.yaml" in
  let response := get (tree_url gh_urls repo_info) in
  let evs := (warned ++ [DocGet (tree_url gh_urls repo_info)])%list in
  if Nat.eqb (status_code response) 200 then
    let tree := from_option id [] (json_tree response) in
    match find_datadict tree (dsid_path_prefix repo_info dsid) datadict_fname with
    | None =>
        (DocValueError ("Data dictionary file not found for dataset ID '" ++ dsid ++ "'."),
         evs)
    | Some gh_datadict_path =>
        if String.eqb gh_datadict_path "" then
          (DocValueError ("Data dictionary file not found for dataset ID '" ++ dsid
                          ++ "'."), evs)
        else
          fetch_raw gh_urls repo_info dsid
                    (replace gh_datadict_path datadict_fname metadata_fname)
                    gh_datadict_path binary evs
    end
  else if Nat.eqb (status_code response) 404 then
    (DocValueError "Resource not found. Please check if the repository or branch exists.",
     evs)
  else if Nat.eqb (status_code response) 422 then
    (DocValueError "Validation failed or the endpoint has been spammed.", evs)
  else
    (DocValueError "Unknown error occurred while fetching tree data from GitHub.", evs).

End WithCollaborators.

End Docs.

(** * Vocabulary of the statements *)

(** Whether the contains-any group, as the code evaluates it, keeps [k]. *)
Definition keep_any (c : criterion) (k : string) : bool :=
  match c with
  | CNone => true
  | CStr s => PyStr.contains k s
  | CList items =>
      match last items with
      | Some item => PyStr.contains k item
      | None => false
      end
  | COther => false
  end.

(** Whether a group evaluated by [narrow_loop] keeps [k]. *)
Definition keep_every (test : string -> string -> bool) (c : criterion)
    (k : string) : bool :=
  match c with
  | CNone => true
  | CStr s => test k s
  | CList items =>
      match items with
      | [] => false
      | _ => forallb (test k) items
      end
  | COther => false
  end.

Definition keeps (c_all c_any c_suf : criterion) (k : string) : bool :=
  keep_any c_any k
  && keep_every PyStr.contains c_all k
  && keep_every PyStr.endswith c_suf k.

Definition well_typed (c : criterion) : bool :=
  match c with COther => false | _ => true end.

(** The replacement of the two arguments [check_for_expected_files] and
    [expected_file_list], every other argument kept. *)
Definition with_expected (a : arguments) (check : bool)
    (expected : list (option string)) : arguments :=
  Arguments_ (dsid a) (data_state a) (contains_all a) (contains_any a) (suffixes a)
             (datadir a) (update a) (clean a) (fetch_docs a)
             check expected (verbose a).

(** The four sync decisions of the specification, and the decision table
    in the specification's words (section 4.3): Fetch when update is off
    or the local file is absent; otherwise Overwrite-by-reupload when
    L > C, else Overwrite-from-remote when R > C, else Skip. *)
Inductive decision : Type :=
| Skip
| Fetch
| OverwriteFromRemote
| OverwriteByReupload.

Definition spec_decision (update present L_after_C R_after_C : bool) : decision :=
  if negb update || negb present then Fetch
  else if L_after_C then OverwriteByReupload
  else if R_after_C then OverwriteFromRemote
  else Skip.

Definition is_transfer (e : event) : bool :=
  match e with EvDownloadFile _ _ _ => true | _ => false end.

Definition is_makedirs (e : event) : bool :=
  match e with EvMakedirs _ => true | _ => false end.

Definition is_unix_warning (datadir : string) (e : event) : bool :=
  match e with
  | EvWarn msg => String.eqb msg (unix_warning datadir)
  | _ => false
  end.

(** The guard of line 365. *)
Definition warns_here (env : environment) (a : arguments) : bool :=
  negb (String.eqb (platform_system env) "Windows") && update a.

Definition removed (p : string) (e : event) : bool :=
  match e with EvRemove q => String.eqb p q | _ => false end.

(** ** Vocabulary of the further properties *)

Definition is_head (e : event) : bool :=
  match e with EvHeadObject _ _ => true | _ => false end.

Definition is_remove (e : event) : bool :=
  match e with EvRemove _ => true | _ => false end.

Definition is_write (e : event) : bool :=
  match e with EvWriteFile _ _ => true | _ => false end.

Definition is_print (e : event) : bool :=
  match e with EvPrint _ | EvPrintList _ => true | _ => false end.

(** A download call other than that of a key of [selected] from [Bucket]
    to its place under [datadir]. *)
Definition stray_transfer (Bucket datadir : string) (selected : gset string)
    (e : event) : bool :=
  match e with
  | EvDownloadFile b key filename =>
      negb (String.eqb b Bucket
            && bool_decide (key ∈ selected)
            && String.eqb filename (OsPath.join datadir key))
  | _ => false
  end.

(** A name a directory entry can have: not empty, and neither of the two
    names every directory holds. *)
Definition entry_name (name : string) : bool :=
  negb (String.eqb name "") && negb (String.eqb name ".")
  && negb (String.eqb name "..").

(** [p] is spelled as [os.walk(top)] spells a file: the root of the walk
    followed by entry names, one separator between them. *)
Definition walk_spelled (top p : string) : bool :=
  Os.below top p
  && forallb entry_name
       (PyStr.split "/" (PyStr.slice_from (String.length (Os.walk_root top)) p)).

(** A computation that makes no call of the kind [P], on any tree. *)
Definition quiet {A} (P : event -> bool) (m : pass A) : Prop :=
  forall t, List.filter P (calls (m t)) = [].

Definition is_doc_warning (e : doc_event) : bool :=
  match e with DocWarn _ => true | DocGet _ => false end.

Definition is_doc_get (e : doc_event) : bool :=
  match e with DocGet _ => true | DocWarn _ => false end.

(** A catalogue for the examples: the tree of the default repository and
    the two raw files of dataset [EP0001]. *)
Definition sample_web (url : string) : response :=
  if String.eqb url (Docs.tree_url None None) then
    Response 200 (Some ["README.md";
                        "info/EP/EP0001-dengue/metadata.yaml";
                        "info/EP/EP0001-dengue/datadictionary.yaml";
                        "info/EP/EP0001-old/datadictionary.yaml"]) ""
  else if String.eqb url (Docs.raw_url None None "info/EP/EP0001-dengue/metadata.yaml")
  then Response 200 None "meta"
  else if String.eqb url (Docs.raw_url None None
                            "info/EP/EP0001-dengue/datadictionary.yaml")
  then Response 200 None "dict"
  else Response 404 None "".

(** ** A small remote and local tree for the examples *)

Module Sample.

Definition dengue : bucket :=
  Bucket_ [Some "EP0001-dengue/"; Some "EP0002-malaria/"]
    [[S3Object "EP0001-dengue/" 0; S3Object "EP0001-dengue/a.csv" 5];
     [S3Object "EP0001-dengue/sub/b.txt" 7; S3Object "EP0001-dengue/sub/c.csv" 7;
      S3Object "EP0002-malaria/d.csv" 1]].

Definition env : environment :=
  Environment {["standardised" := "std-bucket"]} (fun _ => dengue) "Linux" 100
    (fun _ => false) (fun _ => Ok (Some "meta", Some "dict")).

(** Keyword arguments: dataset [EP0001], the given suffix group and
    [datadir], [update] on, the given [clean]. *)
Definition args (suffixes : criterion) (datadir : string) (clean : bool) : arguments :=
  Arguments_ "EP0001" "standardised" CNone CNone suffixes datadir
             true clean false false [None] false.

(** A tree under [datadir]: one key fetched by an earlier pass, one stray
    file, one documentation file, one file outside the dataset folder, and
    the directories that hold them. *)
Definition local (datadir : string) : local_tree :=
  list_to_map
    [(OsPath.dirname (OsPath.join datadir "elsewhere.txt"), Inode true 10 10);
     (OsPath.join datadir "EP0001-dengue", Inode true 10 10);
     (OsPath.join datadir "EP0001-dengue/sub", Inode true 10 10);
     (OsPath.join datadir "EP0001-dengue/sub/b.txt", Inode false 10 10);
     (OsPath.join datadir "EP0001-dengue/junk.txt", Inode false 10 10);
     (OsPath.join datadir "EP0001-dengue/metadata.yaml", Inode false 10 10);
     (OsPath.join datadir "elsewhere.txt", Inode false 10 10)].

(** The pass that selects the [csv] keys and prunes, under [data]. *)
Definition csv_pass : result unit * local_tree * list event :=
  download_dataset_v2 env (args (CStr "csv") "data" true) (local "data").

(** The pass that selects every key and prunes, with [datadir] spelled
    with a trailing separator. *)
Definition trailing_separator_pass : result unit * local_tree * list event :=
  download_dataset_v2 env (args CNone "data/" true) (local "data/").

End Sample.

(** * Properties *)

(** ** The string and path operations meet their Python meaning *)

Section StringFacts.

Lemma string_app_cons (c : ascii) (a b : string) :
  String c a ++ b = String c (a ++ b).
Proof. reflexivity. Qed.

Lemma string_app_nil (b : string) : "" ++ b = b.
Proof. reflexivity. Qed.

Lemma string_app_assoc (a b c : string) : (a ++ b) ++ c = a ++ (b ++ c).
Proof.
  induction a as [|x a IH]; [done|].
  by rewrite !string_app_cons, IH.
Qed.

Lemma string_app_empty_r (a : string) : a ++ "" = a.
Proof.
  induction a as [|x a IH]; [done|]. by rewrite string_app_cons, IH.
Qed.

Lemma string_length_app (a b : string) :
  String.length (a ++ b) = String.length a + String.length b.
Proof.
  induction a as [|x a IH]; [done|].
  rewrite string_app_cons. simpl. by rewrite IH.
Qed.

Lemma prefix_app (p s : string) :
  String.prefix p s = true <-> exists post, s = p ++ post.
Proof.
  revert s. induction p as [|c p IH]; intros s; simpl.
  - split; [intros _; by exists s | by destruct s].
  - destruct s as [|d s]; simpl.
    + split; [done | intros [post H]; discriminate].
    + destruct (ascii_dec c d) as [->|Hne].
      * rewrite IH. split.
        -- intros [post ->]. by exists post.
        -- intros [post H]. rewrite string_app_cons in H.
           injection H as ->. by exists post.
      * split; [done | intros [post H]].
        rewrite string_app_cons in H. congruence.
Qed.

Lemma startswith_app (file p : string) :
  PyStr.startswith file p = true <-> exists post, file = p ++ post.
Proof. apply prefix_app. Qed.

Lemma contains_app (file item : string) :
  PyStr.contains file item = true <-> exists pre post, file = pre ++ item ++ post.
Proof.
  induction file as [|c file IH].
  - change (PyStr.contains "" item) with (String.prefix item "" || false).
    rewrite orb_false_r, prefix_app. split.
    + intros [post H]. by exists "", post.
    + intros [[|? ?] [post H]]; [by exists post | discriminate].
  - change (PyStr.contains (String c file) item)
      with (String.prefix item (String c file) || PyStr.contains file item).
    rewrite orb_true_iff, IH, prefix_app. split.
    + intros [[post H] | (pre & post & ->)].
      * by exists "", post.
      * by exists (String c pre), post.
    + intros ([|d pre] & post & H).
      * left. by exists post.
      * right. rewrite string_app_cons in H.
        injection H as -> ->. by exists pre, post.
Qed.

Lemma endswith_app (file suffix : string) :
  PyStr.endswith file suffix = true <-> exists pre, file = pre ++ suffix.
Proof.
  induction file as [|c file IH].
  - change (PyStr.endswith "" suffix) with (String.eqb "" suffix || false).
    rewrite orb_false_r, String.eqb_eq. split.
    + intros <-. by exists "".
    + intros [[|? ?] H]; [done | discriminate].
  - change (PyStr.endswith (String c file) suffix)
      with (String.eqb (String c file) suffix || PyStr.endswith file suffix).
    rewrite orb_true_iff, IH, String.eqb_eq. split.
    + intros [<- | [pre ->]]; [by exists "" | by exists (String c pre)].
    + intros [[|d pre] H]; [by left | right].
      rewrite string_app_cons in H. injection H as -> ->. by exists pre.
Qed.

Lemma in_list_elem_of (x : string) (l : list string) :
  PyStr.in_list x l = true <-> x ∈ l.
Proof.
  unfold PyStr.in_list. rewrite existsb_exists, list_elem_of_In. split.
  - intros (y & Hy & Heq). apply String.eqb_eq in Heq. by subst.
  - intros H. exists x. by rewrite String.eqb_refl.
Qed.

Lemma slice_from_app (a b : string) :
  PyStr.slice_from (String.length a) (a ++ b) = b.
Proof.
  induction a as [|c a IH]; [by destruct b|].
  rewrite string_app_cons. simpl. done.
Qed.

End StringFacts.

(** ** The criteria filter, key by key *)

Section FilterFacts.

Lemma elem_of_matching (test : string -> bool) (K : list string) (k : string) :
  k ∈ (list_to_set (List.filter test K) : gset string) <-> k ∈ K /\ test k = true.
Proof. by rewrite elem_of_list_to_set, !list_elem_of_In, filter_In. Qed.

Lemma any_loop_first_branch (K items : list string) (acc : gset string) :
  Filter.any_loop K items acc true =
  Ok (match last items with
      | Some item => list_to_set (List.filter (fun file => PyStr.contains file item) K)
      | None => acc
      end).
Proof.
  revert acc. induction items as [|item items IH]; intros acc; [done|].
  simpl Filter.any_loop. rewrite IH.
  destruct items as [|item' items]; [reflexivity|].
  change (last (item :: item' :: items)) with (last (item' :: items)).
  destruct (last (item' :: items)) eqn:E; [done|]. by apply last_None in E.
Qed.

Lemma files_containing_any_elem (K : list string) (c : criterion) (S : gset string) :
  Filter.files_containing_any K c = Ok S ->
  forall k, k ∈ S <-> k ∈ K /\ keep_any c k = true.
Proof.
  destruct c as [|s|items|]; simpl; try done.
  - intros H k. injection H as <-. rewrite elem_of_list_to_set. naive_solver.
  - intros H k. injection H as <-.
    apply (elem_of_matching (fun file => PyStr.contains file s)).
  - rewrite any_loop_first_branch. intros H k. injection H as <-.
    destruct (last items) as [item|]; [|set_solver].
    apply (elem_of_matching (fun file => PyStr.contains file item)).
Qed.

Lemma files_containing_any_typed (K : list string) (c : criterion) :
  well_typed c = true <-> exists S, Filter.files_containing_any K c = Ok S.
Proof.
  destruct c as [|s|items|]; simpl; try rewrite any_loop_first_branch;
    split; try done; eauto; by intros [? ?].
Qed.

Lemma narrow_loop_later (test : string -> string -> bool) (K items : list string)
    (acc : gset string) (k : string) :
  k ∈ Filter.narrow_loop test K items acc false <->
  k ∈ acc /\ forall item, item ∈ items -> k ∈ K /\ test k item = true.
Proof.
  revert acc. induction items as [|item items IH]; intros acc; simpl.
  - split; [intros H; split; [done | intros ? []%elem_of_nil] | by intros [? _]].
  - rewrite IH, elem_of_intersection,
      (elem_of_matching (fun file => test file item)). split.
    + intros [[Hacc Hk] Hrest]. split; [done|].
      intros item' [->|Hin]%elem_of_cons; auto.
    + intros [Hacc Hall]. split; [split; [done|] |].
      * apply Hall. by left.
      * intros item' Hin. apply Hall. by right.
Qed.

Lemma narrow_loop_first (test : string -> string -> bool) (K : list string)
    (item : string) (items : list string) (acc : gset string) (k : string) :
  k ∈ Filter.narrow_loop test K (item :: items) acc true <->
  k ∈ K /\ forallb (test k) (item :: items) = true.
Proof.
  simpl Filter.narrow_loop.
  rewrite narrow_loop_later, (elem_of_matching (fun file => test file item)).
  simpl forallb. rewrite andb_true_iff, forallb_forall. split.
  - intros [[HK Ht] Hall]. repeat split; try done.
    intros x Hx%list_elem_of_In. by apply Hall.
  - intros [HK [Ht Hall]]. repeat split; try done.
    apply Hall. by apply list_elem_of_In.
Qed.

Lemma narrow_group_elem (test : string -> string -> bool) (K : list string)
    (c : criterion) (k : string) :
  k ∈ match c with
      | CNone | COther => list_to_set K
      | CStr s => Filter.narrow_loop test K [s] ∅ true
      | CList items => Filter.narrow_loop test K items ∅ true
      end <->
  k ∈ K /\ (well_typed c = true -> keep_every test c k = true).
Proof.
  destruct c as [|s|[|item items]|].
  - rewrite elem_of_list_to_set. naive_solver.
  - rewrite narrow_loop_first. simpl. rewrite andb_true_r. naive_solver.
  - simpl. set_solver.
  - rewrite narrow_loop_first. naive_solver.
  - rewrite elem_of_list_to_set. naive_solver.
Qed.

Lemma files_containing_all_elem (K : list string) (c : criterion) (S : gset string) :
  Filter.files_containing_all K c = Ok S ->
  forall k, k ∈ S <-> k ∈ K /\ keep_every PyStr.contains c k = true.
Proof.
  intros H k. pose proof (narrow_group_elem PyStr.contains K c k) as Hg.
  destruct c; simpl in H; try done; injection H as <-; naive_solver.
Qed.

Lemma files_with_suffixes_elem (K : list string) (c : criterion) (S : gset string) :
  Filter.files_with_suffixes K c = Ok S ->
  forall k, k ∈ S <-> k ∈ K /\ keep_every PyStr.endswith c k = true.
Proof.
  intros H k. pose proof (narrow_group_elem PyStr.endswith K c k) as Hg.
  destruct c; simpl in H; try done; injection H as <-; naive_solver.
Qed.

Lemma files_containing_all_typed (K : list string) (c : criterion) :
  well_typed c = true <-> exists S, Filter.files_containing_all K c = Ok S.
Proof. destruct c; simpl; split; try done; eauto; by intros [? ?]. Qed.

Lemma files_with_suffixes_typed (K : list string) (c : criterion) :
  well_typed c = true <-> exists S, Filter.files_with_suffixes K c = Ok S.
Proof. destruct c; simpl; split; try done; eauto; by intros [? ?]. Qed.

(** The selection is the keys every group keeps; it is returned when it is
    not empty. *)
Lemma files_to_download_elem (K : list string) (c_all c_any c_suf : criterion)
    (S : gset string) :
  Filter.files_to_download K c_all c_any c_suf = Ok S <->
  well_typed c_any && well_typed c_all && well_typed c_suf = true
  /\ S ≠ ∅
  /\ forall k, k ∈ S <-> k ∈ K /\ keeps c_all c_any c_suf k = true.
Proof.
  unfold Filter.files_to_download, keeps.
  pose proof (files_containing_any_typed K c_any) as Tany.
  pose proof (files_containing_all_typed K c_all) as Tall.
  pose proof (files_with_suffixes_typed K c_suf) as Tsuf.
  pose proof (files_containing_any_elem K c_any) as Eany.
  pose proof (files_containing_all_elem K c_all) as Eall.
  pose proof (files_with_suffixes_elem K c_suf) as Esuf.
  destruct (Filter.files_containing_any K c_any) as [any|e1].
  2:{ split; [done|]. intros [Hty _]. apply andb_true_iff in Hty as [Hty _].
      apply andb_true_iff in Hty as [Hty _]. apply Tany in Hty as [? ?]. done. }
  destruct (Filter.files_containing_all K c_all) as [all|e2].
  2:{ split; [done|]. intros [Hty _]. apply andb_true_iff in Hty as [Hty _].
      apply andb_true_iff in Hty as [_ Hty]. apply Tall in Hty as [? ?]. done. }
  destruct (Filter.files_with_suffixes K c_suf) as [suf|e3].
  2:{ split; [done|]. intros [Hty _]. apply andb_true_iff in Hty as [_ Hty].
      apply Tsuf in Hty as [? ?]. done. }
  specialize (Eany any eq_refl). specialize (Eall all eq_refl).
  specialize (Esuf suf eq_refl).
  assert (Hsel : forall k, k ∈ any ∩ (all ∩ suf) <->
            k ∈ K /\ keep_any c_any k && keep_every PyStr.contains c_all k
                     && keep_every PyStr.endswith c_suf k = true).
  { intros k. rewrite !elem_of_intersection, Eany, Eall, Esuf, !andb_true_iff.
    naive_solver. }
  assert (Hty : well_typed c_any && well_typed c_all && well_typed c_suf = true).
  { rewrite !andb_true_iff. repeat split;
      [apply Tany | apply Tall | apply Tsuf]; eauto. }
  case_decide as Hempty.
  - split; [done|]. intros (_ & Hne & HS). exfalso. apply Hne.
    apply set_eq. intros k. rewrite HS, <- Hsel, Hempty. done.
  - split.
    + intros [= <-]. done.
    + intros (_ & _ & HS). f_equal. apply set_eq. intros k.
      by rewrite HS, Hsel.
Qed.

End FilterFacts.

(** ** Claims about the criteria filter *)

Example scenario1_selection :
  Filter.files_to_download ["icmr-01/data.csv"; "icmr-01/readme.txt"]
    CNone CNone (CList ["csv"]) = Ok {[ "icmr-01/data.csv" ]}.
Proof. vm_compute. reflexivity. Qed.

(** The contains-any loop never reaches its disjointness test: whatever the
    keys and the items, it returns (the keys containing the last item) and
    does not raise. *)
Lemma contains_any_never_raises (files_found items : list string) :
  exists S, Filter.files_containing_any files_found (CList items) = Ok S.
Proof. by apply files_containing_any_typed. Qed.

(** C2: on the keys of end-to-end scenario 3 with contains_all=["icmr"] and
    contains_any=["01","02"], the code selects only "icmr-02/b.csv" (the
    keys containing the last item), not the union {"icmr-01/a.csv",
    "icmr-02/b.csv"}; and on keys where "x_ab.csv" contains both items "a"
    and "b" it returns the keys containing "b" without raising
    AmbiguousSelection. *)
Theorem C2_contains_any_keeps_last_item_only :
  Filter.files_to_download ["icmr-01/a.csv"; "icmr-02/b.csv"; "other-01/c.csv"]
    (CList ["icmr"]) (CList ["01"; "02"]) CNone = Ok {[ "icmr-02/b.csv" ]}
  /\ Filter.files_containing_any ["x_a.csv"; "x_b.csv"; "x_ab.csv"] (CList ["a"; "b"])
     = Ok {[ "x_b.csv"; "x_ab.csv" ]}.
Proof. split; vm_compute; reflexivity. Qed.

(** C7: when the filter succeeds on a key list with some criteria, applying
    it with the same criteria to any enumeration of its own output succeeds
    and returns the same set. *)
Theorem C7_filter_idempotent (K K' : list string) (c_all c_any c_suf : criterion)
    (S : gset string) :
  Filter.files_to_download K c_all c_any c_suf = Ok S ->
  (forall k, k ∈ K' <-> k ∈ S) ->
  Filter.files_to_download K' c_all c_any c_suf = Ok S.
Proof.
  intros HS HK'. apply files_to_download_elem in HS as (Hty & Hne & Helem).
  apply files_to_download_elem. split; [done|]. split; [done|].
  intros k. split.
  - intros Hk. split; [by apply HK'|]. by apply Helem in Hk as [_ ?].
  - intros [Hk _]. by apply HK'.
Qed.

Lemma C7_filter_idempotent_witness :
  Filter.files_to_download ["icmr-01/data.csv"; "icmr-01/readme.txt"]
    CNone (CList ["x"; "icmr"]) (CStr "csv") = Ok {[ "icmr-01/data.csv" ]}
  /\ (forall k, k ∈ ["icmr-01/data.csv"] <-> k ∈ ({[ "icmr-01/data.csv" ]} : gset string))
  /\ Filter.files_to_download ["icmr-01/data.csv"]
       CNone (CList ["x"; "icmr"]) (CStr "csv") = Ok {[ "icmr-01/data.csv" ]}.
Proof.
  assert (H1 : Filter.files_to_download ["icmr-01/data.csv"; "icmr-01/readme.txt"]
                 CNone (CList ["x"; "icmr"]) (CStr "csv") = Ok {[ "icmr-01/data.csv" ]})
    by (vm_compute; reflexivity).
  assert (H2 : forall k, k ∈ ["icmr-01/data.csv"]
                         <-> k ∈ ({[ "icmr-01/data.csv" ]} : gset string))
    by (intros k; rewrite list_elem_of_singleton, elem_of_singleton; reflexivity).
  exact (conj H1 (conj H2 (C7_filter_idempotent _ _ _ _ _ _ H1 H2))).
Defined.

(** C8: for a suffix group of two or more suffixes the suffix criterion
    selects exactly the listed keys that end with every suffix of the
    group. *)
Theorem C8_suffix_group_is_conjunctive (files_found group : list string) :
  2 <= length group ->
  exists S, Filter.files_with_suffixes files_found (CList group) = Ok S
            /\ forall k, k ∈ S <->
                 k ∈ files_found
                 /\ forall suffix, suffix ∈ group -> PyStr.endswith k suffix = true.
Proof.
  intros Hlen. eexists. split; [reflexivity|]. intros k.
  destruct group as [|suffix group]; [simpl in Hlen; lia|].
  rewrite narrow_loop_first, forallb_forall.
  split; intros [HK Hall]; (split; [done|]); intros x Hx.
  - by apply Hall, list_elem_of_In.
  - by apply Hall, list_elem_of_In.
Qed.

Lemma C8_suffix_group_is_conjunctive_witness :
  2 <= length ["csv"; ".csv"]
  /\ exists S, Filter.files_with_suffixes ["a.csv"; "b.tsv"; "ccsv"] (CList ["csv"; ".csv"])
               = Ok S
            /\ forall k, k ∈ S <->
                 k ∈ ["a.csv"; "b.tsv"; "ccsv"]
                 /\ forall suffix, suffix ∈ ["csv"; ".csv"] -> PyStr.endswith k suffix = true.
Proof.
  split; [simpl; lia|].
  apply (C8_suffix_group_is_conjunctive ["a.csv"; "b.tsv"; "ccsv"] ["csv"; ".csv"]).
  simpl; lia.
Defined.

(** A key that ends with one suffix of the group but not with the other is
    not selected. *)
Example suffix_group_is_not_disjunctive :
  Filter.files_with_suffixes ["a.csv"; "b.tsv"; "ccsv"] (CList ["csv"; ".csv"])
  = Ok {[ "a.csv" ]}.
Proof. vm_compute. reflexivity. Qed.

(** ** Prefix resolution (lines 267-276) *)

Section Resolution.

Lemma leading_segment_cons (c : ascii) (rest : string) :
  leading_segment (String c rest) =
  if Ascii.eqb c "-" then "" else String c (leading_segment rest).
Proof.
  unfold leading_segment. simpl.
  destruct (Ascii.eqb c "-"); [done|].
  by destruct (PyStr.split "-" rest).
Qed.

(** A folder name is its leading segment followed by nothing or by a
    hyphen and the rest. *)
Lemma leading_segment_decompose (folder : string) :
  folder = leading_segment folder
  \/ exists rest, folder = leading_segment folder ++ "-" ++ rest.
Proof.
  induction folder as [|c folder IH]; [by left|].
  rewrite leading_segment_cons.
  destruct (Ascii.eqb_spec c "-") as [->|Hc].
  - right. by exists folder.
  - destruct IH as [IH | [rest IH]].
    + left. by rewrite <- IH.
    + right. exists rest. by rewrite string_app_cons, <- IH.
Qed.

Lemma contains_hyphen_cons (c : ascii) (d : string) :
  PyStr.contains (String c d) "-" = Ascii.eqb c "-" || PyStr.contains d "-".
Proof.
  change (PyStr.contains (String c d) "-")
    with ((if ascii_dec "-" c then String.prefix "" d else false)
          || PyStr.contains d "-").
  f_equal. destruct (ascii_dec "-" c) as [<-|Hne]; [by destruct d|].
  symmetry. apply Ascii.eqb_neq. congruence.
Qed.

Lemma leading_segment_hyphen_free (d : string) :
  PyStr.contains d "-" = false -> leading_segment d = d.
Proof.
  induction d as [|c d IH]; [done|].
  rewrite contains_hyphen_cons, leading_segment_cons.
  intros [-> Hd]%orb_false_iff. by rewrite IH.
Qed.

Lemma leading_segment_before_hyphen (d rest : string) :
  PyStr.contains d "-" = false -> leading_segment (d ++ "-" ++ rest) = d.
Proof.
  induction d as [|c d IH]; [done|].
  rewrite contains_hyphen_cons, string_app_cons, leading_segment_cons.
  intros [-> Hd]%orb_false_iff. by rewrite IH.
Qed.

(** When every page has folders the loop is the fold that enters each
    folder under its leading segment. *)
Lemma dsid_names_loop_folders (folders : list string) (names : gmap string string) :
  dsid_names_loop (map Some folders) names
  = Ok (foldl (fun names folder => <[leading_segment folder := folder]> names)
              names folders).
Proof.
  revert names. induction folders as [|folder folders IH]; intros names; [done|].
  simpl. apply IH.
Qed.

(** A page without folders stops the loop. *)
Lemma dsid_names_loop_none (yielded : list (option string))
    (names : gmap string string) :
  None ∈ yielded -> dsid_names_loop yielded names = Raise AttributeError.
Proof.
  revert names. induction yielded as [|[folder|] yielded IH]; intros names Hin.
  - by apply elem_of_nil in Hin.
  - simpl. apply IH. by apply elem_of_cons in Hin as [? | ?].
  - done.
Qed.

Lemma all_folders (yielded : list (option string)) :
  None ∉ yielded -> exists folders, yielded = map Some folders.
Proof.
  induction yielded as [|[folder|] yielded IH]; intros Hnone.
  - by exists [].
  - destruct IH as [folders ->]; [set_solver|]. by exists (folder :: folders).
  - set_solver.
Qed.

(** The dictionary maps a segment to the last folder that has it. *)
Lemma folder_names_lookup (folders : list string) (d : string) :
  foldl (fun (names : gmap string string) folder =>
           <[leading_segment folder := folder]> names) ∅ folders !! d
  = last (filter (fun f => leading_segment f = d) folders).
Proof.
  induction folders as [|folder folders IH] using rev_ind; [done|].
  rewrite foldl_snoc, filter_app, filter_cons, filter_nil.
  case_decide as Hseg.
  - subst d. by rewrite lookup_insert_eq, last_snoc.
  - by rewrite lookup_insert_ne, app_nil_r.
Qed.

Lemma resolve_prefix_folders (folders : list string) (dsid data_state : string) :
  resolve_prefix (map Some folders) dsid data_state =
  match last (filter (fun f => leading_segment f = dsid) folders) with
  | Some folder => Ok folder
  | None => Raise (DatasetNotFound dsid data_state)
  end.
Proof.
  unfold resolve_prefix, dsid_names.
  by rewrite dsid_names_loop_folders, folder_names_lookup.
Qed.

End Resolution.

(** C5, as amended: for a listing in which every page has top-level
    folders (so that the search yields the folders and no [None]),
    resolution selects the last listed folder whose leading segment (the
    text before its first hyphen, or the whole name when it has none)
    equals the identifier, and raises DatasetNotFound exactly when no
    folder has that leading segment; a folder whose leading segment
    differs is never selected; when exactly one folder has it, that
    folder is selected; and for an identifier without a hyphen the
    folders with that leading segment are those that begin with
    [<dataset_id>-], together with a folder spelled exactly as the
    identifier. *)
Theorem C5_resolution_by_leading_segment (folders : list string) (dsid data_state : string) :
  resolve_prefix (map Some folders) dsid data_state =
    match last (filter (fun f => leading_segment f = dsid) folders) with
    | Some folder => Ok folder
    | None => Raise (DatasetNotFound dsid data_state)
    end
  /\ (forall folder, resolve_prefix (map Some folders) dsid data_state = Ok folder ->
        folder ∈ folders /\ leading_segment folder = dsid)
  /\ (resolve_prefix (map Some folders) dsid data_state
      = Raise (DatasetNotFound dsid data_state) <->
      forall folder, folder ∈ folders -> leading_segment folder ≠ dsid)
  /\ (forall folder, filter (fun f => leading_segment f = dsid) folders = [folder] ->
        resolve_prefix (map Some folders) dsid data_state = Ok folder)
  /\ (PyStr.contains dsid "-" = false ->
      forall folder, leading_segment folder = dsid <->
        folder = dsid \/ PyStr.startswith folder (dsid ++ "-") = true).
Proof.
  pose proof (resolve_prefix_folders folders dsid data_state) as Hres.
  split; [done|]. rewrite Hres. repeat split.
  - destruct (last _) as [f|] eqn:Hlast; [|done].
    injection H as ->. apply last_Some_elem_of in Hlast.
    by apply list_elem_of_filter in Hlast as [_ ?].
  - destruct (last _) as [f|] eqn:Hlast; [|done].
    injection H as ->. apply last_Some_elem_of in Hlast.
    by apply list_elem_of_filter in Hlast as [? _].
  - destruct (last _) as [f|] eqn:Hlast; [done|].
    intros _ folder Hin Hseg. apply last_None in Hlast.
    assert (Hf : folder ∈ filter (fun f => leading_segment f = dsid) folders)
      by (by apply list_elem_of_filter).
    rewrite Hlast in Hf. by apply elem_of_nil in Hf.
  - intros Hnone. destruct (last _) as [f|] eqn:Hlast; [|done].
    apply last_Some_elem_of, list_elem_of_filter in Hlast as [Hseg Hin].
    by destruct (Hnone f Hin).
  - intros folder ->. done.
  - intros Hseg. destruct (leading_segment_decompose folder) as [Hd | [rest Hd]].
    + left. congruence.
    + right. apply startswith_app. exists rest.
      rewrite Hd at 1. by rewrite Hseg, string_app_assoc.
  - intros [-> | [post ->]%startswith_app].
    + by apply leading_segment_hyphen_free.
    + rewrite string_app_assoc. by apply leading_segment_before_hyphen.
Qed.

(** C5, as stated, fails: a folder that begins with [<dataset_id>-] is not
    found when the identifier itself has a hyphen, and a hyphen-free folder
    equal to the identifier is selected although it does not begin with
    [<dataset_id>-]. *)
Lemma C5_begins_with_counterexample :
  (PyStr.startswith "EP-01-dengue/" ("EP-01" ++ "-") = true
   /\ resolve_prefix [Some "EP-01-dengue/"] "EP-01" "standardised"
      = Raise (DatasetNotFound "EP-01" "standardised"))
  /\ (PyStr.startswith "EP0001/" ("EP0001/" ++ "-") = false
      /\ resolve_prefix [Some "EP0001/"] "EP0001/" "standardised" = Ok "EP0001/").
Proof. repeat split; vm_compute; reflexivity. Qed.

(** ** The pass as a whole *)

Section PassFacts.

Lemma bind_lift_ok {A B} (r : result A) (a : A) (k : A -> pass B) (t : local_tree) :
  r = Ok a -> bind (lift r) k t = k a t.
Proof.
  intros ->. unfold bind, lift. by destruct (k a t) as [[r' t'] evs].
Qed.

Lemma bind_lift_raise {A B} (r : result A) (e : exn) (k : A -> pass B) (t : local_tree) :
  r = Raise e -> bind (lift r) k t = (Raise e, t, []).
Proof. intros ->. reflexivity. Qed.

(** What a bind that returns has run. *)
Lemma bind_returns {A B} (m : pass A) (k : A -> pass B) (t : local_tree) (b : B) :
  res (bind m k t) = Ok b ->
  exists a, res (m t) = Ok a
            /\ bind m k t =
               (Ok b, tree_of (k a (tree_of (m t))),
                (calls (m t) ++ calls (k a (tree_of (m t))))%list)
            /\ res (k a (tree_of (m t))) = Ok b.
Proof.
  unfold bind, res, tree_of, calls.
  destruct (m t) as [[[a|e] t1] evs1]; simpl; [|done].
  destruct (k a t1) as [[r2 t2] evs2] eqn:Hk; simpl. intros ->.
  exists a. by rewrite Hk.
Qed.

Lemma when_false (m : pass unit) (t : local_tree) : when false m t = (Ok tt, t, []).
Proof. done. Qed.

End PassFacts.

(** C4: when the dataset resolves and the three criteria subsets have an
    empty intersection, the pass raises NoFilesMatched with the local tree
    untouched and no call made (no download, no deletion, no directory
    creation). *)
Theorem C4_empty_selection_raises_before_any_effect
    (env : environment) (a : arguments) (t : local_tree)
    (Bucket dsid_name : string) (any all suf : gset string) :
  lookup_bucket env (data_state a) = Ok Bucket ->
  resolve_prefix (CommonPrefixes (s3 env Bucket)) (dsid a) (data_state a) = Ok dsid_name ->
  Filter.files_containing_any (files_found_in env Bucket dsid_name) (contains_any a) = Ok any ->
  Filter.files_containing_all (files_found_in env Bucket dsid_name) (contains_all a) = Ok all ->
  Filter.files_with_suffixes (files_found_in env Bucket dsid_name) (suffixes a) = Ok suf ->
  any ∩ (all ∩ suf) = ∅ ->
  download_dataset_v2 env a t = (Raise NoFilesMatched, t, []).
Proof.
  intros HB Hname Hany Hall Hsuf Hempty. unfold download_dataset_v2.
  rewrite (bind_lift_ok _ _ _ _ HB), (bind_lift_ok _ _ _ _ Hname).
  apply bind_lift_raise. unfold Filter.files_to_download.
  rewrite Hany, Hall, Hsuf. by rewrite decide_True.
Qed.

Lemma C4_empty_selection_raises_before_any_effect_witness :
  download_dataset_v2 Sample.env (Sample.args (CStr ".parquet") "data" true)
                      (Sample.local "data")
  = (Raise NoFilesMatched, Sample.local "data", []).
Proof.
  apply (C4_empty_selection_raises_before_any_effect
           Sample.env (Sample.args (CStr ".parquet") "data" true) (Sample.local "data")
           "std-bucket" "EP0001-dengue/"
           {[ "EP0001-dengue/a.csv"; "EP0001-dengue/sub/b.txt"; "EP0001-dengue/sub/c.csv" ]}
           {[ "EP0001-dengue/a.csv"; "EP0001-dengue/sub/b.txt"; "EP0001-dengue/sub/c.csv" ]}
           ∅);
    vm_compute; reflexivity.
Defined.

(** C10: replacing [check_for_expected_files] and [expected_file_list] by
    any other values, with every other argument, the remote and the local
    tree the same, leaves the outcome of the pass (result or exception,
    final tree, sequence of calls and output) unchanged. *)
Theorem C10_expected_file_arguments_are_unread
    (env : environment) (a : arguments) (check : bool)
    (expected : list (option string)) (t : local_tree) :
  download_dataset_v2 env (with_expected a check expected) t
  = download_dataset_v2 env a t.
Proof. destruct a. reflexivity. Qed.

(** ** The staleness resolver (lines 361-404) *)

(** C3: for a key of the bucket, what the loop body does is determined by
    the decision the specification's table gives for (update, local
    existence, L > C, R > C): a download call is made, once, for every
    decision but Skip; parent directories are created on Fetch when they
    are missing and never otherwise; on Skip the body returns with the
    tree unchanged; and whenever the body returns on another decision the
    destination is a freshly written file. *)
Theorem C3_sync_follows_decision_table
    (env : environment) (a : arguments) (Bucket key : string) (t : local_tree)
    (o : s3object) :
  S3.lookup_object (s3 env Bucket) key = Some o ->
  let dest := OsPath.join (datadir a) key in
  let present := bool_decide (is_Some (t !! dest)) in
  let L := from_option st_mtime 0%Z (t !! dest) in
  let C := from_option st_ctime 0%Z (t !! dest) in
  let R := LastModified o in
  let d := spec_decision (update a) present (C <? L)%Z (C <? R)%Z in
  let out := sync_file env a Bucket key t in
  List.filter is_transfer (calls out) =
    match d with Skip => [] | _ => [EvDownloadFile Bucket key dest] end
  /\ List.filter is_makedirs (calls out) =
     match d with
     | Fetch => if bool_decide (is_Some (t !! OsPath.dirname dest)) then []
                else [EvMakedirs (OsPath.dirname dest)]
     | _ => []
     end
  /\ (d = Skip -> res out = Ok tt /\ tree_of out = t)
  /\ (d <> Skip -> res out = Ok tt ->
      tree_of out !! dest = Some (Inode false (clock env) (clock env))).
Proof.
  intros Ho. cbv zeta. unfold spec_decision, sync_file.
  generalize (OsPath.join (datadir a) key). intros dest.
  generalize (unix_warning (datadir a)). intros warning.
  generalize (OsPath.dirname dest). intros directory.
  cbv beta iota zeta delta [bind when pure emit lift raise
    Os.path_exists Os.getmtime Os.getctime Os.stat_field Os.makedirs
    S3.head_object S3.download_file res tree_of calls fst snd].
  rewrite Ho.
  destruct (negb (String.eqb (platform_system env) "Windows") && update a);
    destruct (update a), (bool_decide (is_Some (t !! dest)));
    cbv beta iota delta [andb orb negb].
  all: try destruct (from_option st_ctime 0 (t !! dest)
                     <? from_option st_mtime 0 (t !! dest))%Z.
  all: try destruct (from_option st_ctime 0 (t !! dest) <? LastModified o)%Z.
  all: try destruct (bool_decide (is_Some (t !! directory))).
  all: cbv beta iota delta [negb].
  all: repeat match goal with
         | |- context [S3.download_raises ?e ?b ?k ?f ?tr] =>
             destruct (S3.download_raises e b k f tr)
         end.
  all: destruct (verbose a).
  all: cbv beta iota delta [fst snd app List.filter is_transfer is_makedirs].
  all: repeat split; try done; intros; apply lookup_insert_eq.
Qed.

(** End-to-end scenario 2: the local copy exists and R <= C, so the
    decision is Skip and no transfer call is issued. *)
Lemma C3_sync_follows_decision_table_witness :
  S3.lookup_object (s3 Sample.env "std-bucket") "EP0001-dengue/sub/b.txt"
  = Some (S3Object "EP0001-dengue/sub/b.txt" 7)
  /\ List.filter is_transfer
       (calls (sync_file Sample.env (Sample.args CNone "data" false) "std-bucket"
                         "EP0001-dengue/sub/b.txt" (Sample.local "data"))) = [].
Proof.
  split; [reflexivity|].
  exact (proj1 (C3_sync_follows_decision_table
                  Sample.env (Sample.args CNone "data" false) "std-bucket"
                  "EP0001-dengue/sub/b.txt" (Sample.local "data")
                  (S3Object "EP0001-dengue/sub/b.txt" 7) eq_refl)).
Defined.

Example scenario1_fetches_the_absent_key :
  List.filter is_transfer
    (calls (sync_file Sample.env (Sample.args CNone "data" false) "std-bucket"
                      "EP0001-dengue/a.csv" (Sample.local "data")))
  = [EvDownloadFile "std-bucket" "EP0001-dengue/a.csv" "data/EP0001-dengue/a.csv"].
Proof. vm_compute. reflexivity. Qed.

(** ** The pruner (lines 406-420) *)

Section PruneFacts.

Variables (a : arguments) (dsid_name : string) (files_found : list string).

Lemma calls_bind {A B} (m : pass A) (k : A -> pass B) (t : local_tree) :
  calls (bind m k t) =
  (calls (m t) ++ match res (m t) with
                  | Ok x => calls (k x (tree_of (m t)))
                  | Raise _ => []
                  end)%list.
Proof.
  unfold bind, calls, res, tree_of.
  destruct (m t) as [[[x|e] t1] evs1]; simpl; [|by rewrite app_nil_r].
  by destruct (k x t1) as [[r2 t2] evs2].
Qed.

Lemma tree_of_bind_returns {A B} (m : pass A) (k : A -> pass B) (t : local_tree) (b : B) :
  res (bind m k t) = Ok b ->
  exists x, res (m t) = Ok x
            /\ res (k x (tree_of (m t))) = Ok b
            /\ tree_of (bind m k t) = tree_of (k x (tree_of (m t))).
Proof.
  intros H. destruct (bind_returns m k t b H) as (x & Hx & Heq & Hk).
  exists x. repeat split; try done. by rewrite Heq.
Qed.

Lemma prune_file_run (p : string) (t : local_tree) :
  prune_file a dsid_name files_found p t =
  if extraneous (datadir a) dsid_name files_found p
  then (Ok tt, delete p t,
        ((if verbose a then [EvWarn ("Deleting extraneous file: " ++ p)] else [])
         ++ [EvRemove p])%list)
  else (Ok tt, t, []).
Proof.
  unfold prune_file.
  destruct (extraneous (datadir a) dsid_name files_found p); [|done].
  by destruct (verbose a).
Qed.

(** The inner loop returns, and it removes exactly the walked files that
    are extraneous. *)
Lemma for_each_prune_file (walked : list string) (t : local_tree) :
  res (for_each (prune_file a dsid_name files_found) walked t) = Ok tt
  /\ forall q,
       tree_of (for_each (prune_file a dsid_name files_found) walked t) !! q =
       if bool_decide (q ∈ walked) && extraneous (datadir a) dsid_name files_found q
       then None else t !! q.
Proof.
  revert t. induction walked as [|p walked IH]; intros t; [done|].
  simpl for_each. unfold bind. rewrite prune_file_run.
  destruct (extraneous (datadir a) dsid_name files_found p) eqn:Hp.
  - destruct (IH (delete p t)) as [Hres Htree].
    destruct (for_each _ walked (delete p t)) as [[r2 t2] evs2].
    unfold res, tree_of in *. simpl in *. split; [done|]. intros q.
    rewrite Htree. destruct (decide (q = p)) as [->|Hne].
    + rewrite Hp, lookup_delete_eq, andb_true_r.
      rewrite (bool_decide_true (p ∈ p :: walked)) by (by left).
      by destruct (bool_decide (p ∈ walked)).
    + rewrite lookup_delete_ne by done.
      by rewrite (bool_decide_ext (q ∈ p :: walked) (q ∈ walked))
        by (rewrite elem_of_cons; naive_solver).
  - destruct (IH t) as [Hres Htree].
    destruct (for_each _ walked t) as [[r2 t2] evs2].
    unfold res, tree_of in *. simpl in *. split; [done|]. intros q.
    rewrite Htree. destruct (decide (q = p)) as [->|Hne].
    + by rewrite Hp, !andb_false_r.
    + by rewrite (bool_decide_ext (q ∈ p :: walked) (q ∈ walked))
        by (rewrite elem_of_cons; naive_solver).
Qed.

(** What [os.walk] yields: the paths of the files spelled below [top]. *)
Lemma elem_of_walk_files (top : string) (t : local_tree) (p : string) :
  (exists walked, res (Os.walk_files top t) = Ok walked /\ p ∈ walked) <->
  Os.below top p = true /\ exists i, t !! p = Some i /\ is_dir i = false.
Proof.
  unfold Os.walk_files, res. simpl. split.
  - intros (walked & [= <-] & Hin).
    apply list_elem_of_In, filter_In in Hin as [Hin Hbelow]. split; [done|].
    apply in_map_iff in Hin as ([q i] & Hq & Hin). simpl in Hq. subst q.
    apply filter_In in Hin as [Hin Hfile]. simpl in Hfile.
    apply list_elem_of_In, elem_of_map_to_list in Hin.
    exists i. split; [done|]. by destruct (is_dir i).
  - intros (Hbelow & i & Hi & Hfile). eexists. split; [done|].
    apply list_elem_of_In, filter_In. split; [|done].
    apply in_map_iff. exists (p, i). split; [done|].
    apply filter_In. split; [|by simpl; rewrite Hfile].
    by apply list_elem_of_In, elem_of_map_to_list.
Qed.

(** The pruner returns; an entry survives it unless it is a file below the
    dataset folder that the test of line 417 calls extraneous. *)
Lemma prune_tree (t : local_tree) :
  res (prune a dsid_name files_found t) = Ok tt
  /\ forall q,
       tree_of (prune a dsid_name files_found t) !! q =
       match t !! q with
       | Some i =>
           if negb (is_dir i)
              && Os.below (OsPath.join (datadir a) dsid_name) q
              && extraneous (datadir a) dsid_name files_found q
           then None else Some i
       | None => None
       end.
Proof.
  unfold prune, bind, emit.
  pose proof (elem_of_walk_files (OsPath.join (datadir a) dsid_name) t) as Hwalk.
  destruct (Os.walk_files (OsPath.join (datadir a) dsid_name) t)
    as [[[walked|e] t1] evs1] eqn:Hw; [|by unfold Os.walk_files in Hw].
  assert (t1 = t) as -> by (unfold Os.walk_files in Hw; congruence).
  destruct (for_each_prune_file walked t) as [Hres Htree].
  destruct (for_each _ walked t) as [[r2 t2] evs2].
  unfold res, tree_of in *. simpl in *. split; [done|]. intros q.
  rewrite Htree. specialize (Hwalk q).
  destruct (t !! q) as [i|] eqn:Hq.
  2:{ case_bool_decide as Hin; [|done].
      assert (Hex : exists w, Ok walked = Ok w /\ q ∈ w) by eauto.
      apply Hwalk in Hex as (_ & i & Hi & _). done. }
  destruct (extraneous (datadir a) dsid_name files_found q);
    [|by rewrite !andb_false_r].
  rewrite !andb_true_r. case_bool_decide as Hin.
  - assert (Hex : exists w, Ok walked = Ok w /\ q ∈ w) by eauto.
    apply Hwalk in Hex as (Hbelow & i' & Hi & Hfile).
    injection Hi as <-. by rewrite Hbelow, Hfile.
  - destruct (negb (is_dir i) && Os.below (OsPath.join (datadir a) dsid_name) q)
      eqn:Hcond; [|done].
    apply andb_true_iff in Hcond as [Hfile Hbelow]. exfalso. apply Hin.
    assert (Hex : exists w, Ok walked = Ok w /\ q ∈ w).
    { apply Hwalk. split; [done|]. exists i. split; [done|]. by destruct (is_dir i). }
    destruct Hex as (w & Hw' & ?). by injection Hw' as <-.
Qed.

End PruneFacts.

(** ** Paths below [datadir] *)

Section PathFacts.

Lemma endswith_sep_cons (c : ascii) (n : string) :
  n <> "" -> PyStr.endswith (String c n) "/" = PyStr.endswith n "/".
Proof.
  intros Hn.
  change (PyStr.endswith (String c n) "/")
    with (String.eqb (String c n) "/" || PyStr.endswith n "/").
  replace (String.eqb (String c n) "/") with false; [done|].
  symmetry. apply String.eqb_neq. intros H. injection H as _ H. done.
Qed.

Lemma endswith_sep_app (p n : string) :
  n <> "" -> PyStr.endswith (p ++ n) "/" = PyStr.endswith n "/".
Proof.
  intros Hn. induction p as [|c p IH]; [done|].
  rewrite string_app_cons, endswith_sep_cons; [done|].
  destruct p; [done|]. by rewrite string_app_cons.
Qed.

(** A well-formed [datadir]: not empty and without a trailing separator. *)
Lemma join_relative (d n : string) :
  d <> "" -> PyStr.endswith d "/" = false -> PyStr.startswith n "/" = false ->
  OsPath.join d n = d ++ "/" ++ n.
Proof.
  intros Hd Hsep Hn. unfold OsPath.join, OsPath.sep. rewrite Hn, Hsep.
  apply String.eqb_neq in Hd. by rewrite Hd.
Qed.

Lemma join3_relative (d n f : string) :
  d <> "" -> PyStr.endswith d "/" = false ->
  PyStr.startswith n "/" = false -> PyStr.startswith f "/" = false ->
  OsPath.join3 d n f = d ++ "/" ++ OsPath.join n f.
Proof.
  intros Hd Hsep Hn Hf. unfold OsPath.join3. rewrite (join_relative d n) by done.
  unfold OsPath.join, OsPath.sep. rewrite Hf.
  replace (String.eqb (d ++ "/" ++ n) "") with false
    by (symmetry; apply String.eqb_neq; by destruct d).
  destruct n as [|c n].
  - rewrite string_app_empty_r.
    replace (PyStr.endswith (d ++ "/") "/") with true
      by (symmetry; apply endswith_app; by exists d).
    simpl. by rewrite string_app_assoc.
  - rewrite <- string_app_assoc, endswith_sep_app by done.
    generalize (PyStr.endswith (String c n) "/"). intros ends.
    replace (String.eqb (String c n) "") with false by done.
    rewrite orb_false_l. destruct ends; by rewrite !string_app_assoc.
Qed.

Lemma leading_segment_absolute (folder : string) :
  PyStr.startswith folder "/" = true ->
  PyStr.startswith (leading_segment folder) "/" = true.
Proof.
  intros [post ->]%startswith_app. change ("/" ++ post) with (String "/" post).
  rewrite leading_segment_cons. simpl Ascii.eqb. cbv iota.
  apply startswith_app. by exists (leading_segment post).
Qed.

Lemma below_relative (d top p : string) :
  PyStr.startswith top (d ++ "/") = true ->
  Os.below top p = true ->
  p = d ++ "/" ++ PyStr.slice_from (datadir_prefix_length d) p.
Proof.
  intros [rest Htop]%startswith_app Hbelow. unfold Os.below in Hbelow.
  apply andb_true_iff in Hbelow as [Hbelow _].
  apply andb_true_iff in Hbelow as [_ Hpre].
  apply startswith_app in Hpre as [post ->]. unfold Os.walk_root.
  assert (Hp : exists tail, (if PyStr.endswith top OsPath.sep then top
                             else top ++ OsPath.sep) ++ post = (d ++ "/") ++ tail).
  { destruct (PyStr.endswith top OsPath.sep); rewrite Htop;
      eexists; by rewrite !string_app_assoc. }
  destruct Hp as [tail ->]. unfold datadir_prefix_length.
  replace (String.length d + 1) with (String.length (d ++ "/"))
    by (by rewrite string_length_app).
  by rewrite slice_from_app, string_app_assoc.
Qed.

Lemma foldl_mkdir_lookup (now : Z) (dirs : list string) (t : local_tree)
    (q : string) (i : inode) :
  foldl (Os.mkdir now) t dirs !! q = Some i -> t !! q = Some i \/ is_dir i = true.
Proof.
  revert t. induction dirs as [|d dirs IH]; intros t; simpl; [by left|].
  intros [H|H]%IH; [|by right]. unfold Os.mkdir in H.
  destruct (t !! d) eqn:Hd; [by left|].
  destruct (decide (d = q)) as [->|Hne].
  - rewrite lookup_insert_eq in H. injection H as <-. by right.
  - rewrite lookup_insert_ne in H by done. by left.
Qed.

Lemma write_doc_lookup (env : environment) (a : arguments) (dsid_name fname : string)
    (content : option string) (t : local_tree) (q : string) (i : inode) :
  tree_of (write_doc env a dsid_name fname content t) !! q = Some i ->
  is_dir i = false ->
  t !! q = Some i \/ q = OsPath.join3 (datadir a) dsid_name fname.
Proof.
  destruct content as [bytes|]; [|by left].
  unfold write_doc, bind, Os.makedirs, Os.write_file, tree_of. simpl.
  intros H Hfile.
  destruct (decide (OsPath.join3 (datadir a) dsid_name fname = q)) as [<-|Hne];
    [by right|].
  rewrite lookup_insert_ne in H by done.
  apply foldl_mkdir_lookup in H as [H|H]; [by left | congruence].
Qed.

Lemma write_doc_returns (env : environment) (a : arguments) (dsid_name fname : string)
    (content : option string) (t : local_tree) :
  res (write_doc env a dsid_name fname content t) = Ok tt.
Proof. by destruct content. Qed.

(** The documentation fetch adds directories and at most the two
    documentation files. *)
Lemma write_docs_lookup (env : environment) (a : arguments) (dsid_name : string)
    (t : local_tree) (q : string) (i : inode) :
  tree_of (when (fetch_docs a) (write_docs env a dsid_name) t) !! q = Some i ->
  is_dir i = false ->
  t !! q = Some i
  \/ q = OsPath.join3 (datadir a) dsid_name "metadata.yaml"
  \/ q = OsPath.join3 (datadir a) dsid_name "datadictionary.yaml".
Proof.
  destruct (fetch_docs a); [|by left]. simpl when. unfold write_docs.
  destruct (fetch_data_documentation env (dsid a)) as [docs|e] eqn:Hdocs;
    [|by left].
  rewrite (bind_lift_ok _ docs) by done. intros H Hfile.
  pose proof (write_doc_returns env a dsid_name "metadata.yaml" (fst docs) t) as Hret.
  unfold bind, tree_of, res in *.
  destruct (write_doc env a dsid_name "metadata.yaml" (fst docs) t)
    as [[r1 t1] evs1] eqn:H1. simpl in Hret. subst r1.
  destruct (write_doc env a dsid_name "datadictionary.yaml" (snd docs) t1)
    as [[r2 t2] evs2] eqn:H2. simpl in H.
  pose proof (write_doc_lookup env a dsid_name "datadictionary.yaml" (snd docs) t1 q i)
    as L2.
  pose proof (write_doc_lookup env a dsid_name "metadata.yaml" (fst docs) t q i) as L1.
  unfold tree_of in L1, L2. rewrite H1 in L1. rewrite H2 in L2. simpl in L1, L2.
  destruct (L2 H Hfile) as [Hq|Hq]; [|by right; right].
  destruct (L1 Hq Hfile) as [Hq'|Hq']; [by left | by right; left].
Qed.

End PathFacts.

Section WholePass.

Lemma resolve_prefix_segment (yielded : list (option string))
    (dsid data_state name : string) :
  resolve_prefix yielded dsid data_state = Ok name -> leading_segment name = dsid.
Proof.
  intros Hres. destruct (decide (None ∈ yielded)) as [Hnone | Hall].
  - unfold resolve_prefix, dsid_names in Hres.
    by rewrite (dsid_names_loop_none _ _ Hnone) in Hres.
  - apply all_folders in Hall as [folders ->].
    rewrite resolve_prefix_folders in Hres.
    destruct (last _) as [f|] eqn:Hlast; [|done]. injection Hres as ->.
    by apply last_Some_elem_of, list_elem_of_filter in Hlast as [? _].
Qed.

Lemma resolve_prefix_relative (yielded : list (option string))
    (dsid data_state name : string) :
  PyStr.startswith dsid "/" = false ->
  resolve_prefix yielded dsid data_state = Ok name ->
  PyStr.startswith name "/" = false.
Proof.
  intros Hd Hres. apply resolve_prefix_segment in Hres.
  destruct (PyStr.startswith name "/") eqn:Hn; [|done].
  apply leading_segment_absolute in Hn. congruence.
Qed.

(** The pass after the dataset and the selection are known. *)
Lemma download_dataset_v2_resolved (env : environment) (a : arguments) (t : local_tree)
    (Bucket dsid_name : string) (S : gset string) :
  lookup_bucket env (data_state a) = Ok Bucket ->
  resolve_prefix (CommonPrefixes (s3 env Bucket)) (dsid a) (data_state a) = Ok dsid_name ->
  Filter.files_to_download (files_found_in env Bucket dsid_name)
    (contains_all a) (contains_any a) (suffixes a) = Ok S ->
  download_dataset_v2 env a t =
  (for_each (sync_file env a Bucket) (elements S) >>
   when (clean a) (prune a dsid_name (files_found_in env Bucket dsid_name)) >>
   when (fetch_docs a) (write_docs env a dsid_name)) t.
Proof.
  intros HB Hname HS. unfold download_dataset_v2.
  rewrite (bind_lift_ok _ _ _ _ HB), (bind_lift_ok _ _ _ _ Hname).
  by rewrite (bind_lift_ok _ _ _ _ HS).
Qed.

(** A pass that returns has selected something. *)
Lemma download_dataset_v2_returns_selected (env : environment) (a : arguments)
    (t : local_tree) (Bucket dsid_name : string) :
  lookup_bucket env (data_state a) = Ok Bucket ->
  resolve_prefix (CommonPrefixes (s3 env Bucket)) (dsid a) (data_state a) = Ok dsid_name ->
  res (download_dataset_v2 env a t) = Ok tt ->
  exists S, Filter.files_to_download (files_found_in env Bucket dsid_name)
              (contains_all a) (contains_any a) (suffixes a) = Ok S.
Proof.
  intros HB Hname Hret.
  destruct (Filter.files_to_download (files_found_in env Bucket dsid_name)
              (contains_all a) (contains_any a) (suffixes a)) as [S|e] eqn:HS;
    [by exists S|].
  unfold download_dataset_v2 in Hret.
  rewrite (bind_lift_ok _ _ _ _ HB), (bind_lift_ok _ _ _ _ Hname) in Hret.
  by rewrite (bind_lift_raise _ _ _ _ HS) in Hret.
Qed.

End WholePass.

(** C1, as amended: after a pass with clean=True that completes, run over
    an arbitrary pre-existing tree with a [datadir] that is not empty and
    has no trailing separator and a dataset identifier that does not
    begin with a separator, every file remaining below the dataset's
    local subdirectory is
    [datadir]/[rel] with [rel] either a key of the full remote listing of
    the dataset (selected by this call or not) or one of the two protected
    names; equivalently, any file below the subdirectory outside both is
    deleted. *)
Theorem C1_pruned_tree_keeps_listed_or_protected
    (env : environment) (a : arguments) (t : local_tree) (Bucket dsid_name : string) :
  clean a = true ->
  datadir a <> "" ->
  PyStr.endswith (datadir a) "/" = false ->
  PyStr.startswith (dsid a) "/" = false ->
  lookup_bucket env (data_state a) = Ok Bucket ->
  resolve_prefix (CommonPrefixes (s3 env Bucket)) (dsid a) (data_state a) = Ok dsid_name ->
  res (download_dataset_v2 env a t) = Ok tt ->
  forall p i,
    tree_of (download_dataset_v2 env a t) !! p = Some i ->
    is_dir i = false ->
    Os.below (OsPath.join (datadir a) dsid_name) p = true ->
    exists rel, p = datadir a ++ "/" ++ rel
                /\ (rel ∈ files_found_in env Bucket dsid_name
                    \/ rel ∈ exception_fnames dsid_name).
Proof.
  intros Hclean Hd Hsep Hdsid HB Hname Hret p i Hp Hfile Hbelow.
  pose proof (resolve_prefix_relative _ _ _ _ Hdsid Hname) as Hrel.
  destruct (download_dataset_v2_returns_selected env a t Bucket dsid_name HB Hname Hret)
    as [S HS].
  rewrite (download_dataset_v2_resolved env a t Bucket dsid_name S HB Hname HS)
    in Hret, Hp.
  apply tree_of_bind_returns in Hret as ([] & _ & Hret & Htree1).
  rewrite Htree1 in Hp. clear Htree1.
  set (t1 := tree_of (for_each (sync_file env a Bucket) (elements S) t)) in *.
  apply tree_of_bind_returns in Hret as ([] & _ & _ & Htree2).
  rewrite Htree2 in Hp. clear Htree2. rewrite Hclean in Hp. simpl when in Hp.
  destruct (prune_tree a dsid_name (files_found_in env Bucket dsid_name) t1)
    as [_ Hpruned].
  apply write_docs_lookup in Hp as [Hp | Hdoc]; [| |done].
  - exists (file_path_relative (datadir a) p). split.
    + apply (below_relative _ (OsPath.join (datadir a) dsid_name)); [|done].
      apply startswith_app. exists dsid_name.
      by rewrite join_relative, string_app_assoc.
    + rewrite Hpruned in Hp. destruct (t1 !! p) as [j|]; [|done].
      destruct (extraneous (datadir a) dsid_name
                  (files_found_in env Bucket dsid_name) p) eqn:Hext.
      * rewrite andb_true_r in Hp.
        destruct (negb (is_dir j) && Os.below (OsPath.join (datadir a) dsid_name) p)
          eqn:Hcond; [done|].
        injection Hp as ->. by rewrite Hfile, Hbelow in Hcond.
      * unfold extraneous in Hext. apply andb_false_iff in Hext as [H|H];
          apply negb_false_iff, in_list_elem_of in H; [by left | by right].
  - exists (OsPath.join dsid_name
              (if decide (p = OsPath.join3 (datadir a) dsid_name "metadata.yaml")
               then "metadata.yaml" else "datadictionary.yaml")).
    split.
    + case_decide as Hm; [subst p; by apply join3_relative|].
      destruct Hdoc as [? | ->]; [done|]. by apply join3_relative.
    + right. unfold exception_fnames. simpl map.
      case_decide; set_solver.
Qed.

Lemma C1_pruned_tree_keeps_listed_or_protected_witness :
  exists rel, "data/EP0001-dengue/sub/b.txt" = "data" ++ "/" ++ rel
              /\ (rel ∈ files_found_in Sample.env "std-bucket" "EP0001-dengue/"
                  \/ rel ∈ exception_fnames "EP0001-dengue/").
Proof.
  apply (C1_pruned_tree_keeps_listed_or_protected
           Sample.env (Sample.args (CStr "csv") "data" true) (Sample.local "data")
           "std-bucket" "EP0001-dengue/")
    with (i := Inode false 10 10);
    try (vm_compute; reflexivity).
  discriminate.
Defined.

(** C1, as stated, fails: the pass selects the two [csv] keys, completes
    with clean=True, and the file of the unselected key
    "EP0001-dengue/sub/b.txt" remains below the dataset's subdirectory
    although it is neither in the selected set nor protected. *)
Lemma C1_selected_set_counterexample :
  Filter.files_to_download (files_found_in Sample.env "std-bucket" "EP0001-dengue/")
    CNone CNone (CStr "csv")
  = Ok {[ "EP0001-dengue/a.csv"; "EP0001-dengue/sub/c.csv" ]}
  /\ res Sample.csv_pass = Ok tt
  /\ tree_of Sample.csv_pass !! "data/EP0001-dengue/sub/b.txt" = Some (Inode false 10 10)
  /\ Os.below (OsPath.join "data" "EP0001-dengue/") "data/EP0001-dengue/sub/b.txt" = true
  /\ file_path_relative "data" "data/EP0001-dengue/sub/b.txt" = "EP0001-dengue/sub/b.txt"
  /\ ("EP0001-dengue/sub/b.txt"
        ∉ ({[ "EP0001-dengue/a.csv"; "EP0001-dengue/sub/c.csv" ]} : gset string))
  /\ ("EP0001-dengue/sub/b.txt" ∉ exception_fnames "EP0001-dengue/").
Proof.
  repeat split; try (vm_compute; reflexivity).
  - rewrite elem_of_union, !elem_of_singleton. intros [H|H]; discriminate.
  - unfold exception_fnames. simpl map. rewrite !elem_of_cons.
    intros [H|[H|H]]; [vm_compute in H; discriminate
                      | vm_compute in H; discriminate
                      | by apply elem_of_nil in H].
Qed.

(** ** The protected names (lines 408-417) *)

(** C9: with [datadir] spelled "data/" the prefix length of line 412 is one
    too long, the relative path of every walked file loses its first
    character, and the pass removes "data/EP0001-dengue/metadata.yaml",
    a protected file directly under the dataset's subdirectory (together
    with the files it has just downloaded). *)
Theorem C9_trailing_separator_removes_protected_file :
  Sample.local "data/" !! "data/EP0001-dengue/metadata.yaml" = Some (Inode false 10 10)
  /\ OsPath.join3 "data/" "EP0001-dengue/" "metadata.yaml"
     = "data/EP0001-dengue/metadata.yaml"
  /\ file_path_relative "data/" "data/EP0001-dengue/metadata.yaml"
     = "P0001-dengue/metadata.yaml"
  /\ res Sample.trailing_separator_pass = Ok tt
  /\ tree_of Sample.trailing_separator_pass !! "data/EP0001-dengue/metadata.yaml" = None
  /\ existsb (removed "data/EP0001-dengue/metadata.yaml")
             (calls Sample.trailing_separator_pass) = true
  /\ existsb (removed "data/EP0001-dengue/a.csv")
             (calls Sample.trailing_separator_pass) = true.
Proof. repeat split; vm_compute; reflexivity. Qed.

Section ProtectedNames.

Variables (a : arguments) (dsid_name : string) (files_found : list string).

(** The pruner leaves everything that is not below the dataset's
    subdirectory as it is. *)
Lemma prune_frame (t : local_tree) (q : string) :
  Os.below (OsPath.join (datadir a) dsid_name) q = false ->
  tree_of (prune a dsid_name files_found t) !! q = t !! q.
Proof.
  intros Hq. destruct (prune_tree a dsid_name files_found t) as [_ ->].
  destruct (t !! q) as [i|]; [|done]. by rewrite Hq, andb_false_r.
Qed.

(** With a [datadir] that is not empty and has no trailing separator, the
    pruner leaves the two documentation files as they are. *)
Lemma prune_keeps_protected (t : local_tree) (fname : string) :
  datadir a <> "" ->
  PyStr.endswith (datadir a) "/" = false ->
  PyStr.startswith dsid_name "/" = false ->
  fname ∈ ["datadictionary.yaml"; "metadata.yaml"] ->
  tree_of (prune a dsid_name files_found t) !! OsPath.join3 (datadir a) dsid_name fname
  = t !! OsPath.join3 (datadir a) dsid_name fname.
Proof.
  intros Hd Hsep Hname Hf.
  destruct (prune_tree a dsid_name files_found t) as [_ ->].
  destruct (t !! _) as [i|]; [|done].
  assert (Hfname : PyStr.startswith fname "/" = false)
    by (set_solver).
  replace (extraneous (datadir a) dsid_name files_found
             (OsPath.join3 (datadir a) dsid_name fname)) with false;
    [by rewrite andb_false_r|].
  symmetry. unfold extraneous. apply andb_false_iff. right.
  apply negb_false_iff, in_list_elem_of.
  unfold file_path_relative, datadir_prefix_length.
  rewrite join3_relative by done.
  replace (String.length (datadir a) + 1) with (String.length (datadir a ++ "/"))
    by (by rewrite string_length_app).
  rewrite <- string_app_assoc, slice_from_app.
  unfold exception_fnames. simpl map. set_solver.
Qed.

End ProtectedNames.

(** ** The creation-time warning (lines 365-368) *)

Section UnixWarning.

Variables (env : environment) (a : arguments).

(** Each run of the loop body issues the warning once when the platform is
    not Windows and update is on, whatever the body then does. *)
Lemma sync_file_warning_count (Bucket key : string) (t : local_tree) :
  length (List.filter (is_unix_warning (datadir a))
                      (calls (sync_file env a Bucket key t)))
  = if warns_here env a then 1 else 0.
Proof.
  unfold warns_here, sync_file, is_unix_warning.
  generalize (OsPath.join (datadir a) key). intros dest.
  generalize (unix_warning (datadir a)). intros warning.
  generalize (OsPath.dirname dest). intros directory.
  cbv beta iota zeta delta [bind when pure emit lift raise
    Os.path_exists Os.getmtime Os.getctime Os.stat_field Os.makedirs
    S3.head_object S3.download_file res tree_of calls fst snd].
  destruct (S3.lookup_object (s3 env Bucket) key) as [o|];
    destruct (negb (String.eqb (platform_system env) "Windows") && update a);
    destruct (update a), (bool_decide (is_Some (t !! dest)));
    cbv beta iota delta [andb orb negb].
  all: try destruct (from_option st_ctime 0 (t !! dest)
                     <? from_option st_mtime 0 (t !! dest))%Z.
  all: try destruct (from_option st_ctime 0 (t !! dest) <? LastModified o)%Z.
  all: try destruct (bool_decide (is_Some (t !! directory))).
  all: cbv beta iota delta [negb].
  all: repeat match goal with
         | |- context [S3.download_raises ?e ?b ?k ?f ?tr] =>
             destruct (S3.download_raises e b k f tr)
         end.
  all: destruct (verbose a).
  all: cbv beta iota delta [fst snd app List.filter length].
  all: rewrite ?String.eqb_refl; reflexivity.
Qed.

Lemma for_each_sync_warning_count (Bucket : string) (keys : list string)
    (t : local_tree) :
  res (for_each (sync_file env a Bucket) keys t) = Ok tt ->
  length (List.filter (is_unix_warning (datadir a))
                      (calls (for_each (sync_file env a Bucket) keys t)))
  = if warns_here env a then length keys else 0.
Proof.
  revert t. induction keys as [|key keys IH]; intros t Hret.
  - by destruct (warns_here env a).
  - simpl for_each in *.
    destruct (bind_returns _ _ _ _ Hret) as ([] & _ & -> & Hrest).
    unfold calls at 1. simpl snd.
    rewrite List.filter_app, length_app, sync_file_warning_count, (IH _ Hrest).
    by destruct (warns_here env a).
Qed.

Lemma deleting_is_not_the_unix_warning (d p : string) :
  is_unix_warning d (EvWarn ("Deleting extraneous file: " ++ p)) = false.
Proof. reflexivity. Qed.

Lemma for_each_prune_has_no_unix_warning (dsid_name : string)
    (files_found walked : list string) (t : local_tree) :
  List.filter (is_unix_warning (datadir a))
              (calls (for_each (prune_file a dsid_name files_found) walked t)) = [].
Proof.
  revert t. induction walked as [|p walked IH]; intros t; [done|].
  simpl for_each. rewrite calls_bind, List.filter_app, prune_file_run.
  destruct (extraneous (datadir a) dsid_name files_found p); simpl.
  - rewrite IH. by destruct (verbose a).
  - apply IH.
Qed.

Lemma prune_has_no_unix_warning (dsid_name : string) (files_found : list string)
    (t : local_tree) :
  List.filter (is_unix_warning (datadir a))
              (calls (prune a dsid_name files_found t)) = [].
Proof.
  unfold prune. rewrite calls_bind. unfold emit at 1 2 3. simpl.
  rewrite calls_bind. unfold Os.walk_files at 1 2 3. simpl.
  apply for_each_prune_has_no_unix_warning.
Qed.

Lemma write_doc_has_no_unix_warning (dsid_name fname : string)
    (content : option string) (t : local_tree) :
  List.filter (is_unix_warning (datadir a))
              (calls (write_doc env a dsid_name fname content t)) = [].
Proof. by destruct content. Qed.

Lemma write_docs_has_no_unix_warning (dsid_name : string) (t : local_tree) :
  List.filter (is_unix_warning (datadir a))
              (calls (write_docs env a dsid_name t)) = [].
Proof.
  unfold write_docs.
  destruct (fetch_data_documentation env (dsid a)) as [docs|e] eqn:Hdocs.
  - rewrite (bind_lift_ok _ docs) by done.
    rewrite calls_bind, List.filter_app, write_doc_has_no_unix_warning.
    destruct (res _); [|done]. apply write_doc_has_no_unix_warning.
  - by rewrite (bind_lift_raise _ e).
Qed.

End UnixWarning.

(** C6, as amended: in a pass that completes, the creation-time warning is
    issued once for every selected key when update is enabled and the
    platform is not Windows (so as many times as keys are selected), and
    not at all otherwise. *)
Theorem C6_warning_once_per_selected_key
    (env : environment) (a : arguments) (t : local_tree)
    (Bucket dsid_name : string) (S : gset string) :
  lookup_bucket env (data_state a) = Ok Bucket ->
  resolve_prefix (CommonPrefixes (s3 env Bucket)) (dsid a) (data_state a) = Ok dsid_name ->
  Filter.files_to_download (files_found_in env Bucket dsid_name)
    (contains_all a) (contains_any a) (suffixes a) = Ok S ->
  res (download_dataset_v2 env a t) = Ok tt ->
  length (List.filter (is_unix_warning (datadir a))
                      (calls (download_dataset_v2 env a t)))
  = if negb (String.eqb (platform_system env) "Windows") && update a
    then size S else 0.
Proof.
  intros HB Hname HS Hret.
  rewrite (download_dataset_v2_resolved env a t Bucket dsid_name S HB Hname HS) in *.
  destruct (bind_returns _ _ _ _ Hret) as ([] & Hsync & -> & Hrest).
  unfold calls at 1. simpl snd.
  rewrite List.filter_app, length_app, for_each_sync_warning_count by done.
  rewrite calls_bind, List.filter_app, length_app.
  replace (List.filter _ (calls (when (clean a) _ _))) with (@nil event)
    by (destruct (clean a); unfold when;
        [by rewrite prune_has_no_unix_warning | done]).
  replace (List.filter _ (match res _ with Ok _ => _ | Raise _ => [] end))
    with (@nil event).
  - unfold warns_here, size, set_size, compose. simpl length.
    destruct (negb _ && update a); lia.
  - destruct (res (when (clean a) _ _)); [|done].
    destruct (fetch_docs a); unfold when;
      [by rewrite write_docs_has_no_unix_warning | done].
Qed.

Lemma C6_warning_once_per_selected_key_witness :
  length (List.filter (is_unix_warning (datadir (Sample.args (CStr "csv") "data" true)))
            (calls (download_dataset_v2 Sample.env (Sample.args (CStr "csv") "data" true)
                                        (Sample.local "data"))))
  = 2.
Proof.
  rewrite (C6_warning_once_per_selected_key
             Sample.env (Sample.args (CStr "csv") "data" true) (Sample.local "data")
             "std-bucket" "EP0001-dengue/"
             {[ "EP0001-dengue/a.csv"; "EP0001-dengue/sub/c.csv" ]});
    vm_compute; reflexivity.
Defined.

(** C6, as stated, fails: a pass on Linux with update enabled that selects
    two keys completes having issued the warning twice, not once. *)
Lemma C6_two_keys_two_warnings_counterexample :
  platform_system Sample.env = "Linux"
  /\ update (Sample.args (CStr "csv") "data" true) = true
  /\ res Sample.csv_pass = Ok tt
  /\ length (List.filter (is_unix_warning "data") (calls Sample.csv_pass)) = 2
  /\ length (List.filter (is_unix_warning "data") (calls Sample.csv_pass)) <> 1.
Proof. repeat split; try (vm_compute; reflexivity). vm_compute. lia. Qed.

(** ** Every listed key can be looked up *)

Section ListedKeys.

Lemma elem_of_collect_files_acc (tranches : list (list s3object)) (acc : list string)
    (key : string) :
  key ∈ foldl (fun files_found tranch =>
                 (files_found ++
                  List.filter (fun key => negb (PyStr.endswith key "/"))
                              (map Key tranch))%list)
              acc tranches ->
  key ∈ acc \/ exists tranch o, tranch ∈ tranches /\ o ∈ tranch /\ Key o = key.
Proof.
  revert acc. induction tranches as [|tranch tranches IH]; intros acc; simpl.
  - by left.
  - intros [Hacc | (tr & o & Htr & Ho & Hk)]%IH.
    + apply elem_of_app in Hacc as [Hacc | Hnew]; [by left|]. right.
      apply list_elem_of_In, filter_In in Hnew as [Hnew _].
      apply in_map_iff in Hnew as (o & Hk & Ho).
      exists tranch, o. repeat split; [by left | by apply list_elem_of_In | done].
    + right. exists tr, o. repeat split; [by right | done | done].
Qed.

(** A key of the listing is the key of an object of the bucket. *)
Lemma files_found_lookup (env : environment) (Bucket dsid_name key : string) :
  key ∈ files_found_in env Bucket dsid_name ->
  exists o, S3.lookup_object (s3 env Bucket) key = Some o.
Proof.
  unfold files_found_in, collect_files. intros H.
  apply elem_of_collect_files_acc in H as [H | (tr & o & Htr & Ho & Hk)];
    [by apply elem_of_nil in H|].
  unfold S3.list_objects_v2 in Htr.
  apply list_elem_of_fmap in Htr as (tr0 & -> & Htr0).
  apply list_elem_of_In, filter_In in Ho as [Ho _].
  unfold S3.lookup_object.
  destruct (List.find _ _) as [o'|] eqn:Hfind; [by exists o'|].
  assert (Hin : In o (concat (Contents (s3 env Bucket)))).
  { apply in_concat. exists tr0. split; [by apply list_elem_of_In | done]. }
  pose proof (List.find_none _ _ Hfind o Hin) as Hneq. simpl in Hneq.
  subst key. by rewrite String.eqb_refl in Hneq.
Qed.

End ListedKeys.

(** * Further properties of [download_dataset_v2] *)

(** ** Calls a computation does not make *)

Section Quiet.

Variable P : event -> bool.

Lemma quiet_pure {A} (x : A) : quiet P (pure x).
Proof. by intros t. Qed.

Lemma quiet_lift {A} (r : result A) : quiet P (lift r).
Proof. by intros t. Qed.

Lemma quiet_raise {A} (e : exn) : quiet P (@raise A e).
Proof. by intros t. Qed.

Lemma quiet_emit (e : event) : P e = false -> quiet P (emit e).
Proof. intros He t. unfold emit, calls. simpl. by rewrite He. Qed.

Lemma quiet_bind {A B} (m : pass A) (k : A -> pass B) :
  quiet P m -> (forall x, quiet P (k x)) -> quiet P (bind m k).
Proof.
  intros Hm Hk t. rewrite calls_bind, List.filter_app, Hm.
  destruct (res (m t)); [apply Hk | done].
Qed.

Lemma quiet_when (b : bool) (m : pass unit) : quiet P m -> quiet P (when b m).
Proof. destruct b; [done | intros _; apply quiet_pure]. Qed.

Lemma quiet_if {A} (b : bool) (m1 m2 : pass A) :
  quiet P m1 -> quiet P m2 -> quiet P (if b then m1 else m2).
Proof. by destruct b. Qed.

Lemma quiet_for_each {A} (body : A -> pass unit) (xs : list A) :
  (forall x, x ∈ xs -> quiet P (body x)) -> quiet P (for_each body xs).
Proof.
  induction xs as [|x xs IH]; intros Hbody; [apply quiet_pure|].
  simpl. apply quiet_bind; [apply Hbody; by left|].
  intros _. apply IH. intros y Hy. apply Hbody. by right.
Qed.

Lemma quiet_path_exists (p : string) : quiet P (Os.path_exists p).
Proof. by intros t. Qed.

Lemma quiet_stat_field (f : inode -> Z) (p : string) : quiet P (Os.stat_field f p).
Proof. by intros t. Qed.

Lemma quiet_walk_files (top : string) : quiet P (Os.walk_files top).
Proof. by intros t. Qed.

Lemma quiet_makedirs (now : Z) (d : string) :
  P (EvMakedirs d) = false -> quiet P (Os.makedirs now d).
Proof. intros He t. unfold Os.makedirs, calls. simpl. by rewrite He. Qed.

Lemma quiet_remove (p : string) : P (EvRemove p) = false -> quiet P (Os.remove p).
Proof. intros He t. unfold Os.remove, calls. simpl. by rewrite He. Qed.

Lemma quiet_write_file (now : Z) (p content : string) :
  P (EvWriteFile p content) = false -> quiet P (Os.write_file now p content).
Proof. intros He t. unfold Os.write_file, calls. simpl. by rewrite He. Qed.

Lemma quiet_head_object (env : environment) (Bucket key : string) :
  P (EvHeadObject Bucket key) = false -> quiet P (S3.head_object env Bucket key).
Proof.
  intros He. unfold S3.head_object. apply quiet_bind; [by apply quiet_emit|].
  intros _. destruct (S3.lookup_object _ _); [apply quiet_pure | apply quiet_raise].
Qed.

Lemma quiet_download_file (env : environment) (Bucket key filename : string) :
  P (EvDownloadFile Bucket key filename) = false ->
  quiet P (S3.download_file env Bucket key filename).
Proof.
  intros He. unfold S3.download_file. apply quiet_bind; [by apply quiet_emit|].
  intros _ t. by destruct (S3.download_raises env Bucket key filename t).
Qed.

(** The loop body makes no call of the kind [P] when its own calls are
    not of that kind. *)
Lemma quiet_sync_file (env : environment) (a : arguments) (Bucket key : string) :
  P (EvWarn (unix_warning (datadir a))) = false ->
  (verbose a = false \/ forall msg, P (EvPrint msg) = false) ->
  P (EvHeadObject Bucket key) = false ->
  P (EvDownloadFile Bucket key (OsPath.join (datadir a) key)) = false ->
  P (EvMakedirs (OsPath.dirname (OsPath.join (datadir a) key))) = false ->
  quiet P (sync_file env a Bucket key).
Proof.
  intros Hwarn Hprint Hhead Hdown Hmk. unfold sync_file.
  assert (Hp : forall msg, quiet P (when (verbose a) (emit (EvPrint msg)))).
  { intros msg. destruct Hprint as [-> | Hprint];
      [apply quiet_pure | by apply quiet_when, quiet_emit]. }
  apply quiet_bind; [by apply quiet_when, quiet_emit|]. intros _.
  apply quiet_bind; [apply quiet_path_exists|]. intros present.
  apply quiet_if.
  - apply quiet_bind; [apply quiet_stat_field|]. intros L.
    apply quiet_bind; [apply quiet_stat_field|]. intros C.
    apply quiet_bind; [by apply quiet_head_object|]. intros R.
    apply quiet_if; [|apply quiet_if; [|apply Hp]];
      (apply quiet_bind; [by apply quiet_download_file | intros _; apply Hp]).
  - apply quiet_bind; [apply quiet_path_exists|]. intros dir_present.
    apply quiet_bind; [by apply quiet_when, quiet_makedirs|]. intros _.
    apply quiet_bind; [by apply quiet_download_file | intros _; apply Hp].
Qed.

Lemma quiet_prune (a : arguments) (dsid_name : string) (files_found : list string) :
  P (EvPrintList (exception_fnames dsid_name)) = false ->
  (verbose a = false \/ forall msg, P (EvWarn msg) = false) ->
  (forall p, P (EvRemove p) = false) ->
  quiet P (prune a dsid_name files_found).
Proof.
  intros Hlist Hwarn Hrm. unfold prune.
  apply quiet_bind; [by apply quiet_emit|]. intros _.
  apply quiet_bind; [apply quiet_walk_files|]. intros walked.
  apply quiet_for_each. intros p _. unfold prune_file.
  apply quiet_when, quiet_bind; [|intros _; by apply quiet_remove].
  destruct Hwarn as [-> | Hwarn]; [apply quiet_pure | by apply quiet_when, quiet_emit].
Qed.

Lemma quiet_write_docs (env : environment) (a : arguments) (dsid_name : string) :
  (forall d, P (EvMakedirs d) = false) ->
  (forall p content, P (EvWriteFile p content) = false) ->
  quiet P (write_docs env a dsid_name).
Proof.
  intros Hmk Hwr. unfold write_docs.
  assert (Hdoc : forall fname content, quiet P (write_doc env a dsid_name fname content)).
  { intros fname [bytes|]; [|apply quiet_pure]. simpl.
    apply quiet_bind; [by apply quiet_makedirs | intros _; by apply quiet_write_file]. }
  apply quiet_bind; [apply quiet_lift|]. intros docs.
  apply quiet_bind; [apply Hdoc | intros _; apply Hdoc].
Qed.

End Quiet.

(** ** Resolution failures *)

(** X1: an unknown data state raises InvalidState before anything is
    listed, downloaded or changed. *)
Theorem X1_invalid_state_has_no_effect
    (env : environment) (a : arguments) (t : local_tree) :
  data_state_buckets env !! data_state a = None ->
  download_dataset_v2 env a t = (Raise (InvalidState (data_state a)), t, []).
Proof.
  intros Hnone. unfold download_dataset_v2. apply bind_lift_raise.
  unfold lookup_bucket. by rewrite Hnone.
Qed.

Lemma X1_invalid_state_has_no_effect_witness :
  download_dataset_v2 Sample.env
    (Arguments_ "EP0001" "raw" CNone CNone CNone "data" true true true false [None] true)
    (Sample.local "data")
  = (Raise (InvalidState "raw"), Sample.local "data", []).
Proof.
  apply (X1_invalid_state_has_no_effect Sample.env
           (Arguments_ "EP0001" "raw" CNone CNone CNone "data" true true true
                       false [None] true)).
  vm_compute. reflexivity.
Defined.

(** X2: when no top-level folder of the bucket has the identifier as its
    leading segment, the pass raises and has no effect: DatasetNotFound
    when every page of the listing has folders, AttributeError (line 270)
    when some page has none. *)
Theorem X2_unmatched_identifier_has_no_effect
    (env : environment) (a : arguments) (t : local_tree) (Bucket : string) :
  lookup_bucket env (data_state a) = Ok Bucket ->
  (forall folder, Some folder ∈ CommonPrefixes (s3 env Bucket) ->
                  leading_segment folder <> dsid a) ->
  download_dataset_v2 env a t
  = (Raise (if bool_decide (None ∈ CommonPrefixes (s3 env Bucket))
            then AttributeError
            else DatasetNotFound (dsid a) (data_state a)), t, []).
Proof.
  intros HB Hnone. unfold download_dataset_v2. rewrite (bind_lift_ok _ _ _ _ HB).
  apply bind_lift_raise. case_bool_decide as Hpage.
  - unfold resolve_prefix, dsid_names. by rewrite (dsid_names_loop_none _ _ Hpage).
  - destruct (all_folders _ Hpage) as [folders Hfolders].
    rewrite Hfolders in *. rewrite resolve_prefix_folders.
    destruct (last _) as [f|] eqn:Hlast; [|done].
    apply last_Some_elem_of, list_elem_of_filter in Hlast as [Hseg Hin].
    destruct (Hnone f); [|done]. apply list_elem_of_fmap. by exists f.
Qed.

Lemma X2_unmatched_identifier_has_no_effect_witness :
  download_dataset_v2 Sample.env
    (Arguments_ "EP0003" "standardised" CNone CNone CNone "data" true true true
                false [None] true)
    (Sample.local "data")
  = (Raise (DatasetNotFound "EP0003" "standardised"), Sample.local "data", []).
Proof.
  apply (X2_unmatched_identifier_has_no_effect Sample.env
           (Arguments_ "EP0003" "standardised" CNone CNone CNone "data" true true true
                       false [None] true) (Sample.local "data") "std-bucket").
  - reflexivity.
  - intros folder Hin. simpl in Hin.
    apply elem_of_cons in Hin as [Heq | Hin];
      [injection Heq as ->; vm_compute; discriminate|].
    apply elem_of_cons in Hin as [Heq | Hin];
      [injection Heq as ->; vm_compute; discriminate|].
    by apply elem_of_nil in Hin.
Defined.

(** A bucket without any top-level folder: the one page of the listing
    has no folder, the search yields [None], and the pass ends with
    AttributeError. *)
Example a_bucket_without_folders :
  download_dataset_v2
    (Environment {["standardised" := "std-bucket"]}
                 (fun _ => Bucket_ [None] [[S3Object "a.csv" 1]]) "Linux" 100
                 (fun _ => false) (fun _ => Ok (None, None)))
    (Sample.args CNone "data" true) ∅
  = (Raise AttributeError, ∅, []).
Proof. vm_compute. reflexivity. Qed.

(** ** The listing (lines 279-284) *)

Section Listing.

Lemma collect_files_acc (tranches : list (list s3object)) (acc : list string) :
  foldl (fun files_found tranch =>
           (files_found ++
            List.filter (fun key => negb (PyStr.endswith key "/"))
                        (map Key tranch))%list)
        acc tranches
  = (acc ++ List.filter (fun key => negb (PyStr.endswith key "/"))
                        (map Key (concat tranches)))%list.
Proof.
  revert acc. induction tranches as [|tranch tranches IH]; intros acc; simpl.
  - by rewrite app_nil_r.
  - by rewrite IH, map_app, List.filter_app, app_assoc.
Qed.

Lemma concat_map_filter {A} (f : A -> bool) (ls : list (list A)) :
  concat (map (List.filter f) ls) = List.filter f (concat ls).
Proof.
  induction ls as [|l ls IH]; simpl; [done|]. by rewrite IH, List.filter_app.
Qed.

Lemma filter_map_comm {A B} (g : A -> B) (f : B -> bool) (l : list A) :
  List.filter f (map g l) = map g (List.filter (fun x => f (g x)) l).
Proof.
  induction l as [|x l IH]; simpl; [done|]. rewrite IH. by destruct (f (g x)).
Qed.

Lemma filter_filter_and {A} (f g : A -> bool) (l : list A) :
  List.filter f (List.filter g l) = List.filter (fun x => g x && f x) l.
Proof.
  induction l as [|x l IH]; simpl; [done|].
  destruct (g x); simpl; [destruct (f x)|]; by rewrite IH.
Qed.

End Listing.

(** X3: the listing is every key of the bucket that begins with the
    resolved prefix and does not end with a separator, over all tranches,
    in enumeration order: no page is dropped, folder placeholders are. *)
Theorem X3_listing_is_all_pages_without_placeholders
    (env : environment) (Bucket dsid_name : string) :
  files_found_in env Bucket dsid_name
  = List.filter (fun key => PyStr.startswith key dsid_name
                            && negb (PyStr.endswith key "/"))
                (map Key (concat (Contents (s3 env Bucket)))).
Proof.
  unfold files_found_in, collect_files, S3.list_objects_v2.
  rewrite collect_files_acc, concat_map_filter. simpl app.
  rewrite !filter_map_comm, filter_filter_and. done.
Qed.

(** ** More on the criteria filter (lines 286-354) *)

Section FilterEdges.

Lemma files_to_download_well_typed (K : list string) (c_all c_any c_suf : criterion) :
  well_typed c_any && well_typed c_all && well_typed c_suf = true ->
  (exists S, Filter.files_to_download K c_all c_any c_suf = Ok S)
  \/ Filter.files_to_download K c_all c_any c_suf = Raise NoFilesMatched.
Proof.
  intros Hty. apply andb_true_iff in Hty as [Hty Hsuf].
  apply andb_true_iff in Hty as [Hany Hall].
  apply (files_containing_any_typed K) in Hany as [any Hany].
  apply (files_containing_all_typed K) in Hall as [all Hall].
  apply (files_with_suffixes_typed K) in Hsuf as [suf Hsuf].
  unfold Filter.files_to_download. rewrite Hany, Hall, Hsuf.
  case_decide; [by right | left; eauto].
Qed.

Lemma keeps_false_not_selected (K : list string) (c_all c_any c_suf : criterion)
    (S : gset string) :
  (forall k, keeps c_all c_any c_suf k = false) ->
  Filter.files_to_download K c_all c_any c_suf <> Ok S.
Proof.
  intros Hkeeps HS. apply files_to_download_elem in HS as (_ & Hne & Helem).
  apply set_choose_L in Hne as [k Hk]. apply Helem in Hk as [_ Hk].
  by rewrite Hkeeps in Hk.
Qed.

End FilterEdges.

(** X4: a contains_all group with at least one item selects exactly the
    listed keys that contain every item of the group. *)
Theorem X4_contains_all_is_conjunctive (files_found group : list string) :
  group <> [] ->
  exists S, Filter.files_containing_all files_found (CList group) = Ok S
            /\ forall k, k ∈ S <->
                 k ∈ files_found
                 /\ forall item, item ∈ group -> PyStr.contains k item = true.
Proof.
  intros Hne. eexists. split; [reflexivity|]. intros k.
  destruct group as [|item group]; [done|].
  rewrite narrow_loop_first, forallb_forall.
  split; intros [HK Hall]; (split; [done|]); intros x Hx.
  - by apply Hall, list_elem_of_In.
  - by apply Hall, list_elem_of_In.
Qed.

Lemma X4_contains_all_is_conjunctive_witness :
  exists S, Filter.files_containing_all ["a/x.csv"; "b/x.csv"; "a/y.txt"]
              (CList ["a/"; "x"]) = Ok S
            /\ forall k, k ∈ S <->
                 k ∈ ["a/x.csv"; "b/x.csv"; "a/y.txt"]
                 /\ forall item, item ∈ ["a/"; "x"] -> PyStr.contains k item = true.
Proof.
  apply (X4_contains_all_is_conjunctive ["a/x.csv"; "b/x.csv"; "a/y.txt"] ["a/"; "x"]).
  discriminate.
Defined.

(** X5: an empty list passed as any of the three groups selects nothing:
    with criteria of the accepted types, the filter raises NoFilesMatched
    whatever the keys and the other groups (unlike None, which matches
    every key). *)
Theorem X5_empty_group_matches_nothing
    (files_found : list string) (c_all c_any c_suf : criterion) :
  well_typed c_any && well_typed c_all && well_typed c_suf = true ->
  c_all = CList [] \/ c_any = CList [] \/ c_suf = CList [] ->
  Filter.files_to_download files_found c_all c_any c_suf = Raise NoFilesMatched.
Proof.
  intros Hty Hempty.
  destruct (files_to_download_well_typed files_found c_all c_any c_suf Hty)
    as [[S HS] | Hraise]; [|done].
  exfalso. apply (keeps_false_not_selected files_found c_all c_any c_suf S); [|done].
  intros k. unfold keeps.
  destruct Hempty as [-> | [-> | ->]]; simpl;
    by rewrite ?andb_false_r, ?andb_false_l.
Qed.

Lemma X5_empty_group_matches_nothing_witness :
  Filter.files_to_download ["a.csv"; "b.csv"] (CList []) CNone (CStr "csv")
  = Raise NoFilesMatched.
Proof.
  apply (X5_empty_group_matches_nothing ["a.csv"; "b.csv"] (CList []) CNone (CStr "csv"));
    [reflexivity | by left].
Defined.

(** X6: with no criteria at all the selection is the whole listing, and an
    empty listing raises NoFilesMatched. *)
Theorem X6_no_criteria_selects_the_listing (files_found : list string) :
  Filter.files_to_download files_found CNone CNone CNone =
  match files_found with
  | [] => Raise NoFilesMatched
  | _ => Ok (list_to_set files_found)
  end.
Proof.
  unfold Filter.files_to_download. simpl.
  destruct files_found as [|k K].
  - by rewrite decide_True by set_solver.
  - rewrite decide_False by set_solver. f_equal. set_solver.
Qed.

(** X7: whatever the criteria, every selected key is a key of the listing,
    contains every item of the contains_all group and ends with every
    suffix of the suffix group. *)
Theorem X7_selected_keys_meet_the_criteria
    (files_found all_items suffix_items : list string) (c_any : criterion)
    (S : gset string) (k : string) :
  Filter.files_to_download files_found (CList all_items) c_any (CList suffix_items)
  = Ok S ->
  k ∈ S ->
  k ∈ files_found
  /\ (forall item, item ∈ all_items -> PyStr.contains k item = true)
  /\ (forall suffix, suffix ∈ suffix_items -> PyStr.endswith k suffix = true).
Proof.
  intros HS Hk. apply files_to_download_elem in HS as (_ & _ & Helem).
  apply Helem in Hk as [HK Hkeeps]. split; [done|]. unfold keeps in Hkeeps.
  apply andb_true_iff in Hkeeps as [Hkeeps Hsuf].
  apply andb_true_iff in Hkeeps as [_ Hall]. simpl in Hall, Hsuf.
  split.
  - destruct all_items as [|i l]; [done|]. intros item Hin.
    rewrite forallb_forall in Hall. by apply Hall, list_elem_of_In.
  - destruct suffix_items as [|i l]; [done|]. intros suffix Hin.
    rewrite forallb_forall in Hsuf. by apply Hsuf, list_elem_of_In.
Qed.

Lemma X7_selected_keys_meet_the_criteria_witness :
  "a/x.csv" ∈ ["a/x.csv"; "b/x.csv"; "a/y.txt"]
  /\ (forall item, item ∈ ["a/"] -> PyStr.contains "a/x.csv" item = true)
  /\ (forall suffix, suffix ∈ [".csv"; "csv"] -> PyStr.endswith "a/x.csv" suffix = true).
Proof.
  apply (X7_selected_keys_meet_the_criteria
           ["a/x.csv"; "b/x.csv"; "a/y.txt"] ["a/"] [".csv"; "csv"] CNone
           {[ "a/x.csv" ]} "a/x.csv").
  - vm_compute. reflexivity.
  - by apply elem_of_singleton.
Defined.

(** X8: a group that is neither None, a string nor a list makes the filter
    raise TypeError, whatever the keys and the other groups. *)
Theorem X8_other_type_raises_type_error
    (files_found : list string) (c_all c_any c_suf : criterion) :
  well_typed c_any && well_typed c_all && well_typed c_suf = false ->
  exists msg, Filter.files_to_download files_found c_all c_any c_suf
              = Raise (TypeError msg).
Proof.
  intros Hty. unfold Filter.files_to_download.
  destruct c_any as [|s|items|]; simpl in *; try rewrite any_loop_first_branch;
    try (eexists; reflexivity);
    (destruct c_all as [|s'|items'|]; simpl in *; try (eexists; reflexivity);
     destruct c_suf as [|s''|items''|]; simpl in *; try (eexists; reflexivity);
     discriminate).
Qed.

Lemma X8_other_type_raises_type_error_witness :
  exists msg, Filter.files_to_download ["a.csv"] CNone (CStr "a") COther
              = Raise (TypeError msg).
Proof.
  apply (X8_other_type_raises_type_error ["a.csv"] CNone (CStr "a") COther).
  reflexivity.
Defined.

(** ** What the pruner touches *)

Section PrunerReach.

Variables (a : arguments) (dsid_name : string) (files_found : list string).

Lemma for_each_prune_file_removes (walked : list string) (t : local_tree) (p : string) :
  existsb (removed p) (calls (for_each (prune_file a dsid_name files_found) walked t))
  = true ->
  p ∈ walked /\ extraneous (datadir a) dsid_name files_found p = true.
Proof.
  revert t. induction walked as [|q walked IH]; intros t; [done|].
  simpl for_each. rewrite calls_bind, existsb_app, prune_file_run.
  destruct (extraneous (datadir a) dsid_name files_found q) eqn:Hq; simpl.
  - intros [H | H]%orb_true_iff.
    + assert (Hpq : removed p (EvRemove q) = true)
        by (destruct (verbose a); simpl in H; by rewrite orb_false_r in H).
      simpl in Hpq. apply String.eqb_eq in Hpq as ->. split; [by left | done].
    + apply IH in H as [? ?]. split; [by right | done].
  - intros H. apply IH in H as [? ?]. split; [by right | done].
Qed.

Lemma prune_removes (t : local_tree) (p : string) :
  existsb (removed p) (calls (prune a dsid_name files_found t)) = true ->
  Os.below (OsPath.join (datadir a) dsid_name) p = true
  /\ (exists i, t !! p = Some i /\ is_dir i = false)
  /\ extraneous (datadir a) dsid_name files_found p = true.
Proof.
  unfold prune. rewrite calls_bind. unfold emit at 1 2 3. simpl.
  rewrite calls_bind. unfold Os.walk_files at 1 2 3. simpl.
  intros [Hin Hext]%for_each_prune_file_removes.
  pose proof (elem_of_walk_files (OsPath.join (datadir a) dsid_name) t p) as Hwalk.
  unfold Os.walk_files, res in Hwalk. simpl in Hwalk.
  destruct Hwalk as [Hwalk _]. destruct Hwalk as [Hbelow Hfile]; [eauto|].
  done.
Qed.

End PrunerReach.

(** X9: the pruner removes only files it has walked: every [os.remove]
    call is for a file of the tree spelled below the dataset's
    subdirectory and failing the test of line 417; everything not below
    that subdirectory, and every directory, is left as it is. *)
Theorem X9_pruner_reaches_only_walked_files
    (a : arguments) (dsid_name : string) (files_found : list string) (t : local_tree) :
  (forall p, existsb (removed p) (calls (prune a dsid_name files_found t)) = true ->
     Os.below (OsPath.join (datadir a) dsid_name) p = true
     /\ (exists i, t !! p = Some i /\ is_dir i = false)
     /\ extraneous (datadir a) dsid_name files_found p = true)
  /\ (forall q, Os.below (OsPath.join (datadir a) dsid_name) q = false ->
        tree_of (prune a dsid_name files_found t) !! q = t !! q)
  /\ (forall q i, t !! q = Some i -> is_dir i = true ->
        tree_of (prune a dsid_name files_found t) !! q = Some i).
Proof.
  split; [intros p; apply prune_removes|]. split; [intros q; apply prune_frame|].
  intros q i Hq Hdir. destruct (prune_tree a dsid_name files_found t) as [_ ->].
  by rewrite Hq, Hdir.
Qed.

(** X10: with a [datadir] that is not empty and has no trailing separator
    (and a dataset folder that is not an absolute path), the pruner leaves
    the two documentation files directly under the dataset's subdirectory
    as they are, listed remotely or not. *)
Theorem X10_pruner_keeps_documentation_files
    (a : arguments) (dsid_name : string) (files_found : list string)
    (t : local_tree) (fname : string) :
  datadir a <> "" ->
  PyStr.endswith (datadir a) "/" = false ->
  PyStr.startswith dsid_name "/" = false ->
  fname ∈ ["datadictionary.yaml"; "metadata.yaml"] ->
  tree_of (prune a dsid_name files_found t) !! OsPath.join3 (datadir a) dsid_name fname
  = t !! OsPath.join3 (datadir a) dsid_name fname.
Proof. apply prune_keeps_protected. Qed.

Lemma X10_pruner_keeps_documentation_files_witness :
  tree_of (prune (Sample.args CNone "data" true) "EP0001-dengue/" [] (Sample.local "data"))
    !! OsPath.join3 (datadir (Sample.args CNone "data" true)) "EP0001-dengue/"
                    "metadata.yaml"
  = Sample.local "data"
    !! OsPath.join3 (datadir (Sample.args CNone "data" true)) "EP0001-dengue/"
                    "metadata.yaml".
Proof.
  apply (X10_pruner_keeps_documentation_files
           (Sample.args CNone "data" true) "EP0001-dengue/" [] (Sample.local "data")
           "metadata.yaml"); try reflexivity; [discriminate | set_solver].
Defined.

(** X11: with such a [datadir], the pruner leaves the local copy of every
    listed key as it is, selected by this call or not, when the place of
    that copy, [os.path.join(datadir, key)], is spelled as the walk spells
    it (entry names below the dataset's subdirectory, one separator
    between them). *)
Theorem X11_pruner_keeps_listed_keys
    (a : arguments) (dsid_name : string) (files_found : list string)
    (t : local_tree) (key : string) :
  datadir a <> "" ->
  PyStr.endswith (datadir a) "/" = false ->
  PyStr.startswith key "/" = false ->
  walk_spelled (OsPath.join (datadir a) dsid_name) (OsPath.join (datadir a) key) = true ->
  key ∈ files_found ->
  tree_of (prune a dsid_name files_found t) !! OsPath.join (datadir a) key
  = t !! OsPath.join (datadir a) key.
Proof.
  intros Hd Hsep Hkey _ Hin.
  destruct (prune_tree a dsid_name files_found t) as [_ ->].
  destruct (t !! _) as [i|]; [|done].
  replace (extraneous (datadir a) dsid_name files_found (OsPath.join (datadir a) key))
    with false; [by rewrite andb_false_r|].
  symmetry. unfold extraneous. apply andb_false_iff. left.
  apply negb_false_iff, in_list_elem_of.
  unfold file_path_relative, datadir_prefix_length.
  rewrite join_relative by done.
  replace (String.length (datadir a) + 1) with (String.length (datadir a ++ "/"))
    by (by rewrite string_length_app).
  by rewrite <- string_app_assoc, slice_from_app.
Qed.

Lemma X11_pruner_keeps_listed_keys_witness :
  tree_of (prune (Sample.args CNone "data" true) "EP0001-dengue/"
                 ["EP0001-dengue/sub/b.txt"] (Sample.local "data"))
    !! OsPath.join (datadir (Sample.args CNone "data" true)) "EP0001-dengue/sub/b.txt"
  = Sample.local "data"
    !! OsPath.join (datadir (Sample.args CNone "data" true)) "EP0001-dengue/sub/b.txt".
Proof.
  apply (X11_pruner_keeps_listed_keys
           (Sample.args CNone "data" true) "EP0001-dengue/" ["EP0001-dengue/sub/b.txt"]
           (Sample.local "data") "EP0001-dengue/sub/b.txt");
    try reflexivity; [discriminate | set_solver].
Defined.

(** A key with a doubled separator is not spelled as the walk spells
    it. *)
Example doubled_separator_is_not_walk_spelled :
  walk_spelled (OsPath.join "data" "EP0001-dengue/")
               (OsPath.join "data" "EP0001-dengue//a.csv") = false
  /\ walk_spelled (OsPath.join "data" "EP0001-dengue/")
                  (OsPath.join "data" "EP0001-dengue/sub/b.txt") = true.
Proof. split; vm_compute; reflexivity. Qed.

(** X12: with clean=False the pass makes no [os.remove] call, whatever
    the remote, the criteria and the local tree, also when it raises. *)
Theorem X12_no_clean_no_removal
    (env : environment) (a : arguments) (t : local_tree) :
  clean a = false ->
  List.filter is_remove (calls (download_dataset_v2 env a t)) = [].
Proof.
  intros Hclean. revert t. change (quiet is_remove (download_dataset_v2 env a)).
  unfold download_dataset_v2.
  apply quiet_bind; [apply quiet_lift|]. intros Bucket.
  apply quiet_bind; [apply quiet_lift|]. intros dsid_name.
  apply quiet_bind; [apply quiet_lift|]. intros selected.
  apply quiet_bind.
  { apply quiet_for_each. intros key _.
    apply quiet_sync_file; try reflexivity. by right. }
  intros _. apply quiet_bind; [rewrite Hclean; apply quiet_pure|].
  intros _. by apply quiet_when, quiet_write_docs.
Qed.

Lemma X12_no_clean_no_removal_witness :
  List.filter is_remove
    (calls (download_dataset_v2 Sample.env (Sample.args CNone "data" false)
                                (Sample.local "data"))) = [].
Proof.
  apply (X12_no_clean_no_removal Sample.env (Sample.args CNone "data" false)).
  reflexivity.
Defined.

(** ** What the pass transfers *)

Section Transfers.

Variables (env : environment) (a : arguments).

Lemma stray_transfer_selected (Bucket key : string) (S : gset string) :
  key ∈ S ->
  stray_transfer Bucket (datadir a) S
    (EvDownloadFile Bucket key (OsPath.join (datadir a) key)) = false.
Proof.
  intros Hin. simpl. by rewrite !String.eqb_refl, bool_decide_true.
Qed.

Lemma filter_nil_not_in {A} (P : A -> bool) (l : list A) (x : A) :
  List.filter P l = [] -> x ∈ l -> P x = false.
Proof.
  intros Hnil Hin. destruct (P x) eqn:Hx; [|done].
  assert (Hf : In x (List.filter P l)) by (by apply filter_In, conj; [apply list_elem_of_In|]).
  rewrite Hnil in Hf. done.
Qed.

(** With update off the body makes exactly its one download call. *)
Lemma sync_file_transfers_without_update (Bucket key : string) (t : local_tree) :
  update a = false ->
  List.filter is_transfer (calls (sync_file env a Bucket key t))
  = [EvDownloadFile Bucket key (OsPath.join (datadir a) key)].
Proof.
  intros Hupdate. unfold sync_file. rewrite Hupdate, andb_false_r.
  generalize (OsPath.join (datadir a) key). intros dest.
  generalize (OsPath.dirname dest). intros directory.
  cbv beta iota zeta delta [bind when pure emit lift raise
    Os.path_exists Os.makedirs S3.download_file res tree_of calls fst snd andb].
  destruct (bool_decide (is_Some (t !! directory))); cbv beta iota delta [negb].
  all: repeat match goal with
         | |- context [S3.download_raises ?e ?b ?k ?f ?tr] =>
             destruct (S3.download_raises e b k f tr)
         end.
  all: destruct (verbose a);
    cbv beta iota delta [fst snd app List.filter is_transfer]; reflexivity.
Qed.

(** Whether the body consults the remote timestamp. *)
Lemma sync_file_heads (Bucket key : string) (t : local_tree) :
  List.filter is_head (calls (sync_file env a Bucket key t))
  = if update a && bool_decide (is_Some (t !! OsPath.join (datadir a) key))
    then [EvHeadObject Bucket key] else [].
Proof.
  unfold sync_file.
  generalize (OsPath.join (datadir a) key). intros dest.
  generalize (unix_warning (datadir a)). intros warning.
  generalize (OsPath.dirname dest). intros directory.
  cbv beta iota zeta delta [bind when pure emit lift raise
    Os.path_exists Os.getmtime Os.getctime Os.stat_field Os.makedirs
    S3.head_object S3.download_file res tree_of calls fst snd].
  destruct (S3.lookup_object (s3 env Bucket) key) as [o|];
    destruct (negb (String.eqb (platform_system env) "Windows") && update a);
    destruct (update a), (bool_decide (is_Some (t !! dest)));
    cbv beta iota delta [andb orb negb].
  all: try destruct (from_option st_ctime 0 (t !! dest)
                     <? from_option st_mtime 0 (t !! dest))%Z.
  all: try destruct (from_option st_ctime 0 (t !! dest) <? LastModified o)%Z.
  all: try destruct (bool_decide (is_Some (t !! directory))).
  all: cbv beta iota delta [negb].
  all: repeat match goal with
         | |- context [S3.download_raises ?e ?b ?k ?f ?tr] =>
             destruct (S3.download_raises e b k f tr)
         end.
  all: destruct (verbose a).
  all: cbv beta iota delta [fst snd app List.filter is_head]; reflexivity.
Qed.

Lemma for_each_sync_transfers_without_update (Bucket : string) (keys : list string)
    (t : local_tree) :
  update a = false ->
  res (for_each (sync_file env a Bucket) keys t) = Ok tt ->
  List.filter is_transfer (calls (for_each (sync_file env a Bucket) keys t))
  = map (fun key => EvDownloadFile Bucket key (OsPath.join (datadir a) key)) keys.
Proof.
  intros Hupdate. revert t. induction keys as [|key keys IH]; intros t Hret; [done|].
  simpl for_each in *.
  destruct (bind_returns _ _ _ _ Hret) as ([] & _ & -> & Hrest).
  unfold calls at 1. simpl snd.
  rewrite List.filter_app, sync_file_transfers_without_update by done.
  by rewrite (IH _ Hrest).
Qed.

End Transfers.

(** X13: every download call of a pass is for a selected key, from the
    bucket of the data state, to [os.path.join(datadir, key)]; nothing
    outside the selection is ever fetched. *)
Theorem X13_only_selected_keys_are_downloaded
    (env : environment) (a : arguments) (t : local_tree)
    (Bucket dsid_name : string) (S : gset string) (b key filename : string) :
  lookup_bucket env (data_state a) = Ok Bucket ->
  resolve_prefix (CommonPrefixes (s3 env Bucket)) (dsid a) (data_state a) = Ok dsid_name ->
  Filter.files_to_download (files_found_in env Bucket dsid_name)
    (contains_all a) (contains_any a) (suffixes a) = Ok S ->
  EvDownloadFile b key filename ∈ calls (download_dataset_v2 env a t) ->
  b = Bucket /\ key ∈ S /\ filename = OsPath.join (datadir a) key.
Proof.
  intros HB Hname HS Hin.
  rewrite (download_dataset_v2_resolved env a t Bucket dsid_name S HB Hname HS) in Hin.
  assert (Hquiet : quiet (stray_transfer Bucket (datadir a) S)
            (for_each (sync_file env a Bucket) (elements S) >>
             when (clean a) (prune a dsid_name (files_found_in env Bucket dsid_name)) >>
             when (fetch_docs a) (write_docs env a dsid_name))).
  { apply quiet_bind.
    - apply quiet_for_each. intros k Hk%elem_of_elements.
      apply quiet_sync_file; try reflexivity; [by right|].
      by apply stray_transfer_selected.
    - intros _. apply quiet_bind.
      + apply quiet_when, quiet_prune; try reflexivity. by right.
      + intros _. by apply quiet_when, quiet_write_docs. }
  pose proof (filter_nil_not_in _ _ _ (Hquiet t) Hin) as Hstray. simpl in Hstray.
  apply negb_false_iff, andb_true_iff in Hstray as [Hstray Hf].
  apply andb_true_iff in Hstray as [Hb Hk].
  apply String.eqb_eq in Hb, Hf. by apply bool_decide_eq_true in Hk.
Qed.

Lemma X13_only_selected_keys_are_downloaded_witness :
  "std-bucket" = "std-bucket"
  /\ "EP0001-dengue/a.csv"
       ∈ ({[ "EP0001-dengue/a.csv"; "EP0001-dengue/sub/c.csv" ]} : gset string)
  /\ "data/EP0001-dengue/a.csv"
     = OsPath.join (datadir (Sample.args (CStr "csv") "data" true)) "EP0001-dengue/a.csv".
Proof.
  apply (X13_only_selected_keys_are_downloaded
           Sample.env (Sample.args (CStr "csv") "data" true) (Sample.local "data")
           "std-bucket" "EP0001-dengue/"
           {[ "EP0001-dengue/a.csv"; "EP0001-dengue/sub/c.csv" ]});
    try (vm_compute; reflexivity).
  let l := eval vm_compute in
        (calls (download_dataset_v2 Sample.env (Sample.args (CStr "csv") "data" true)
                                    (Sample.local "data"))) in
  change (EvDownloadFile "std-bucket" "EP0001-dengue/a.csv" "data/EP0001-dengue/a.csv"
          ∈ l).
  repeat first [apply list_elem_of_here | apply list_elem_of_further].
Defined.

(** X14: with update=False a pass that completes downloads every selected
    key, once each, local copy or not. *)
Theorem X14_without_update_every_selected_key_is_downloaded
    (env : environment) (a : arguments) (t : local_tree)
    (Bucket dsid_name : string) (S : gset string) :
  lookup_bucket env (data_state a) = Ok Bucket ->
  resolve_prefix (CommonPrefixes (s3 env Bucket)) (dsid a) (data_state a) = Ok dsid_name ->
  Filter.files_to_download (files_found_in env Bucket dsid_name)
    (contains_all a) (contains_any a) (suffixes a) = Ok S ->
  update a = false ->
  res (download_dataset_v2 env a t) = Ok tt ->
  List.filter is_transfer (calls (download_dataset_v2 env a t))
  = map (fun key => EvDownloadFile Bucket key (OsPath.join (datadir a) key))
        (elements S).
Proof.
  intros HB Hname HS Hupdate Hret.
  rewrite (download_dataset_v2_resolved env a t Bucket dsid_name S HB Hname HS) in *.
  destruct (bind_returns _ _ _ _ Hret) as ([] & Hsync & -> & _).
  unfold calls at 1. simpl snd.
  rewrite List.filter_app, for_each_sync_transfers_without_update by done.
  assert (Hquiet : quiet is_transfer
            (when (clean a) (prune a dsid_name (files_found_in env Bucket dsid_name)) >>
             when (fetch_docs a) (write_docs env a dsid_name))).
  { apply quiet_bind.
    - apply quiet_when, quiet_prune; try reflexivity. by right.
    - intros _. by apply quiet_when, quiet_write_docs. }
  by rewrite Hquiet, app_nil_r.
Qed.

Lemma X14_without_update_every_selected_key_is_downloaded_witness :
  List.filter is_transfer
    (calls (download_dataset_v2 Sample.env
              (Arguments_ "EP0001" "standardised" CNone CNone (CStr "txt") "data"
                          false false false false [None] false)
              (Sample.local "data")))
  = map (fun key => EvDownloadFile "std-bucket" key
                      (OsPath.join (datadir (Arguments_ "EP0001" "standardised" CNone
                                               CNone (CStr "txt") "data" false false
                                               false false [None] false)) key))
        (elements ({[ "EP0001-dengue/sub/b.txt" ]} : gset string)).
Proof.
  apply (X14_without_update_every_selected_key_is_downloaded
           Sample.env
           (Arguments_ "EP0001" "standardised" CNone CNone (CStr "txt") "data"
                       false false false false [None] false)
           (Sample.local "data") "std-bucket" "EP0001-dengue/");
    vm_compute; reflexivity.
Defined.

(** X15: when a transfer raises in the loop over the selected keys, the
    pass ends there with that exception: its outcome is the outcome of
    the interrupted loop, and neither the pruner nor the documentation
    fetch runs (no file removed, no documentation written). *)
Theorem X15_a_failed_transfer_ends_the_pass
    (env : environment) (a : arguments) (t : local_tree)
    (Bucket dsid_name : string) (S : gset string) (e : exn) :
  lookup_bucket env (data_state a) = Ok Bucket ->
  resolve_prefix (CommonPrefixes (s3 env Bucket)) (dsid a) (data_state a) = Ok dsid_name ->
  Filter.files_to_download (files_found_in env Bucket dsid_name)
    (contains_all a) (contains_any a) (suffixes a) = Ok S ->
  res (for_each (sync_file env a Bucket) (elements S) t) = Raise e ->
  download_dataset_v2 env a t = for_each (sync_file env a Bucket) (elements S) t
  /\ res (download_dataset_v2 env a t) = Raise e
  /\ List.filter is_remove (calls (download_dataset_v2 env a t)) = []
  /\ List.filter is_write (calls (download_dataset_v2 env a t)) = [].
Proof.
  intros HB Hname HS Hraise.
  assert (Heq : download_dataset_v2 env a t
                = for_each (sync_file env a Bucket) (elements S) t).
  { rewrite (download_dataset_v2_resolved env a t Bucket dsid_name S HB Hname HS).
    unfold bind. unfold res in Hraise.
    destruct (for_each (sync_file env a Bucket) (elements S) t) as [[r t1] evs1].
    simpl in Hraise. by subst r. }
  rewrite Heq. repeat split; [done | |].
  - apply (quiet_for_each is_remove). intros key _.
    apply quiet_sync_file; try reflexivity. by right.
  - apply (quiet_for_each is_write). intros key _.
    apply quiet_sync_file; try reflexivity. by right.
Qed.

Lemma X15_a_failed_transfer_ends_the_pass_witness :
  res (download_dataset_v2
         (Environment {["standardised" := "std-bucket"]} (fun _ => Sample.dengue) "Linux"
                      100 (fun _ => true) (fun _ => Ok (Some "meta", Some "dict")))
         (Sample.args (CStr "csv") "data" true) (Sample.local "data"))
  = Raise (TransferError "EP0001-dengue/sub/c.csv").
Proof.
  apply (X15_a_failed_transfer_ends_the_pass
           (Environment {["standardised" := "std-bucket"]} (fun _ => Sample.dengue)
                        "Linux" 100 (fun _ => true)
                        (fun _ => Ok (Some "meta", Some "dict")))
           (Sample.args (CStr "csv") "data" true) (Sample.local "data")
           "std-bucket" "EP0001-dengue/"
           {[ "EP0001-dengue/a.csv"; "EP0001-dengue/sub/c.csv" ]});
    vm_compute; reflexivity.
Defined.

(** X16: the remote timestamp of a key is requested only when update is
    on and the local copy exists: one [head_object] call then, none
    otherwise. *)
Theorem X16_head_object_only_for_existing_copies
    (env : environment) (a : arguments) (Bucket key : string) (t : local_tree) :
  List.filter is_head (calls (sync_file env a Bucket key t))
  = if update a && bool_decide (is_Some (t !! OsPath.join (datadir a) key))
    then [EvHeadObject Bucket key] else [].
Proof. apply sync_file_heads. Qed.

(** ** The documentation files (lines 422-443) *)

Section Documentation.

Lemma string_app_inv_head (a b c : string) : a ++ b = a ++ c -> b = c.
Proof.
  induction a as [|x a IH]; [done|]. rewrite !string_app_cons.
  intros H. injection H as H. by apply IH.
Qed.

Lemma join_inj (x f1 f2 : string) :
  PyStr.startswith f1 "/" = false -> PyStr.startswith f2 "/" = false ->
  OsPath.join x f1 = OsPath.join x f2 -> f1 = f2.
Proof.
  unfold OsPath.join, OsPath.sep. intros -> ->.
  destruct (String.eqb x "" || PyStr.endswith x "/").
  - apply string_app_inv_head.
  - intros H. by apply string_app_inv_head, string_app_inv_head in H.
Qed.

Lemma foldl_mkdir_keeps (now : Z) (dirs : list string) (t : local_tree)
    (q : string) (i : inode) :
  t !! q = Some i -> foldl (Os.mkdir now) t dirs !! q = Some i.
Proof.
  revert t. induction dirs as [|d dirs IH]; intros t Hq; simpl; [done|].
  apply IH. unfold Os.mkdir. destruct (t !! d) eqn:Hd; [done|].
  rewrite lookup_insert_ne; [done|]. intros ->. congruence.
Qed.

(** What the documentation fetch does when both artifacts arrive. *)
Lemma write_docs_run (env : environment) (a : arguments) (dsid_name m d : string)
    (t : local_tree) :
  fetch_data_documentation env (dsid a) = Ok (Some m, Some d) ->
  res (write_docs env a dsid_name t) = Ok tt
  /\ tree_of (write_docs env a dsid_name t)
       !! OsPath.join3 (datadir a) dsid_name "metadata.yaml"
     = Some (Inode false (clock env) (clock env))
  /\ tree_of (write_docs env a dsid_name t)
       !! OsPath.join3 (datadir a) dsid_name "datadictionary.yaml"
     = Some (Inode false (clock env) (clock env))
  /\ List.filter is_write (calls (write_docs env a dsid_name t))
     = [EvWriteFile (OsPath.join3 (datadir a) dsid_name "metadata.yaml") m;
        EvWriteFile (OsPath.join3 (datadir a) dsid_name "datadictionary.yaml") d].
Proof.
  intros Hdocs. unfold write_docs. rewrite (bind_lift_ok _ _ _ _ Hdocs).
  unfold write_doc, bind, Os.makedirs, Os.write_file, res, tree_of, calls. simpl.
  repeat split.
  - rewrite lookup_insert_ne.
    + apply foldl_mkdir_keeps, lookup_insert_eq.
    + unfold OsPath.join3. intros H. by apply join_inj in H.
  - apply lookup_insert_eq.
Qed.

End Documentation.

(** X17: a pass with fetch_docs=True that completes, when the fetch
    returns both artifacts, writes exactly two files: the metadata and
    the data dictionary, with the fetched contents, directly under the
    dataset's subdirectory; both are files of the final tree. *)
Theorem X17_documentation_is_written_under_the_dataset
    (env : environment) (a : arguments) (t : local_tree)
    (Bucket dsid_name m d : string) :
  lookup_bucket env (data_state a) = Ok Bucket ->
  resolve_prefix (CommonPrefixes (s3 env Bucket)) (dsid a) (data_state a) = Ok dsid_name ->
  fetch_docs a = true ->
  fetch_data_documentation env (dsid a) = Ok (Some m, Some d) ->
  res (download_dataset_v2 env a t) = Ok tt ->
  tree_of (download_dataset_v2 env a t)
    !! OsPath.join3 (datadir a) dsid_name "metadata.yaml"
  = Some (Inode false (clock env) (clock env))
  /\ tree_of (download_dataset_v2 env a t)
       !! OsPath.join3 (datadir a) dsid_name "datadictionary.yaml"
     = Some (Inode false (clock env) (clock env))
  /\ List.filter is_write (calls (download_dataset_v2 env a t))
     = [EvWriteFile (OsPath.join3 (datadir a) dsid_name "metadata.yaml") m;
        EvWriteFile (OsPath.join3 (datadir a) dsid_name "datadictionary.yaml") d].
Proof.
  intros HB Hname Hfetch Hdocs Hret.
  destruct (download_dataset_v2_returns_selected env a t Bucket dsid_name HB Hname Hret)
    as [S HS].
  rewrite (download_dataset_v2_resolved env a t Bucket dsid_name S HB Hname HS) in *.
  pose proof Hret as Hret1.
  apply tree_of_bind_returns in Hret1 as ([] & Hsync & Hret2 & ->).
  pose proof Hret2 as Hret3.
  apply tree_of_bind_returns in Hret3 as ([] & Hprune & _ & ->).
  rewrite calls_bind, Hsync, calls_bind, Hprune, !List.filter_app.
  rewrite Hfetch. simpl when.
  set (t2 := tree_of (when (clean a) _ _)).
  destruct (write_docs_run env a dsid_name m d t2 Hdocs) as (_ & H1 & H2 & H3).
  split; [done|]. split; [done|]. rewrite H3.
  replace (List.filter is_write (calls (for_each _ _ t))) with (@nil event).
  2:{ symmetry. apply (quiet_for_each is_write). intros key _.
      apply quiet_sync_file; try reflexivity. by right. }
  replace (List.filter is_write (calls (when (clean a) _ _))) with (@nil event); [done|].
  symmetry. apply (quiet_when is_write), quiet_prune; try reflexivity. by right.
Qed.

Lemma X17_documentation_is_written_under_the_dataset_witness :
  List.filter is_write
    (calls (download_dataset_v2 Sample.env
              (Arguments_ "EP0001" "standardised" CNone CNone (CStr "csv") "data"
                          true true true false [None] false)
              (Sample.local "data")))
  = [EvWriteFile "data/EP0001-dengue/metadata.yaml" "meta";
     EvWriteFile "data/EP0001-dengue/datadictionary.yaml" "dict"].
Proof.
  apply (X17_documentation_is_written_under_the_dataset
           Sample.env
           (Arguments_ "EP0001" "standardised" CNone CNone (CStr "csv") "data"
                       true true true false [None] false)
           (Sample.local "data") "std-bucket" "EP0001-dengue/" "meta" "dict");
    vm_compute; reflexivity.
Defined.

(** X18: with verbose=False a pass that completes prints nothing, except
    that with clean=True the list of protected names is printed once
    (line 411 is not guarded by [verbose]). *)
Theorem X18_quiet_pass_still_prints_the_protected_names
    (env : environment) (a : arguments) (t : local_tree)
    (Bucket dsid_name : string) :
  lookup_bucket env (data_state a) = Ok Bucket ->
  resolve_prefix (CommonPrefixes (s3 env Bucket)) (dsid a) (data_state a) = Ok dsid_name ->
  verbose a = false ->
  res (download_dataset_v2 env a t) = Ok tt ->
  List.filter is_print (calls (download_dataset_v2 env a t))
  = if clean a then [EvPrintList (exception_fnames dsid_name)] else [].
Proof.
  intros HB Hname Hverbose Hret.
  destruct (download_dataset_v2_returns_selected env a t Bucket dsid_name HB Hname Hret)
    as [S HS].
  rewrite (download_dataset_v2_resolved env a t Bucket dsid_name S HB Hname HS) in *.
  pose proof Hret as Hret1.
  apply tree_of_bind_returns in Hret1 as ([] & Hsync & Hret2 & _).
  apply tree_of_bind_returns in Hret2 as ([] & Hprune & _ & _).
  rewrite calls_bind, Hsync, calls_bind, Hprune, !List.filter_app.
  replace (List.filter is_print (calls (for_each _ _ t))) with (@nil event).
  2:{ symmetry. apply (quiet_for_each is_print). intros key _.
      apply quiet_sync_file; try reflexivity. by left. }
  replace (List.filter is_print (calls (when (fetch_docs a) _ _))) with (@nil event).
  2:{ symmetry. by apply (quiet_when is_print), quiet_write_docs. }
  rewrite app_nil_r. simpl app.
  destruct (clean a); [|done]. simpl when. unfold prune.
  rewrite calls_bind. unfold emit at 1 2 3. simpl.
  assert (Hquiet : quiet is_print
            (let* walked := Os.walk_files (OsPath.join (datadir a) dsid_name) in
             for_each (prune_file a dsid_name (files_found_in env Bucket dsid_name)) walked)).
  { apply quiet_bind; [apply quiet_walk_files|]. intros walked.
    apply quiet_for_each. intros p _. unfold prune_file. rewrite Hverbose.
    apply quiet_when, quiet_bind; [apply quiet_pure | intros _; by apply quiet_remove]. }
  by rewrite Hquiet.
Qed.

Lemma X18_quiet_pass_still_prints_the_protected_names_witness :
  List.filter is_print (calls Sample.csv_pass)
  = if clean (Sample.args (CStr "csv") "data" true)
    then [EvPrintList (exception_fnames "EP0001-dengue/")] else [].
Proof.
  apply (X18_quiet_pass_still_prints_the_protected_names
           Sample.env (Sample.args (CStr "csv") "data" true) (Sample.local "data")
           "std-bucket" "EP0001-dengue/");
    vm_compute; reflexivity.
Defined.

(** * Properties of the single-file helpers *)

(** ** Splitting and joining on one character *)

Section SplitFacts.

Variable c : ascii.

Local Abbreviation sep := (String c "").
Local Abbreviation lacks s := (PyStr.contains s sep = false).

Lemma contains_char_cons (x : ascii) (s : string) :
  PyStr.contains (String x s) sep = Ascii.eqb x c || PyStr.contains s sep.
Proof.
  change (PyStr.contains (String x s) sep)
    with ((if ascii_dec c x then String.prefix "" s else false)
          || PyStr.contains s sep).
  f_equal. destruct (ascii_dec c x) as [<-|Hne].
  - rewrite Ascii.eqb_refl. by destruct s.
  - symmetry. apply Ascii.eqb_neq. congruence.
Qed.

Lemma lacks_cons (x : ascii) (s : string) :
  lacks (String x s) <-> Ascii.eqb x c = false /\ lacks s.
Proof. rewrite contains_char_cons. apply orb_false_iff. Qed.

Lemma split_cons (x : ascii) (s : string) :
  PyStr.split c (String x s) =
  if Ascii.eqb x c then "" :: PyStr.split c s
  else String x (hd "" (PyStr.split c s)) :: tl (PyStr.split c s).
Proof.
  simpl. destruct (Ascii.eqb x c); [done|]. by destruct (PyStr.split c s).
Qed.

Lemma split_not_nil (s : string) : PyStr.split c s <> [].
Proof.
  destruct s as [|x s]; [done|]. rewrite split_cons. by destruct (Ascii.eqb x c).
Qed.

Lemma split_lacks (s : string) : lacks s -> PyStr.split c s = [s].
Proof.
  induction s as [|x s IH]; [done|]. intros [Hx Hs]%lacks_cons.
  by rewrite split_cons, Hx, (IH Hs).
Qed.

(** Splitting at the first separator. *)
Lemma split_app_sep (b k : string) :
  lacks b -> PyStr.split c (b ++ String c k) = b :: PyStr.split c k.
Proof.
  induction b as [|x b IH]; intros Hb.
  - rewrite string_app_nil, split_cons. by rewrite Ascii.eqb_refl.
  - apply lacks_cons in Hb as [Hx Hb].
    by rewrite string_app_cons, split_cons, Hx, (IH Hb).
Qed.

(** Joining the pieces gives the string back. *)
Lemma join_split (s : string) : PyStrMore.join_with sep (PyStr.split c s) = s.
Proof.
  induction s as [|x s IH]; [done|]. rewrite split_cons.
  pose proof (split_not_nil s) as Hne.
  destruct (Ascii.eqb_spec x c) as [->|Hx].
  - destruct (PyStr.split c s) as [|p ps] eqn:Hs; [done|].
    change (PyStrMore.join_with sep ("" :: p :: ps))
      with ("" ++ sep ++ PyStrMore.join_with sep (p :: ps)).
    by rewrite IH.
  - destruct (PyStr.split c s) as [|p ps] eqn:Hs; [done|]. simpl hd. simpl tl.
    destruct ps as [|q ps].
    + simpl in *. by rewrite IH.
    + change (PyStrMore.join_with sep (String x p :: q :: ps))
        with (String x p ++ sep ++ PyStrMore.join_with sep (q :: ps)).
      change (PyStrMore.join_with sep (p :: q :: ps))
        with (p ++ sep ++ PyStrMore.join_with sep (q :: ps)) in IH.
      by rewrite string_app_cons, IH.
Qed.

Lemma split_pieces_lack (s : string) : Forall (fun p => lacks p) (PyStr.split c s).
Proof.
  induction s as [|x s IH]; [by constructor|]. rewrite split_cons.
  pose proof (split_not_nil s) as Hne.
  destruct (Ascii.eqb x c) eqn:Hx; [by constructor|].
  destruct (PyStr.split c s) as [|p ps]; [done|]. simpl.
  apply Forall_cons in IH as [Hp Hps]. constructor; [|done].
  by apply lacks_cons.
Qed.

(** The last piece: the whole string when it lacks the separator, the
    text after the last separator otherwise. *)
Lemma split_last (s : string) :
  lacks (List.last (PyStr.split c s) "")
  /\ ((lacks s /\ PyStr.split c s = [s])
      \/ (exists pre, s = pre ++ String c (List.last (PyStr.split c s) ""))
         /\ 2 <= length (PyStr.split c s)).
Proof.
  split.
  { pose proof (split_pieces_lack s) as Hall. pose proof (split_not_nil s) as Hne.
    rewrite Forall_forall in Hall. apply Hall, list_elem_of_In.
    destruct (PyStr.split c s) as [|p ps]; [done|].
    apply (@exists_last _ (p :: ps)) in Hne as (l' & y & ->).
    rewrite List.last_last. apply in_or_app. right. by left. }
  induction s as [|x s IH]; [by left|]. rewrite split_cons, lacks_cons.
  pose proof (split_not_nil s) as Hne.
  destruct (Ascii.eqb_spec x c) as [->|Hx].
  - right. destruct (PyStr.split c s) as [|p ps] eqn:Hs; [done|].
    split; [|simpl; lia].
    change (List.last ("" :: p :: ps) "") with (List.last (p :: ps) "").
    destruct IH as [[Hlacks Heq] | [[pre Hpre] _]].
    + injection Heq as -> ->. by exists "".
    + exists (String c pre). by rewrite string_app_cons, <- Hpre.
  - destruct (PyStr.split c s) as [|p ps] eqn:Hs; [done|]. simpl hd. simpl tl.
    destruct IH as [[Hlacks Heq] | [[pre Hpre] Hlen]].
    + left. injection Heq as -> ->. by apply Ascii.eqb_neq in Hx.
    + right. destruct ps as [|q ps]; [simpl in Hlen; lia|].
      split; [|simpl; lia].
      change (List.last (String x p :: q :: ps) "") with (List.last (p :: q :: ps) "").
      exists (String x pre). by rewrite string_app_cons, <- Hpre.
Qed.

Lemma split_last_app_sep (pre ext : string) :
  lacks ext ->
  List.last (PyStr.split c (pre ++ String c ext)) "" = ext
  /\ 2 <= length (PyStr.split c (pre ++ String c ext)).
Proof.
  intros Hext. induction pre as [|x pre IH].
  - rewrite string_app_nil, split_cons, Ascii.eqb_refl, (split_lacks _ Hext).
    split; [done | simpl; lia].
  - rewrite string_app_cons, split_cons. destruct IH as [IH Hlen].
    destruct (PyStr.split c (pre ++ String c ext)) as [|p [|q ps]];
      [simpl in Hlen; lia | simpl in Hlen; lia |].
    destruct (Ascii.eqb x c); simpl hd; simpl tl; (split; [|simpl; lia]); exact IH.
Qed.

End SplitFacts.

(** ** [download_file_from_URI]: the URI checks (lines 28-41) *)

Section UriChecks.

Lemma find_at_spec (c : ascii) (s : string) (i : Z) :
  (0 <= i)%Z ->
  (PyStrMore.find_at c s i = (-1)%Z /\ PyStr.contains s (String c "") = false)
  \/ exists pre post,
       s = pre ++ String c post
       /\ PyStr.contains pre (String c "") = false
       /\ PyStrMore.find_at c s i = (i + Z.of_nat (String.length pre))%Z.
Proof.
  revert i. induction s as [|x s IH]; intros i Hi; [by left|].
  simpl PyStrMore.find_at. destruct (Ascii.eqb_spec x c) as [->|Hx].
  - right. exists "", s. repeat split; simpl; try done; lia.
  - destruct (IH (i + 1)%Z) as [[Hnone Hlacks] | (pre & post & -> & Hpre & Hfind)];
      [lia | |].
    + left. split; [done|]. apply lacks_cons. split; [by apply Ascii.eqb_neq | done].
    + right. exists (String x pre), post. rewrite string_app_cons.
      repeat split; [|rewrite Hfind; simpl String.length; lia].
      apply lacks_cons. split; [by apply Ascii.eqb_neq | done].
Qed.

Lemma find_after_scheme (rest : string) :
  PyStrMore.find "/" 5 ("s3://" ++ rest) = PyStrMore.find_at "/" rest 5.
Proof. reflexivity. Qed.

End UriChecks.

Lemma check_URI_accepts (URI : string) :
  FromURI.check_URI URI = None <->
  exists bucket key,
    URI = "s3://" ++ bucket ++ "/" ++ key
    /\ bucket <> "" /\ PyStr.contains bucket "/" = false /\ key <> "".
Proof.
  unfold FromURI.check_URI. split.
  - destruct (PyStr.startswith URI "s3://") eqn:Hs; [|done]. simpl negb. cbv iota.
    apply startswith_app in Hs as [rest ->]. rewrite find_after_scheme.
    destruct (find_at_spec "/" rest 5) as [[-> _] | (pre & post & -> & Hpre & ->)];
      [lia | done |].
    intros H. exists pre, post. split; [done|].
    destruct ((5 + Z.of_nat (String.length pre) =? -1)%Z
              || (5 + Z.of_nat (String.length pre) =? 5)%Z) eqn:H1; [done|].
    apply orb_false_iff in H1 as [_ H1]. apply Z.eqb_neq in H1.
    destruct (_ =? _)%Z eqn:H2 in H; [done|]. apply Z.eqb_neq in H2.
    rewrite !string_length_app in H2. simpl String.length in H2.
    repeat split; [|done|].
    + intros ->. simpl in H1. lia.
    + intros ->. simpl in H2. lia.
  - intros (bucket & key & -> & Hb & Hlacks & Hk).
    replace (PyStr.startswith ("s3://" ++ bucket ++ "/" ++ key) "s3://") with true
      by (symmetry; apply startswith_app; by eexists).
    simpl negb. cbv iota. rewrite find_after_scheme.
    destruct (find_at_spec "/" (bucket ++ "/" ++ key) 5)
      as [[_ Hnone] | (pre & post & Heq & Hpre & ->)]; [lia | |].
    { exfalso. assert (Hc : PyStr.contains (bucket ++ "/" ++ key) "/" = true)
        by (apply contains_app; by exists bucket, key).
      congruence. }
    assert (Hsplit : PyStr.split "/" (bucket ++ "/" ++ key)
                     = PyStr.split "/" (pre ++ String "/" post)) by (by rewrite Heq).
    change (bucket ++ "/" ++ key) with (bucket ++ String "/" key) in Hsplit.
    rewrite !split_app_sep in Hsplit by done.
    injection Hsplit as -> Hposts.
    assert (post = key) as ->.
    { rewrite <- (join_split "/" post), <- (join_split "/" key). by rewrite Hposts. }
    rewrite !string_length_app. simpl String.length.
    destruct pre; [done|]. destruct key; [done|]. simpl String.length.
    replace (_ =? -1)%Z with false by (symmetry; apply Z.eqb_neq; lia).
    replace (_ =? 5)%Z with false by (symmetry; apply Z.eqb_neq; lia).
    simpl orb. cbv iota.
    by replace (_ =? _)%Z with false by (symmetry; apply Z.eqb_neq; lia).
Qed.

(** X19: the three URI checks accept exactly the URIs of the form
    [s3://<bucket>/<key>] with a bucket that is not empty and has no
    separator and a key that is not empty; any other URI is refused. *)
Theorem X19_uri_checks_accept_bucket_and_key (URI : string) :
  FromURI.check_URI URI = None <->
  exists bucket key,
    URI = "s3://" ++ bucket ++ "/" ++ key
    /\ bucket <> "" /\ PyStr.contains bucket "/" = false /\ key <> "".
Proof. apply check_URI_accepts. Qed.

(** X20: the extension the function infers is the text after the last
    dot of the whole URI: it exists exactly when the URI has a dot and
    does not end with one (a dot in the bucket or in a folder counts). *)
Theorem X20_extension_is_the_text_after_the_last_dot (URI ext : string) :
  FromURI.extension URI = Some ext <->
  ext <> "" /\ PyStr.contains ext "." = false /\ exists pre, URI = pre ++ "." ++ ext.
Proof.
  unfold FromURI.extension. split.
  - destruct (split_last "." URI) as [Hlacks [[_ Heq] | [[pre Hpre] Hlen]]].
    + by rewrite Heq.
    + replace (Nat.ltb _ 2) with false by (symmetry; apply Nat.ltb_ge; lia).
      simpl orb. destruct (String.eqb_spec (List.last (PyStr.split "." URI) "") "");
        [done|].
      intros H. injection H as <-. repeat split; try done. by exists pre.
  - intros (Hne & Hlacks & pre & ->).
    change (pre ++ "." ++ ext) with (pre ++ String "." ext).
    destruct (split_last_app_sep "." pre ext Hlacks) as [-> Hlen].
    replace (Nat.ltb _ 2) with false by (symmetry; apply Nat.ltb_ge; lia).
    by apply String.eqb_neq in Hne as ->.
Qed.

Lemma parse_accepted_URI (bucket key : string) :
  PyStr.contains bucket "/" = false ->
  FromURI.bucket_of ("s3://" ++ bucket ++ "/" ++ key) = Some bucket
  /\ FromURI.key_of ("s3://" ++ bucket ++ "/" ++ key) = key.
Proof.
  intros Hlacks. unfold FromURI.bucket_of, FromURI.key_of.
  change ("s3://" ++ bucket ++ "/" ++ key)
    with ("s3:" ++ String "/" ("" ++ String "/" (bucket ++ String "/" key))).
  rewrite !split_app_sep by done. simpl. split; [done|]. apply join_split.
Qed.

(** X21: for an accepted URI [s3://<bucket>/<key>] the download is asked
    for exactly that bucket and that key (separators inside the key
    included), and indexing the pieces of the URI cannot fail. *)
Theorem X21_bucket_and_key_are_parsed_back (bucket key : string) :
  PyStr.contains bucket "/" = false ->
  FromURI.bucket_of ("s3://" ++ bucket ++ "/" ++ key) = Some bucket
  /\ FromURI.key_of ("s3://" ++ bucket ++ "/" ++ key) = key.
Proof. apply parse_accepted_URI. Qed.

Lemma X21_bucket_and_key_are_parsed_back_witness :
  FromURI.bucket_of ("s3://" ++ "std-bucket" ++ "/" ++ "EP0001-dengue/sub/b.txt")
  = Some "std-bucket"
  /\ FromURI.key_of ("s3://" ++ "std-bucket" ++ "/" ++ "EP0001-dengue/sub/b.txt")
     = "EP0001-dengue/sub/b.txt".
Proof.
  apply (X21_bucket_and_key_are_parsed_back "std-bucket" "EP0001-dengue/sub/b.txt").
  reflexivity.
Defined.

(** ** [download_file_from_URI]: the download (lines 59-77) *)

Section UriDownload.

Variables (env : environment) (named_temporary_file : string -> option string).

Lemma fetch_outcome (URI destination bucket : string) (t : local_tree)
    (before : list event) :
  FromURI.bucket_of URI = Some bucket ->
  snd (FromURI.fetch env URI destination t before)
  = (before ++ [EvDownloadFile bucket (FromURI.key_of URI) destination])%list
  /\ ((fst (fst (FromURI.fetch env URI destination t before))
       = UriReturned (Some destination) true None
       /\ snd (fst (FromURI.fetch env URI destination t before))
          = <[destination := Inode false (clock env) (clock env)]> t)
      \/ (exists e, fst (fst (FromURI.fetch env URI destination t before))
                    = UriReturned None false (Some e))
         /\ snd (fst (FromURI.fetch env URI destination t before)) = t).
Proof.
  intros Hb. unfold FromURI.fetch. rewrite Hb.
  unfold S3.download_file, bind, emit.
  destruct (S3.download_raises env bucket (FromURI.key_of URI) destination t); simpl.
  - split; [done|]. right. eauto.
  - split; [done|]. by left.
Qed.

End UriDownload.

(** X22: with no [path] and temp=True, an accepted URI with an extension
    and a temporary file created under [name] makes exactly one download
    call, for the URI's bucket and key into [name], and returns either
    [(name, True, None)] or [(None, False, e)] without raising; either
    way the temporary file is left in place (on failure too, although no
    path is returned). *)
Theorem X22_temporary_download_returns_and_leaves_the_file
    (env : environment) (named_temporary_file : string -> option string)
    (URI ext name : string) (t : local_tree) :
  FromURI.check_URI URI = None ->
  FromURI.extension URI = Some ext ->
  named_temporary_file ("." ++ ext) = Some name ->
  (fst (fst (FromURI.download_file_from_URI env named_temporary_file URI None true t))
   = UriReturned (Some name) true None
   \/ exists e,
        fst (fst (FromURI.download_file_from_URI env named_temporary_file URI None true t))
        = UriReturned None false (Some e))
  /\ snd (fst (FromURI.download_file_from_URI env named_temporary_file URI None true t))
       !! name = Some (Inode false (clock env) (clock env))
  /\ exists bucket,
       FromURI.bucket_of URI = Some bucket
       /\ snd (FromURI.download_file_from_URI env named_temporary_file URI None true t)
          = [EvDownloadFile bucket (FromURI.key_of URI) name].
Proof.
  intros Hcheck Hext Htmp.
  pose proof Hcheck as Hacc.
  apply check_URI_accepts in Hacc as (bucket & key & -> & _ & Hlacks & _).
  destruct (parse_accepted_URI bucket key Hlacks) as [Hb Hk].
  unfold FromURI.download_file_from_URI. rewrite Hcheck, Hext, Htmp. simpl negb.
  cbv iota.
  destruct (fetch_outcome env ("s3://" ++ bucket ++ "/" ++ key) name bucket
              (<[name := Inode false (clock env) (clock env)]> t) [] Hb)
    as [Hcalls [[Hr Ht] | [[e Hr] Ht]]].
  - split; [by left|]. split; [rewrite Ht; apply lookup_insert_eq|].
    exists bucket. by rewrite Hcalls.
  - split; [right; by exists e|]. split; [rewrite Ht; apply lookup_insert_eq|].
    exists bucket. by rewrite Hcalls.
Qed.

Lemma X22_temporary_download_returns_and_leaves_the_file_witness :
  snd (fst (FromURI.download_file_from_URI Sample.env
              (fun suffix => Some ("/tmp/tmpq1w2e3" ++ suffix))
              "s3://std-bucket/EP0001-dengue/missing.csv" None true ∅))
    !! "/tmp/tmpq1w2e3.csv" = Some (Inode false 100 100).
Proof.
  apply (X22_temporary_download_returns_and_leaves_the_file
           Sample.env (fun suffix => Some ("/tmp/tmpq1w2e3" ++ suffix))
           "s3://std-bucket/EP0001-dengue/missing.csv" "csv" "/tmp/tmpq1w2e3.csv" ∅);
    reflexivity.
Defined.

(** X23: for an accepted URI and a given [path], temp=True changes
    nothing but one warning issued first: no temporary file is created,
    and result, tree and later calls are those of the same call with
    temp=False. *)
Theorem X23_temp_is_ignored_when_a_path_is_given
    (env : environment) (tmp tmp' : string -> option string)
    (URI dir : string) (t : local_tree) :
  FromURI.check_URI URI = None ->
  FromURI.download_file_from_URI env tmp URI (Some dir) true t
  = (fst (fst (FromURI.download_file_from_URI env tmp' URI (Some dir) false t)),
     snd (fst (FromURI.download_file_from_URI env tmp' URI (Some dir) false t)),
     EvWarn "Since path is provided, a temporary directory will not be created."
     :: snd (FromURI.download_file_from_URI env tmp' URI (Some dir) false t)).
Proof.
  intros Hcheck. unfold FromURI.download_file_from_URI. rewrite Hcheck.
  destruct (negb (bool_decide (is_Some (t !! dir)))); [done|].
  destruct (FromURI.extension URI) as [ext|]; [|done].
  unfold FromURI.fetch. destruct (FromURI.bucket_of URI) as [bucket|]; [|done].
  by destruct (S3.download_file env bucket (FromURI.key_of URI) _ t)
    as [[[[]|e] t'] evs].
Qed.

Lemma X23_temp_is_ignored_when_a_path_is_given_witness :
  FromURI.download_file_from_URI Sample.env (fun _ => None)
    "s3://std-bucket/EP0001-dengue/a.csv" (Some "data") true (Sample.local "data")
  = (UriReturned (Some "data/a.csv") true None,
     <["data/a.csv" := Inode false 100 100]> (Sample.local "data"),
     [EvWarn "Since path is provided, a temporary directory will not be created.";
      EvDownloadFile "std-bucket" "EP0001-dengue/a.csv" "data/a.csv"]).
Proof.
  rewrite (X23_temp_is_ignored_when_a_path_is_given
             Sample.env (fun _ => None) (fun _ => None)
             "s3://std-bucket/EP0001-dengue/a.csv" "data" (Sample.local "data"));
    vm_compute; reflexivity.
Defined.

(** X24: whatever the arguments, a returned success names a path that is
    a file of the resulting tree, and a returned failure returns no path
    and carries the exception of the download. *)
Theorem X24_reported_success_means_the_file_exists
    (env : environment) (tmp : string -> option string)
    (URI : string) (path : option string) (temp : bool) (t : local_tree)
    (returned : option string) (success : bool) (error : option exn) :
  fst (fst (FromURI.download_file_from_URI env tmp URI path temp t))
  = UriReturned returned success error ->
  (success = true
   /\ error = None
   /\ exists p, returned = Some p
        /\ snd (fst (FromURI.download_file_from_URI env tmp URI path temp t)) !! p
           = Some (Inode false (clock env) (clock env)))
  \/ (success = false /\ returned = None /\ exists e, error = Some e).
Proof.
  assert (Hfetch : forall destination t0 before,
            fst (fst (FromURI.fetch env URI destination t0 before))
            = UriReturned returned success error ->
            (success = true /\ error = None
             /\ exists p, returned = Some p
                  /\ snd (fst (FromURI.fetch env URI destination t0 before)) !! p
                     = Some (Inode false (clock env) (clock env)))
            \/ (success = false /\ returned = None /\ exists e, error = Some e)).
  { intros destination t0 before. unfold FromURI.fetch.
    destruct (FromURI.bucket_of URI) as [bucket|]; [|done].
    unfold S3.download_file, bind, emit.
    destruct (S3.download_raises env bucket (FromURI.key_of URI) destination t0);
      simpl; intros H; injection H as <- <- <-.
    - right. eauto.
    - left. repeat split. exists destination. split; [done|]. apply lookup_insert_eq. }
  unfold FromURI.download_file_from_URI.
  destruct (FromURI.check_URI URI); [done|].
  destruct path as [dir|].
  - destruct (negb (bool_decide (is_Some (t !! dir)))); [done|].
    destruct (FromURI.extension URI); [apply Hfetch | done].
  - destruct (negb temp); [done|].
    destruct (FromURI.extension URI) as [ext|]; [|done].
    destruct (tmp ("." ++ ext)) as [name|]; [apply Hfetch | done].
Qed.

Lemma X24_reported_success_means_the_file_exists_witness :
  (true = true
   /\ @None exn = None
   /\ exists p, Some "data/a.csv" = Some p
        /\ snd (fst (FromURI.download_file_from_URI Sample.env (fun _ => None)
                       "s3://std-bucket/EP0001-dengue/a.csv" (Some "data") false
                       (Sample.local "data"))) !! p
           = Some (Inode false (clock Sample.env) (clock Sample.env)))
  \/ (true = false /\ Some "data/a.csv" = None /\ exists e, @None exn = Some e).
Proof.
  apply (X24_reported_success_means_the_file_exists
           Sample.env (fun _ => None) "s3://std-bucket/EP0001-dengue/a.csv"
           (Some "data") false (Sample.local "data")).
  vm_compute. reflexivity.
Defined.

(** ** [upload_file_to_URI] *)

Section Upload.

Lemma removeprefix_app (p s : string) : PyStrMore.removeprefix (p ++ s) p = s.
Proof.
  unfold PyStrMore.removeprefix.
  replace (PyStr.startswith (p ++ s) p) with true
    by (symmetry; apply startswith_app; by exists s).
  apply slice_from_app.
Qed.

Lemma not_prefix_of_shorter (b : string) : PyStr.startswith b (b ++ "/") = false.
Proof.
  destruct (PyStr.startswith b (b ++ "/")) eqn:H; [|done].
  apply startswith_app in H as [post H].
  apply (f_equal String.length) in H. rewrite !string_length_app in H.
  simpl in H. lia.
Qed.

End Upload.

(** X25: for a URI [s3://<bucket>/<key>] whose bucket has no separator,
    the upload is asked for exactly that bucket and that key, the same
    pair [download_file_from_URI] parses from the URI. *)
Theorem X25_upload_parses_bucket_and_key (bucket key file_name : string) :
  PyStr.contains bucket "/" = false ->
  upload_file_to_URI ("s3://" ++ bucket ++ "/" ++ key) file_name
  = UploadCall file_name bucket key
  /\ FromURI.bucket_of ("s3://" ++ bucket ++ "/" ++ key)
     = Some (up_Bucket (upload_file_to_URI ("s3://" ++ bucket ++ "/" ++ key) file_name))
  /\ FromURI.key_of ("s3://" ++ bucket ++ "/" ++ key)
     = up_Key (upload_file_to_URI ("s3://" ++ bucket ++ "/" ++ key) file_name).
Proof.
  intros Hlacks.
  assert (Hup : upload_file_to_URI ("s3://" ++ bucket ++ "/" ++ key) file_name
                = UploadCall file_name bucket key).
  { unfold upload_file_to_URI. cbv zeta. rewrite removeprefix_app.
    change (bucket ++ "/" ++ key) with (bucket ++ String "/" key).
    rewrite split_app_sep by done. simpl hd.
    change (bucket ++ String "/" key) with (bucket ++ "/" ++ key).
    by rewrite <- string_app_assoc, removeprefix_app. }
  rewrite Hup. split; [done|]. by apply parse_accepted_URI.
Qed.

Lemma X25_upload_parses_bucket_and_key_witness :
  upload_file_to_URI ("s3://" ++ "std-bucket" ++ "/" ++ "EP0001-dengue/a.csv") "a.csv"
  = UploadCall "a.csv" "std-bucket" "EP0001-dengue/a.csv".
Proof.
  apply (X25_upload_parses_bucket_and_key "std-bucket" "EP0001-dengue/a.csv" "a.csv").
  reflexivity.
Defined.

(** X26: the upload helper checks nothing: a URI that names only a bucket,
    [s3://<bucket>], is uploaded to that bucket under a key equal to the
    bucket's own name. *)
Theorem X26_upload_without_key_uses_the_bucket_name (bucket file_name : string) :
  PyStr.contains bucket "/" = false ->
  upload_file_to_URI ("s3://" ++ bucket) file_name = UploadCall file_name bucket bucket.
Proof.
  intros Hlacks. unfold upload_file_to_URI. cbv zeta. rewrite removeprefix_app.
  rewrite split_lacks by done. simpl hd. unfold PyStrMore.removeprefix.
  by rewrite not_prefix_of_shorter.
Qed.

Lemma X26_upload_without_key_uses_the_bucket_name_witness :
  upload_file_to_URI ("s3://" ++ "std-bucket") "a.csv"
  = UploadCall "a.csv" "std-bucket" "std-bucket".
Proof.
  apply (X26_upload_without_key_uses_the_bucket_name "std-bucket" "a.csv").
  reflexivity.
Defined.

(** * Properties of [fetch_data_documentation] *)

Section DocsFacts.

Variable Y : Type.
Variable safe_load : string -> option Y.
Variable get : string -> response.

Lemma fetch_raw_events (gh_urls repo_info : option (gmap string string))
    (dsid meta_path dict_path : string) (binary : bool) (before : list doc_event) :
  exists later,
    snd (Docs.fetch_raw Y safe_load get gh_urls repo_info dsid meta_path dict_path
                        binary before)
    = (before ++ DocGet (Docs.raw_url gh_urls repo_info meta_path) :: later)%list
    /\ List.filter is_doc_warning later = [].
Proof.
  unfold Docs.fetch_raw.
  repeat match goal with
         | |- context [if ?b then _ else _] => destruct b
         | |- context [match safe_load ?x with _ => _ end] => destruct (safe_load x)
         end; simpl; rewrite <- ?app_assoc; simpl; eexists; split; done.
Qed.

(** The events of a call begin with the warnings of the two checks and
    the request of the tree; no warning comes later. *)
Lemma fetch_events (dsid : string) (gh_urls repo_info : option (gmap string string))
    (default binary : bool) :
  exists later,
    snd (Docs.fetch_data_documentation Y safe_load get dsid gh_urls repo_info
                                       default binary)
    = ((Docs.validate "repo_info" Docs.repo_info_keys repo_info default
        ++ Docs.validate "gh_urls" Docs.gh_urls_keys gh_urls default)
       ++ DocGet (Docs.tree_url gh_urls repo_info) :: later)%list
    /\ List.filter is_doc_warning later = [].
Proof.
  unfold Docs.fetch_data_documentation. cbv zeta.
  destruct (Nat.eqb (status_code (get (Docs.tree_url gh_urls repo_info))) 200).
  - destruct (Docs.find_datadict _ _ _) as [p|]; [|by exists []].
    destruct (String.eqb p ""); [by exists []|].
    destruct (fetch_raw_events gh_urls repo_info dsid
                (Docs.replace p (Docs.setting repo_info "datadict_fname"
                                   "datadictionary.yaml")
                              (Docs.setting repo_info "metadata_fname" "metadata.yaml"))
                p binary
                ((Docs.validate "repo_info" Docs.repo_info_keys repo_info default
                  ++ Docs.validate "gh_urls" Docs.gh_urls_keys gh_urls default)
                 ++ [DocGet (Docs.tree_url gh_urls repo_info)])%list)
      as (later & -> & Hlater).
    eexists. rewrite <- app_assoc. simpl. split; [done|]. done.
  - repeat match goal with
           | |- context [if ?b then _ else _] => destruct b
           end; by exists [].
Qed.

Lemma validate_only_warns (which : string) (allowed : gset string)
    (given : option (gmap string string)) (default : bool) :
  List.filter is_doc_get (Docs.validate which allowed given default) = [].
Proof.
  unfold Docs.validate. destruct given as [d|]; [|by destruct default].
  repeat case_bool_decide; by destruct default.
Qed.

End DocsFacts.

(** X27: a [repo_info] dictionary that lacks some of the six settings is
    warned about, with the set of missing keys, whether [default] is set
    or not ([default] changes only the stack level of the warning). *)
Theorem X27_missing_settings_are_warned_about_even_by_default
    (Y : Type) (safe_load : string -> option Y) (get : string -> response)
    (dsid : string) (gh_urls : option (gmap string string))
    (repo_info : gmap string string) (default binary : bool) :
  Docs.repo_info_keys ∖ dom repo_info <> ∅ ->
  DocWarn (MissingKeys "repo_info" (Docs.repo_info_keys ∖ dom repo_info)
                       (if default then 2 else 1))
  ∈ snd (Docs.fetch_data_documentation Y safe_load get dsid gh_urls (Some repo_info)
                                       default binary).
Proof.
  intros Hmissing.
  destruct (fetch_events Y safe_load get dsid gh_urls (Some repo_info) default binary)
    as (later & -> & _).
  apply elem_of_app. left. apply elem_of_app. left.
  unfold Docs.validate. apply elem_of_app. right.
  rewrite bool_decide_false by done. destruct default; apply list_elem_of_here.
Qed.

Lemma X27_missing_settings_are_warned_about_even_by_default_witness :
  DocWarn (MissingKeys "repo_info"
             (Docs.repo_info_keys ∖ dom ({["branch" := "main"]} : gmap string string))
             (if true then 2 else 1))
  ∈ snd (Docs.fetch_data_documentation unit (fun _ => Some tt) sample_web "EP0001" None
           (Some {["branch" := "main"]}) true true).
Proof.
  apply (X27_missing_settings_are_warned_about_even_by_default
           unit (fun _ => Some tt) sample_web "EP0001" None {["branch" := "main"]}
           true true).
  vm_compute. discriminate.
Defined.

(** X28: called as [download_dataset_v2] calls it (no dictionaries,
    default=True, binary=True), the function issues no warning, begins
    with the request of the tree of the default repository, and ends with
    a [ValueError] or the two raw contents, never with parsed YAML. *)
Theorem X28_the_call_of_the_pass_is_silent_and_raw
    (Y : Type) (safe_load : string -> option Y) (get : string -> response)
    (dsid : string) :
  List.filter is_doc_warning
    (snd (Docs.fetch_data_documentation Y safe_load get dsid None None true true)) = []
  /\ hd_error (snd (Docs.fetch_data_documentation Y safe_load get dsid None None
                                                  true true))
     = Some (DocGet (Docs.tree_url None None))
  /\ ((exists msg, fst (Docs.fetch_data_documentation Y safe_load get dsid None None
                                                      true true)
                   = DocValueError msg)
      \/ exists metadata datadict,
           fst (Docs.fetch_data_documentation Y safe_load get dsid None None true true)
           = DocBytes metadata datadict).
Proof.
  destruct (fetch_events Y safe_load get dsid None None true true)
    as (later & Hev & Hlater).
  rewrite Hev. simpl. split; [done|]. split; [done|].
  unfold Docs.fetch_data_documentation, Docs.fetch_raw. cbv zeta.
  repeat match goal with
         | |- context [if ?b then _ else _] => destruct b
         | |- context [match Docs.find_datadict ?t ?p ?f with _ => _ end] =>
             destruct (Docs.find_datadict t p f)
         end; simpl; eauto.
Qed.

Section ReplaceFacts.

Lemma prefix_refl (s : string) : String.prefix s s = true.
Proof. apply prefix_app. exists "". by rewrite string_app_empty_r. Qed.

Lemma replace_from_empty (fuel : nat) (old new : string) :
  old <> "" -> Docs.replace_from fuel old new "" = "".
Proof. intros Hold. destruct fuel; [done|]. by destruct old. Qed.

Lemma replace_from_step (fuel : nat) (old new s : string) :
  Docs.replace_from (S fuel) old new s =
  if String.prefix old s then
    new ++ Docs.replace_from fuel old new (PyStr.slice_from (String.length old) s)
  else match s with
       | EmptyString => EmptyString
       | String c rest => String c (Docs.replace_from fuel old new rest)
       end.
Proof. reflexivity. Qed.

(** Replacing a name that occurs only at the end of a path. *)
Lemma replace_from_at_end (fuel : nat) (dir old new : string) :
  old <> "" ->
  (forall a b, dir ++ old = a ++ old ++ b -> b = "") ->
  String.length (dir ++ old) < fuel ->
  Docs.replace_from fuel old new (dir ++ old) = dir ++ new.
Proof.
  intros Hold. revert fuel. induction dir as [|c dir IH]; intros fuel Honce Hfuel.
  - rewrite !string_app_nil in *. destruct fuel as [|fuel]; [lia|].
    rewrite replace_from_step, prefix_refl.
    replace (PyStr.slice_from (String.length old) old) with ""
      by (rewrite <- (string_app_empty_r old) at 2; by rewrite slice_from_app).
    by rewrite replace_from_empty, string_app_empty_r.
  - destruct fuel as [|fuel]; [lia|].
    rewrite string_app_cons in Hfuel. simpl in Hfuel.
    rewrite !string_app_cons, replace_from_step.
    destruct (String.prefix old (String c (dir ++ old))) eqn:Hpre.
    + exfalso. apply prefix_app in Hpre as [post Hpost].
      assert (post = "") as ->
        by (apply (Honce "" post); by rewrite string_app_nil, string_app_cons).
      rewrite string_app_empty_r in Hpost.
      apply (f_equal String.length) in Hpost.
      rewrite <- string_app_cons, string_length_app in Hpost. simpl in Hpost. lia.
    + f_equal. apply IH; [|lia].
      intros a b Hab. apply (Honce (String c a) b).
      by rewrite !string_app_cons, Hab.
Qed.

Lemma replace_at_end (dir old new : string) :
  old <> "" ->
  (forall a b, dir ++ old = a ++ old ++ b -> b = "") ->
  Docs.replace (dir ++ old) old new = dir ++ new.
Proof.
  intros Hold Honce. unfold Docs.replace.
  apply String.eqb_neq in Hold as Hneq. rewrite Hneq.
  apply replace_from_at_end; [done | done | lia].
Qed.

End ReplaceFacts.

(** X29: when the request of the tree does not answer 200, or no path of
    the tree has both the prefix of the dataset and the name of the data
    dictionary, the function raises a [ValueError] after that one request:
    no raw file is requested. *)
Theorem X29_no_catalogue_entry_no_further_request
    (Y : Type) (safe_load : string -> option Y) (get : string -> response)
    (dsid : string) (gh_urls repo_info : option (gmap string string))
    (default binary : bool) :
  status_code (get (Docs.tree_url gh_urls repo_info)) <> 200
  \/ (forall path,
        path ∈ from_option id [] (json_tree (get (Docs.tree_url gh_urls repo_info))) ->
        PyStr.startswith path (Docs.dsid_path_prefix repo_info dsid)
        && PyStr.endswith path (Docs.setting repo_info "datadict_fname"
                                             "datadictionary.yaml") = false) ->
  (exists msg, fst (Docs.fetch_data_documentation Y safe_load get dsid gh_urls repo_info
                                                  default binary)
               = DocValueError msg)
  /\ List.filter is_doc_get
       (snd (Docs.fetch_data_documentation Y safe_load get dsid gh_urls repo_info
                                           default binary))
     = [DocGet (Docs.tree_url gh_urls repo_info)].
Proof.
  intros Hfail. unfold Docs.fetch_data_documentation. cbv zeta.
  assert (Hevs : List.filter is_doc_get
            ((Docs.validate "repo_info" Docs.repo_info_keys repo_info default
              ++ Docs.validate "gh_urls" Docs.gh_urls_keys gh_urls default)
             ++ [DocGet (Docs.tree_url gh_urls repo_info)])
          = [DocGet (Docs.tree_url gh_urls repo_info)])
    by (by rewrite !List.filter_app, !validate_only_warns).
  destruct (Nat.eqb_spec (status_code (get (Docs.tree_url gh_urls repo_info))) 200)
    as [H200 | Hne].
  - destruct Hfail as [? | Hnone]; [done|].
    destruct (Docs.find_datadict _ _ _) as [p|] eqn:Hfind; [|split; [eauto | done]].
    exfalso. apply List.find_some in Hfind as [Hin Hp].
    apply list_elem_of_In, Hnone in Hin. congruence.
  - repeat match goal with
           | |- context [if ?b then _ else _] => destruct b
           end; (split; [eauto | done]).
Qed.

Lemma X29_no_catalogue_entry_no_further_request_witness :
  List.filter is_doc_get
    (snd (Docs.fetch_data_documentation unit (fun _ => Some tt) sample_web "EP0001"
            (Some {["api_base_url" := "https://example.org/"]}) None true true))
  = [DocGet (Docs.tree_url (Some {["api_base_url" := "https://example.org/"]}) None)].
Proof.
  apply (X29_no_catalogue_entry_no_further_request
           unit (fun _ => Some tt) sample_web "EP0001"
           (Some {["api_base_url" := "https://example.org/"]}) None true true).
  left. vm_compute. discriminate.
Defined.

(** X30: when the tree answers 200, the first matching path is
    [dir ++ datadict_fname] with the name occurring only there, and both
    raw requests answer 200, the metadata is requested beside the data
    dictionary, at [dir ++ metadata_fname], before it; with binary=True
    the function returns the two raw contents, metadata first, after
    exactly three requests. *)
Theorem X30_metadata_is_fetched_beside_the_data_dictionary
    (Y : Type) (safe_load : string -> option Y) (get : string -> response)
    (dsid dir : string) (gh_urls repo_info : option (gmap string string))
    (default : bool) :
  status_code (get (Docs.tree_url gh_urls repo_info)) = 200 ->
  Docs.setting repo_info "datadict_fname" "datadictionary.yaml" <> "" ->
  Docs.find_datadict
    (from_option id [] (json_tree (get (Docs.tree_url gh_urls repo_info))))
    (Docs.dsid_path_prefix repo_info dsid)
    (Docs.setting repo_info "datadict_fname" "datadictionary.yaml")
  = Some (dir ++ Docs.setting repo_info "datadict_fname" "datadictionary.yaml") ->
  (forall a b,
     dir ++ Docs.setting repo_info "datadict_fname" "datadictionary.yaml"
     = a ++ Docs.setting repo_info "datadict_fname" "datadictionary.yaml" ++ b ->
     b = "") ->
  status_code
    (get (Docs.raw_url gh_urls repo_info
            (dir ++ Docs.setting repo_info "metadata_fname" "metadata.yaml"))) = 200 ->
  status_code
    (get (Docs.raw_url gh_urls repo_info
            (dir ++ Docs.setting repo_info "datadict_fname" "datadictionary.yaml")))
  = 200 ->
  fst (Docs.fetch_data_documentation Y safe_load get dsid gh_urls repo_info default true)
  = DocBytes
      (content (get (Docs.raw_url gh_urls repo_info
                       (dir ++ Docs.setting repo_info "metadata_fname" "metadata.yaml"))))
      (content (get (Docs.raw_url gh_urls repo_info
                       (dir ++ Docs.setting repo_info "datadict_fname"
                                            "datadictionary.yaml"))))
  /\ List.filter is_doc_get
       (snd (Docs.fetch_data_documentation Y safe_load get dsid gh_urls repo_info
                                           default true))
     = [DocGet (Docs.tree_url gh_urls repo_info);
        DocGet (Docs.raw_url gh_urls repo_info
                  (dir ++ Docs.setting repo_info "metadata_fname" "metadata.yaml"));
        DocGet (Docs.raw_url gh_urls repo_info
                  (dir ++ Docs.setting repo_info "datadict_fname" "datadictionary.yaml"))].
Proof.
  intros Htree Hname Hfind Honce Hmeta Hdict.
  unfold Docs.fetch_data_documentation. cbv zeta.
  rewrite Htree, Hfind. simpl Nat.eqb. cbv iota.
  replace (String.eqb (dir ++ _) "") with false.
  2:{ symmetry. apply String.eqb_neq. intros H.
      apply (f_equal String.length) in H. rewrite string_length_app in H.
      destruct (Docs.setting repo_info "datadict_fname" "datadictionary.yaml");
        [done | simpl in H; lia]. }
  rewrite replace_at_end by done.
  unfold Docs.fetch_raw. cbv zeta. rewrite Hmeta, Hdict. simpl Nat.eqb. simpl negb.
  cbv iota. split; [done|]. simpl fst. simpl snd.
  by rewrite !List.filter_app, !validate_only_warns.
Qed.

Lemma X30_metadata_is_fetched_beside_the_data_dictionary_witness :
  fst (Docs.fetch_data_documentation unit (fun _ => Some tt)
         (fun _ => Response 200 (Some ["README.md"; "i/EP/EP-x/d"]) "raw") "EP"
         None (Some {["datadict_fname" := "d"; "catalogue_path" := "i"]}) true true)
  = DocBytes "raw" "raw".
Proof.
  apply (X30_metadata_is_fetched_beside_the_data_dictionary
           unit (fun _ => Some tt)
           (fun _ => Response 200 (Some ["README.md"; "i/EP/EP-x/d"]) "raw") "EP"
           "i/EP/EP-x/" None (Some {["datadict_fname" := "d"; "catalogue_path" := "i"]})
           true); try (vm_compute; reflexivity).
  - vm_compute. discriminate.
  - change (Docs.setting (Some {["datadict_fname" := "d"; "catalogue_path" := "i"]})
                         "datadict_fname" "datadictionary.yaml") with "d".
    intros a b H. rewrite (string_app_cons "d" "" b), string_app_nil in H.
    change ("i/EP/EP-x/" ++ "d") with "i/EP/EP-x/d" in H.
    do 11 (destruct a as [|? a];
           [rewrite string_app_nil in H;
            first [discriminate H | by injection H as <-]
           | rewrite string_app_cons in H; injection H as _ H]).
    destruct a; discriminate H.
Defined.
